(** * sfaira estimators: feature remapping, partitioning, label encoding

    A shallow embedding of the data-preparation core of
    [sfaira/estimators/keras.py] together with the properties its
    specification states about it.

    Conventions of the embedding.
    - A Python call either returns a value or raises: [result A].
    - Expression matrices are kept row by row (one row per observation) with
      integer counts as entries; the number of columns is stored next to the
      rows because a matrix with no observation still has a width.
    - NumPy index arrays are lists of naturals; [None] for an optional
      argument is [None] of [option]. *)

From Stdlib Require Import ZArith QArith Qcanon Qround Lia Lqa.
From stdpp Require Import base list strings gmap sorting.

Open Scope Z_scope.
Open Scope nat_scope.
Open Scope string_scope.
Open Scope list_scope.

(** ** Python values, exceptions and built-ins *)

Module Py.

Inductive exn : Type :=
| ValueError (msg : string)
| IndexError (msg : string)
| KeyError (key : string)
| TypeError (msg : string)
| UnboundLocalError (var : string)
| FileNotFoundError (msg : string).

Inductive result (A : Type) : Type :=
| Ok (a : A)
| Raise (e : exn).
Arguments Ok {A} a.
Arguments Raise {A} e.

Definition bind {A B : Type} (m : result A) (k : A -> result B) : result B :=
  match m with
  | Ok a => k a
  | Raise e => Raise e
  end.

Definition of_option {A : Type} (e : exn) (o : option A) : result A :=
  match o with
  | Some a => Ok a
  | None => Raise e
  end.

Definition raises {A : Type} (m : result A) : Prop :=
  match m with
  | Ok _ => False
  | Raise _ => True
  end.

(** [for a in l: acc = body(acc, a)], stopping at the first exception. *)
Fixpoint for_each {A S : Type} (body : S -> A -> result S) (l : list A) (s : S)
  : result S :=
  match l with
  | [] => Ok s
  | a :: l' => bind (body s a) (for_each body l')
  end.

(** [range(start, stop, step)] for a positive [step]; Python raises
    [ValueError] when the step is zero. *)
Definition range (start stop step : nat) : result (list nat) :=
  match step with
  | O => Raise (ValueError "range() arg 3 must not be zero")
  | S _ => Ok ((fun k => start + k * step) <$> seq 0 ((stop - start + step - 1) / step))
  end.

(** [l[i:j]] and [l[i:]] on a sequence; slices clamp to the length. *)
Definition slice {A : Type} (l : list A) (i j : nat) : list A :=
  take (j - i) (drop i l).
Definition slice_from {A : Type} (l : list A) (i : nat) : list A :=
  drop i l.

(** [l.index(x)]: the first position of [x], if any. *)
Definition index `{EqDecision A} (l : list A) (x : A) : option nat :=
  fst <$> list_find (fun y => y = x) l.

(** [l[idx]] for an index array [idx]; [None] when an index is out of
    range. *)
Definition take_idx {A : Type} (l : list A) (idx : list nat) : option (list A) :=
  mapM (fun i => l !! i) idx.

(** [np.where(mask)[0]]: the positions at which a predicate holds. *)
Fixpoint where_from {A : Type} (p : A -> bool) (l : list A) (i : nat) : list nat :=
  match l with
  | [] => []
  | a :: l' => if p a then i :: where_from p l' (S i) else where_from p l' (S i)
  end.
Definition where_ {A : Type} (p : A -> bool) (l : list A) : list nat :=
  where_from p l 0.

End Py.

Import Py.

#[global] Instance result_ret : MRet result := fun _ a => Ok a.
#[global] Instance result_bind : MBind result := fun _ _ k m => Py.bind m k.

(** ** Sparse matrices (scipy.sparse), as far as the estimator uses them *)

Module Sparse.

Record matrix : Type := Matrix {
  ncols : nat;
  rows : list (list Z)
}.

Definition nrows (m : matrix) : nat := length (rows m).

(** Every row has the declared width. *)
Definition well_shaped (m : matrix) : Prop :=
  Forall (fun r => length r = ncols m) (rows m).

(** [csc_matrix((n, w))]: the empty matrix of the given shape. *)
Definition zeros (n w : nat) : matrix :=
  Matrix w (replicate n (replicate w 0%Z)).

(** [x[idx, :]] *)
Definition getitem_rows (x : matrix) (idx : list nat) : result matrix :=
  r ← of_option (IndexError "index out of bounds") (take_idx (rows x) idx);
  Ok (Matrix (ncols x) r).

(** [x[:, idx]] *)
Definition getitem_cols (x : matrix) (idx : list nat) : result matrix :=
  r ← of_option (IndexError "index out of bounds")
         (mapM (fun row => take_idx row idx) (rows x));
  Ok (Matrix (length idx) r).

(** [x[:, i:j]] and [x[:, i:]] *)
Definition getitem_colslice (x : matrix) (i j : nat) : matrix :=
  Matrix (Nat.min (j - i) (ncols x - i)) ((fun row => slice row i j) <$> rows x).
Definition getitem_colslice_from (x : matrix) (i : nat) : matrix :=
  Matrix (ncols x - i) ((fun row => slice_from row i) <$> rows x).

(** One row of [x_new[:, targets] = x].  A compressed sparse matrix first
    clears the addressed entries (the [_zero_many] step the source comment
    names) and then stores the stored, i.e. nonzero, entries of the
    right-hand side at their target positions, in column order. *)
Definition zero_many (targets : list nat) (dst : list Z) : list Z :=
  foldl (fun d t => <[t := 0%Z]> d) dst targets.
Definition set_many (entries : list (nat * Z)) (dst : list Z) : list Z :=
  foldl (fun d tv => if (tv.2 =? 0)%Z then d else <[tv.1 := tv.2]> d) dst entries.
Definition assign_row (targets : list nat) (src dst : list Z) : list Z :=
  set_many (zip targets src) (zero_many targets dst).

(** [x_new[:, targets] = x] *)
Definition setitem_cols (x_new : matrix) (targets : list nat) (x : matrix)
  : result matrix :=
  if negb (bool_decide (nrows x = nrows x_new /\ ncols x = length targets)) then
    Raise (ValueError "shape mismatch in assignment")
  else if negb (bool_decide (Forall (fun t => t < ncols x_new) targets)) then
    Raise (IndexError "index out of range")
  else
    Ok (Matrix (ncols x_new) (zip_with (assign_row targets) (rows x) (rows x_new))).



End Sparse.

Import Sparse.

(** ** The annotated data matrix and the model topology *)

Module Anndata.

(** The Python type of [data.X]. *)
Inductive xkind : Type := NdArray | SpMatrix | OtherX.

(** The fields of [anndata.AnnData] the estimator reads: the matrix, the
    [ensembl] column of [var], the columns of [obs], the string entries of
    [uns], and the file name of a backed (out-of-core) object. *)
Record AnnData : Type := {
  X : matrix;
  X_kind : xkind;
  var_ensembl : list string;
  obs : gmap string (list string);
  uns : gmap string string;
  filename : option string
}.

Definition n_obs (d : AnnData) : nat := nrows (X d).

End Anndata.

Import Anndata.

(** [Topologies] and its genome container are imported from [.external]:
    only the reference identifiers and the genome name are read here. *)
Record Topologies : Type := {
  genome : string;
  ensembl : list string
}.

(** Modelled from the spec: [topology_container.ngenes], declared outside the
    estimator, is the length N_ref of the ordered reference identifier list. *)
Definition ngenes (tc : Topologies) : nat := length (ensembl tc).

(** ** EstimatorKeras *)

Record EstimatorKeras : Type := {
  data : AnnData;
  topology_container : Topologies;
  model_dir : string;
  model_id : string;
  model_type : string;
  md5 : option string;
  cache_path : string
}.

(** Lines 212-222 of [_prepare_data_matrix], with the chunk width [step] as
    a parameter (the source fixes it to 2000): the loop over
    [range(0, len(idx_feature_map), step)], the assignment after the loop that
    reuses the last loop index, and the single assignment of the other
    branch. *)
Definition copy_columns (step : nat) (idx_feature_map : list nat) (x x_new : matrix)
  : result matrix :=
  if bool_decide (step < length idx_feature_map) then
    starts ← range 0 (length idx_feature_map) step;
    st ← for_each
          (fun (st : matrix * option nat) i =>
             x_new' ← setitem_cols st.1 (slice idx_feature_map i (i + step))
                                   (getitem_colslice x i (i + step));
             Ok (x_new', Some i))
          starts (x_new, None);
    match st.2 with
    | None => Raise (UnboundLocalError "i")
    | Some i =>
        setitem_cols st.1 (slice_from idx_feature_map (i + step))
                     (getitem_colslice_from x (i + step))
    end
  else
    setitem_cols x_new idx_feature_map x.

(** [_prepare_data_matrix] with the chunk width as a parameter.  Entries are
    integer counts, so the repair of NaN entries of a dense float array has
    nothing to do here; the three [print] calls at the end, which only report
    counts, are left out. *)
Definition _prepare_data_matrix_step (step : nat) (self : EstimatorKeras)
    (idx : option (list nat)) : result matrix :=
  let idx := default (seq 0 (n_obs (data self))) idx in
  match filename (data self) with
  | None =>
      x ← match X_kind (data self) with
          | NdArray | SpMatrix => Ok (X (data self))
          | OtherX => Raise (ValueError "data type not recognized")
          end;
      x ← getitem_rows x idx;
      if bool_decide (uns (data self) !! "mapped_features"
                      = Some (genome (topology_container self))) then
        Ok x
      else
        let reference := ensembl (topology_container self) in
        let data_ids := var_ensembl (data self) in
        let idx_feature_kept := where_ (fun g => bool_decide (g ∈ reference)) data_ids in
        kept_ids ← of_option (IndexError "index out of bounds")
                     (take_idx data_ids idx_feature_kept);
        idx_feature_map ← of_option (ValueError "is not in list")
                            (mapM (index reference) kept_ids);
        x ← getitem_cols x idx_feature_kept;
        let x_new := zeros (nrows x) (ngenes (topology_container self)) in
        copy_columns step idx_feature_map x x_new
  | Some _ =>
      Raise (ValueError "tried running backed anndata object through standard pipeline")
  end.

Definition _prepare_data_matrix : EstimatorKeras -> option (list nat) -> result matrix :=
  _prepare_data_matrix_step 2000.

(** ** Numbers

    Python floats are taken as exact rationals: rounding errors of the binary
    formats are outside this model. *)

Module Num.

(** Python's [round(x)] to an integer: to nearest, ties to even. *)
Definition py_round (x : Qc) : Z :=
  let q : Q := x in
  let fl := Qfloor q in
  let r := (q - inject_Z fl)%Q in
  if Qlt_le_dec r (1 # 2) then fl
  else if Qlt_le_dec (1 # 2) r then (fl + 1)%Z
  else if Z.even fl then fl else (fl + 1)%Z.

Definition of_nat (n : nat) : Qc := Qc_of_Z (Z.of_nat n).

End Num.

Import Num.

(** ** numpy.random

    The generator is known through the permutation it draws for a given seed
    and population size; [np.random.seed(s)] makes the next draw the one of
    seed [s]. *)

Record RandomState : Type := {
  permutation : nat -> nat -> list nat
}.

Definition valid_random_state (rs : RandomState) : Prop :=
  forall seed n, permutation rs seed n ≡ₚ seq 0 n.

(** [np.random.choice(a, size, replace=False)] right after
    [np.random.seed(seed)]: the first [size] entries of a permutation of the
    positions of [a]. *)
Definition choice (rs : RandomState) (seed : nat) (a : list nat) (size : Z)
  : result (list nat) :=
  if decide (size < 0)%Z then
    Raise (ValueError "negative dimensions are not allowed")
  else if decide (length a < Z.to_nat size) then
    Raise (ValueError "Cannot take a larger sample than population when 'replace=False'")
  else
    of_option (IndexError "index out of bounds")
      (take_idx a (take (Z.to_nat size) (permutation rs seed (length a)))).

(** ** Partitioning in [EstimatorKeras.train] (lines 374-411) *)

Inductive split_value : Type :=
| AnyOf (accepted : list string)
| Equals (v : string).

Inductive test_split_t : Type :=
| SplitFraction (f : Qc)
| SplitDict (items : list (string * split_value))
| SplitOther.

Record Partition : Type := {
  idx_train : list nat;
  idx_eval : list nat;
  idx_test : list nat
}.

(** [np.logical_and] of two boolean vectors of one length. *)
Definition logical_and (a b : list bool) : result (list bool) :=
  if decide (length a = length b) then Ok (zip_with andb a b)
  else Raise (ValueError "operands could not be broadcast together").

Definition in_test_step (d : AnnData) (in_test : list bool) (kv : string * split_value)
  : result (list bool) :=
  col ← of_option (KeyError kv.1) (obs d !! kv.1);
  match kv.2 with
  | AnyOf v => logical_and in_test ((fun x => bool_decide (x ∈ v)) <$> col)
  | Equals v => logical_and in_test ((fun x => bool_decide (x = v)) <$> col)
  end.

(** Lines 374-403: the test indices, then the evaluation indices drawn from
    the rest, then the training indices. *)
Definition split_indices (rs : RandomState) (self : EstimatorKeras)
    (test_split : test_split_t) (validation_split : Qc) : result Partition :=
  let n := n_obs (data self) in
  let all_idx := seq 0 n in
  test ← match test_split with
         | SplitFraction f => choice rs 1 all_idx (py_round (of_nat n * f)%Qc)
         | SplitDict items =>
             in_test ← for_each (in_test_step (data self)) items (replicate n true);
             Ok (where_ id in_test)
         | SplitOther => Raise (ValueError "type of test_split not recognized")
         end;
  let idx_train_eval := filter (fun x => x ∉ test) all_idx in
  eval ← choice rs 1 idx_train_eval
           (py_round (of_nat (length idx_train_eval) * validation_split)%Qc);
  let train := filter (fun x => x ∉ eval) idx_train_eval in
  Ok {| idx_train := train; idx_eval := eval; idx_test := test |}.

(** Lines 405-411: the emptiness checks.  The first component collects the
    warnings issued, also when the call goes on to raise. *)
Definition check_partitions (p : Partition) : list string * result Partition :=
  let warnings :=
    if decide (length (idx_test p) = 0) then ["Test partition is empty!"] else [] in
  if decide (length (idx_eval p) = 0) then
    (warnings, Raise (ValueError "The evaluation dataset is empty."))
  else if decide (length (idx_train p) = 0) then
    (warnings, Raise (ValueError "The train dataset is empty."))
  else (warnings, Ok p).

(** [train] from the split up to the checks; what follows (compiling and
    fitting the model) receives the partition returned here. *)
Definition train_split (rs : RandomState) (self : EstimatorKeras)
    (test_split : test_split_t) (validation_split : Qc)
  : list string * result Partition :=
  match split_indices rs self test_split validation_split with
  | Ok p => check_partitions p
  | Raise e => ([], Raise e)
  end.

(** ** Weight files (lines 77-148) *)

Module Os.

Inductive entry : Type :=
| File (content : string)
| Dir.

(** The file system, the weights the model currently holds, and the two
    external functions the loader calls: the MD5 hex digest of a file
    content and the download of a URL ([None] for an HTTP error). *)
Record world : Type := {
  fs : gmap string entry;
  loaded_weights : option string
}.

Record env : Type := {
  hexdigest : string -> string;
  urlretrieve : string -> option string
}.

Definition exists_ (w : world) (path : string) : bool :=
  bool_decide (is_Some (fs w !! path)).

Definition write_file (w : world) (path content : string) : world :=
  {| fs := <[path := File content]> (fs w); loaded_weights := loaded_weights w |}.

Definition makedirs (w : world) (path : string) : world :=
  {| fs := <[path := Dir]> (fs w); loaded_weights := loaded_weights w |}.

Definition load_weights (w : world) (path : string) : world :=
  {| fs := fs w; loaded_weights := Some path |}.

Definition startswith (s p : string) : bool := String.prefix p s.
Definition endswith (s p : string) : bool :=
  bool_decide (String.length p <= String.length s) &&
  String.eqb (String.substring (String.length s - String.length p) (String.length p) s) p.

End Os.

Import Os.

(** [_assert_md5_sum]: the digest of the file is compared with the expected
    one; a digest is a string and never equals [None]. *)
Definition _assert_md5_sum (e : env) (w : world) (fn : string) (target_md5 : option string)
  : result unit :=
  match fs w !! fn with
  | Some (File content) =>
      let hsh := hexdigest e content in
      if negb (bool_decide (Some hsh = target_md5)) then
        Raise (ValueError ("md5 of " +:+ fn +:+ " did not match expectation"))
      else Ok tt
  | Some Dir => Raise (ValueError ("[Errno 21] Is a directory: " +:+ fn))
  | None => Raise (FileNotFoundError fn)
  end.

(** The path (without extension) at which [load_pretrained_weights] looks
    for the weights. *)
Definition weights_fn (self : EstimatorKeras) : string :=
  let model_dir :=
    if endswith (model_dir self) "/" then model_dir self +:+ "/" else model_dir self in
  if startswith model_dir "http" then cache_path self +:+ model_id self +:+ "_weights"
  else model_dir +:+ model_id self +:+ "_weights".

Definition load_pretrained_weights (e : env) (self : EstimatorKeras) (w : world)
  : world * result unit :=
  let model_dir :=
    if endswith (model_dir self) "/" then model_dir self +:+ "/" else model_dir self in
  let fetched : world * result string :=
    if startswith model_dir "http" then
      let w := if negb (exists_ w (cache_path self)) then makedirs w (cache_path self) else w in
      match urlretrieve e (model_dir +:+ model_id self +:+ "_weights.h5") with
      | Some c =>
          (write_file w (cache_path self +:+ model_id self +:+ "_weights.h5") c,
           Ok (cache_path self +:+ model_id self +:+ "_weights"))
      | None =>
          match urlretrieve e (model_dir +:+ model_id self +:+ "_weights.data-00000-of-00001") with
          | Some c =>
              (write_file w (cache_path self +:+ model_id self
                             +:+ "_weights.data-00000-of-00001") c,
               Ok (cache_path self +:+ model_id self +:+ "_weights"))
          | None =>
              (w, Raise (FileNotFoundError
                           ("cannot find remote weightsfile: " +:+ model_dir +:+ model_id self)))
          end
      end
    else if String.eqb model_dir "" then
      (w, Raise (ValueError "the model_id is set but the path to the model is empty"))
    else (w, Ok (model_dir +:+ model_id self +:+ "_weights")) in
  match fetched with
  | (w, Raise err) => (w, Raise err)
  | (w, Ok fn) =>
      if exists_ w (fn +:+ ".h5") then
        match _assert_md5_sum e w (fn +:+ ".h5") (md5 self) with
        | Ok _ => (load_weights w (fn +:+ ".h5"), Ok tt)
        | Raise err => (w, Raise err)
        end
      else if exists_ w (fn +:+ ".data-00000-of-00001") then
        match _assert_md5_sum e w (fn +:+ ".data-00000-of-00001") (md5 self) with
        | Ok _ => (load_weights w fn, Ok tt)
        | Raise err => (w, Raise err)
        end
      else if exists_ w fn then
        (w, Raise (ValueError
                     "weights files saved in h5 format need to have an h5 file extension"))
      else
        (w, Raise (ValueError ("the weightsfile " +:+ fn +:+ " could not be found")))
  end.

(** ** Floating-point values of the label encoder

    Exact rationals extended with the two infinities and NaN, so that a
    division by zero yields what NumPy yields instead of raising. *)

Module Float.

Inductive t : Type :=
| Fin (q : Qc)
| PInf
| NInf
| NaN.

#[global] Instance inhabited : Inhabited t := populate NaN.

Definition of_Z (z : Z) : t := Fin (Qc_of_Z z).

Definition add (a b : t) : t :=
  match a, b with
  | NaN, _ | _, NaN => NaN
  | PInf, NInf | NInf, PInf => NaN
  | PInf, _ | _, PInf => PInf
  | NInf, _ | _, NInf => NInf
  | Fin x, Fin y => Fin (x + y)
  end.

Definition neg (a : t) : t :=
  match a with
  | Fin x => Fin (- x)
  | PInf => NInf
  | NInf => PInf
  | NaN => NaN
  end.

Definition signed_inf (positive : bool) : t := if positive then PInf else NInf.

Definition mul (a b : t) : t :=
  match a, b with
  | NaN, _ | _, NaN => NaN
  | Fin x, Fin y => Fin (x * y)
  | Fin x, PInf | PInf, Fin x =>
      if decide (x = 0)%Qc then NaN else signed_inf (bool_decide (0 < x)%Qc)
  | Fin x, NInf | NInf, Fin x =>
      if decide (x = 0)%Qc then NaN else signed_inf (bool_decide (x < 0)%Qc)
  | PInf, PInf | NInf, NInf => PInf
  | PInf, NInf | NInf, PInf => NInf
  end.

Definition div (a b : t) : t :=
  match a, b with
  | NaN, _ | _, NaN => NaN
  | Fin x, Fin y =>
      if decide (y = 0)%Qc then
        if decide (x = 0)%Qc then NaN else signed_inf (bool_decide (0 < x)%Qc)
      else Fin (x / y)
  | Fin _, (PInf | NInf) => Fin 0
  | (PInf | NInf), (PInf | NInf) => NaN
  | PInf, Fin y => signed_inf (bool_decide (0 <= y)%Qc)
  | NInf, Fin y => signed_inf (bool_decide (y < 0)%Qc)
  end.

(** [np.minimum]: NaN wins over everything. *)
Definition minimum (a b : t) : t :=
  match a, b with
  | NaN, _ | _, NaN => NaN
  | NInf, _ | _, NInf => NInf
  | PInf, x | x, PInf => x
  | Fin x, Fin y => if decide (x <= y)%Qc then Fin x else Fin y
  end.

Definition sum (l : list t) : t := foldr add (Fin 0) l.

Definition dot (a b : list t) : t := sum (zip_with mul a b).

End Float.

(** ** NumPy array operations of [_get_celltype_out] *)

Module Np.

(** [np.sum(y, axis=1, keepdims=True)]: one total per row. *)
Definition sum_axis1 (y : list (list Float.t)) : list Float.t := Float.sum <$> y.

(** [y / s] with [s] one value per row, broadcast along the row. *)
Definition div_rows (y : list (list Float.t)) (s : list Float.t) : list (list Float.t) :=
  zip_with (fun row d => (fun v => Float.div v d) <$> row) y s.

(** [np.mean(m, axis=0, keepdims=True)] of a matrix with [width] columns. *)
Definition mean_axis0 (width : nat) (m : list (list Float.t)) : list Float.t :=
  (fun j => Float.div (Float.sum ((fun row => row !!! j) <$> m))
                      (Float.of_Z (Z.of_nat (length m))))
    <$> seq 0 width.

(** [np.matmul(y, freq.T)] for a one-row [freq]: one dot product per row. *)
Definition matmul_T (y : list (list Float.t)) (freq : list Float.t) : list Float.t :=
  (fun row => Float.dot row freq) <$> y.

(** Stable sorting by a key, [np.sort] and [np.argsort]. *)
Fixpoint insert_by {A : Type} (key : A -> nat) (a : A) (l : list A) : list A :=
  match l with
  | [] => [a]
  | b :: l' => if decide (key b <= key a) then b :: insert_by key a l' else a :: l
  end.
Definition sort_by {A : Type} (key : A -> nat) (l : list A) : list A :=
  foldl (fun acc a => insert_by key a acc) [] l.
Definition sort (idx : list nat) : list nat := sort_by id idx.
Definition argsort (idx : list nat) : list nat :=
  snd <$> sort_by fst (zip idx (seq 0 (length idx))).

End Np.

(** ** EstimatorKerasCelltype *)

Definition lower_ascii (c : Ascii.ascii) : Ascii.ascii :=
  let n := Ascii.nat_of_ascii c in
  if Nat.leb 65 n && Nat.leb n 90 then Ascii.ascii_of_nat (n + 32) else c.

Fixpoint lower (s : string) : string :=
  match s with
  | EmptyString => EmptyString
  | String c s' => String (lower_ascii c) (lower s')
  end.

(** The classifier adds the class identifiers and the ontology groupings of
    the active cell-type version and the weight ceiling. *)
Record EstimatorKerasCelltype : Type := {
  base : EstimatorKeras;
  ids : list string;
  ontology : gmap string (gmap string (list string));
  max_class_weight : Qc
}.

(** Modelled from the spec: [celltypes_version.ntypes], declared outside the
    estimator, is the number of class identifiers (the type count of the
    LabelMatrix). *)
Definition ntypes (self : EstimatorKerasCelltype) : nat := length (ids self).

(** [for a in l] collecting one result per element. *)
Fixpoint map_result {A B : Type} (f : A -> result B) (l : list A) : result (list B) :=
  match l with
  | [] => Ok []
  | a :: l' => b ← f a; bs ← map_result f l'; Ok (b :: bs)
  end.

(** [row[i] = v] on a dense row. *)
Definition setitem {A : Type} (row : list A) (i : nat) (v : A) : result (list A) :=
  if decide (i < length row) then Ok (<[i := v]> row)
  else Raise (IndexError "index out of bounds").

(** [row[positions] = v] *)
Definition setitem_many {A : Type} (row : list A) (positions : list nat) (v : A)
  : result (list A) :=
  for_each (fun r i => setitem r i v) positions row.

(** [self.ontology[ont]] *)
Definition ontology_of (self : EstimatorKerasCelltype) (ont : string)
  : result (gmap string (list string)) :=
  of_option (KeyError ont) (ontology self !! ont).

(** Lines 919-929: the row of one observation, starting from a zero row. *)
Definition label_row (self : EstimatorKerasCelltype) (type_classes : nat)
    (lookup_ontology : list string) (label : string) : result (list Qc) :=
  let row : list Qc := replicate type_classes 0%Qc in
  if bool_decide (label ∉ ids self) then
    found ← map_result
              (fun ont => o ← ontology_of self ont;
                          Ok (bool_decide (is_Some (o !! label))))
              lookup_ontology;
    if negb (existsb id found) then
      Raise (ValueError (label +:+ " not found in cell type universe and ontology sets"))
    else
      for_each
        (fun (row : list Qc) (ont : string) =>
           o ← ontology_of self ont;
           match o !! label with
           | Some leave_nodes =>
               setitem_many row
                 (where_ (fun jj : string => bool_decide (jj ∈@{list string} leave_nodes))
                         (ids self)) 1%Qc
           | None => Ok row
           end)
        lookup_ontology row
  else
    i ← of_option (ValueError (label +:+ " is not in list")) (index (ids self) label);
    setitem row i 1%Qc.

Definition type_classes (self : EstimatorKerasCelltype) : nat :=
  if existsb (fun x => String.eqb (lower x) "unknown") (ids self) then ntypes self
  else ntypes self + 1.

(** Lines 930-937: the observation weights from the label matrix. *)
Definition class_weights (width : nat) (cap : Qc) (y : list (list Qc)) : list Float.t :=
  let yf : list (list Float.t) := (fun row : list Qc => Float.Fin <$> row) <$> y in
  let freq := Np.mean_axis0 width (Np.div_rows yf (Np.sum_axis1 yf)) in
  let weights : list Float.t :=
    (fun d => Float.div (Float.Fin 1) d) <$> Np.matmul_T yf freq in
  (fun w => Float.minimum w (Float.add (Float.Fin 0) (Float.Fin cap))) <$> weights.

(** [_get_celltype_out]; every loop iteration fills the row of its own
    observation, so the label matrix is built row by row. *)
Definition _get_celltype_out (self : EstimatorKerasCelltype) (idx : option (list nat))
    (lookup_ontology : list string) : result (list Float.t * list (list Qc)) :=
  let idx := default (seq 0 (n_obs (data (base self)))) idx in
  y ← map_result
        (fun x =>
           col ← of_option (KeyError "cell_ontology_class")
                   (obs (data (base self)) !! "cell_ontology_class");
           label ← of_option (IndexError "index out of bounds") (col !! x);
           label_row self (type_classes self) lookup_ontology label)
        idx;
  Ok (class_weights (type_classes self) (max_class_weight self) y, y).

(** ** Streaming datasets (tf.data) *)

Module Tf.

(** A dataset built by [Dataset.from_generator] and the transformations
    applied to it.  [generator] is what one pass over the Python generator
    yields; the generator body only runs when the dataset is iterated, so an
    exception inside it is part of the pass, not of the construction. *)
Record Dataset (E : Type) : Type := {
  generator : result (list E);
  repeat : bool;
  shuffle_buffer : nat;
  batch_size : option nat;
  prefetch : nat
}.
Arguments generator {E} _.
Arguments repeat {E} _.
Arguments shuffle_buffer {E} _.
Arguments batch_size {E} _.
Arguments prefetch {E} _.

End Tf.

Import Tf.

(** Reading a local variable that may not have been assigned. *)
Definition local {A : Type} (name : string) (v : option A) : result A :=
  of_option (UnboundLocalError name) v.

(** [enumerate(idx)] inside a generator; iterating [None] is a [TypeError]. *)
Definition enumerate {A : Type} (idx : option (list A)) : result (list (nat * A)) :=
  match idx with
  | Some l => Ok (zip (seq 0 (length l)) l)
  | None => Raise (TypeError "'NoneType' object is not iterable")
  end.

(** One row of a matrix or vector read by position. *)
Definition row_at {A : Type} (l : list A) (i : nat) : result A :=
  of_option (IndexError "index out of bounds") (l !! i).

(** A backed source read at the sorted indices and then indexed with
    [np.argsort(idx)] (lines 654-656, 1024-1026 and 1038-1040). *)
Definition read_backed_rows (d : AnnData) (idx : list nat) : result matrix :=
  x ← getitem_rows (X d) (Np.sort idx);
  getitem_rows x (Np.argsort idx).

Inductive mode_t : Type := Train | TrainVal | Eval | Predict.

Definition parse_mode (mode : string) : option mode_t :=
  if String.eqb mode "train" then Some Train
  else if String.eqb mode "train_val" then Some TrainVal
  else if String.eqb mode "eval" then Some Eval
  else if String.eqb mode "predict" then Some Predict
  else None.

(** *** Classifier *)

Definition celltype_elem : Type := list Z * list Qc * Float.t.

Inductive celltype_out : Type :=
| CtDataset (d : Dataset celltype_elem)
| CtArrays (x : matrix) (y : option (list (list Qc))) (weights : option (list Float.t)).

(** The generator of the in-memory branch. *)
Definition celltype_generator_memory (x : matrix) (y : list (list Qc))
    (weights : list Float.t) (idx : option (list nat)) : result (list celltype_elem) :=
  its ← enumerate idx;
  map_result
    (fun it : nat * nat =>
       xi ← row_at (rows x) it.1; yi ← row_at y it.1; wi ← row_at weights it.1;
       Ok (xi, yi, wi))
    its.

(** The generator of the backed branch: row [ii] of the source itself. *)
Definition celltype_generator_backed (d : AnnData) (y : list (list Qc))
    (weights : list Float.t) (idx : option (list nat)) : result (list celltype_elem) :=
  its ← enumerate idx;
  map_result
    (fun it : nat * nat =>
       xi ← row_at (rows (X d)) it.2; yi ← row_at y it.1; wi ← row_at weights it.1;
       Ok (xi, yi, wi))
    its.

(** The [train] and [train_val] branches (lines 949-1016); they differ in
    [repeat()] only.  The local [x] is assigned in the in-memory branch only
    and read after both. *)
Definition celltype_stream (self : EstimatorKerasCelltype) (idx : option (list nat))
    (batch : option nat) (weighted : bool) (shuffle_buffer_size prefetch : nat)
    (repeat : bool) : result celltype_out :=
  wy ← _get_celltype_out self idx ["names"];
  let y := wy.2 in
  let weights := if negb weighted then (fun _ => Float.Fin 1) <$> wy.1 else wy.1 in
  st ← match filename (data (base self)) with
       | None =>
           x ← _prepare_data_matrix (base self) idx;
           Ok (Some x, celltype_generator_memory x y weights idx)
       | Some _ =>
           Ok (None, celltype_generator_backed (data (base self)) y weights idx)
       end;
  x ← local "x" st.1;
  Ok (CtDataset {| generator := st.2; repeat := repeat;
                   shuffle_buffer := Nat.min (nrows x) shuffle_buffer_size;
                   batch_size := batch; prefetch := prefetch |}).

(** The matrix of the [predict] and [eval] branches. *)
Definition celltype_x (self : EstimatorKerasCelltype) (idx : option (list nat))
  : result matrix :=
  match filename (data (base self)) with
  | None => _prepare_data_matrix (base self) idx
  | Some _ =>
      match idx with
      | Some idx => read_backed_rows (data (base self)) idx
      | None => Raise (ValueError "axis -1 is out of bounds for array of dimension 0")
      end
  end.

Definition celltype_get_dataset (self : EstimatorKerasCelltype) (idx : option (list nat))
    (batch : option nat) (mode : string) (weighted : bool)
    (shuffle_buffer_size prefetch : nat) : result celltype_out :=
  match parse_mode mode with
  | Some Train => celltype_stream self idx batch weighted shuffle_buffer_size prefetch true
  | Some TrainVal => celltype_stream self idx batch weighted shuffle_buffer_size prefetch false
  | Some Predict =>
      x ← celltype_x self idx;
      Ok (CtArrays x None None)
  | Some Eval =>
      wy ← _get_celltype_out self idx ["names"];
      let weights := if negb weighted then (fun _ => Float.Fin 1) <$> wy.1 else wy.1 in
      x ← celltype_x self idx;
      Ok (CtArrays x (Some wy.2) (Some weights))
  | None =>
      Raise (ValueError ("Mode " +:+ mode +:+ " not recognised."))
  end.

(** *** Embedding model *)

(** [_prepare_sf]: [np.log(total / 1e4 + 1e-10)] of a row total, kept as a
    term over the exact total. *)
Inductive size_factor : Type :=
| LogSf (total : Z).

Definition row_total (row : list Z) : Z := foldr Z.add 0%Z row.

Definition _prepare_sf (x : matrix) : list size_factor :=
  (fun row => LogSf (row_total row)) <$> rows x.

(** [_prepare_sf] of one flattened row: a one-element array. *)
Definition _prepare_sf_1d (x : list Z) : list size_factor := [LogSf (row_total x)].

Inductive embedding_target : Type :=
| Reconstruct (x : list Z)
| ReconstructSf (x : list Z) (sf : size_factor).

Definition embedding_elem : Type := (list Z * size_factor) * embedding_target.

Inductive embedding_out : Type :=
| EmbDataset (d : Dataset embedding_elem)
| EmbArrays (x : matrix) (sf : list size_factor) (target_with_sf : bool).

Definition is_vae (self : EstimatorKeras) : bool :=
  String.eqb (String.substring 0 3 (model_type self)) "vae".

Definition embedding_target_of (with_sf : bool) (x : list Z) (sf : size_factor)
  : embedding_target :=
  if with_sf then ReconstructSf x sf else Reconstruct x.

(** In-memory generator: [for i in range(x.shape[0])]. *)
Definition embedding_generator_memory (with_sf : bool) (x : matrix) (sf : list size_factor)
  : result (list embedding_elem) :=
  map_result
    (fun i =>
       xi ← row_at (rows x) i; sfi ← row_at sf i;
       Ok ((xi, sfi), embedding_target_of with_sf xi sfi))
    (seq 0 (nrows x)).

(** Backed generator: [for i in idx], the size factor computed per row. *)
Definition embedding_generator_backed (with_sf : bool) (d : AnnData)
    (idx : option (list nat)) : result (list embedding_elem) :=
  match idx with
  | None => Raise (TypeError "'NoneType' object is not iterable")
  | Some idx =>
      map_result
        (fun i =>
           xi ← row_at (rows (X d)) i; sfi ← row_at (_prepare_sf_1d xi) 0;
           Ok ((xi, sfi), embedding_target_of with_sf xi sfi))
        idx
  end.

Definition embedding_get_dataset (self : EstimatorKeras) (idx : option (list nat))
    (batch : option nat) (mode : string) (shuffle_buffer_size prefetch : nat)
    (for_compute_gradients_inputs : bool) : result embedding_out :=
  let vae := is_vae self in
  match parse_mode mode with
  | Some Train =>
      gen ← match filename (data self) with
            | None =>
                x ← _prepare_data_matrix self idx;
                Ok (embedding_generator_memory vae x (_prepare_sf x))
            | Some _ => Ok (embedding_generator_backed vae (data self) idx)
            end;
      Ok (EmbDataset {| generator := gen; repeat := true;
                        shuffle_buffer := Nat.min (nrows (X (data self))) shuffle_buffer_size;
                        batch_size := batch; prefetch := prefetch |})
  | Some TrainVal =>
      gen ← match filename (data self) with
            | None =>
                x ← _prepare_data_matrix self idx;
                let idx := default (seq 0 (nrows (X (data self)))) idx in
                col ← of_option (KeyError "cell_ontology_class")
                        (obs (data self) !! "cell_ontology_class");
                _ ← of_option (KeyError "not in index") (take_idx col idx);
                Ok (embedding_generator_memory (vae || for_compute_gradients_inputs)
                      x (_prepare_sf x))
            | Some _ => Ok (embedding_generator_backed vae (data self) idx)
            end;
      Ok (EmbDataset {| generator := gen; repeat := false;
                        shuffle_buffer := shuffle_buffer_size;
                        batch_size := batch; prefetch := prefetch |})
  | Some Eval | Some Predict =>
      x ← match filename (data self) with
          | None => _prepare_data_matrix self idx
          | Some _ =>
              read_backed_rows (data self) (default (seq 0 (n_obs (data self))) idx)
          end;
      Ok (EmbArrays x (_prepare_sf x) vae)
  | None => Raise (ValueError ("Mode " +:+ mode +:+ " not recognised."))
  end.

(** ** Row-level view of the column copy

    [setitem_cols] treats every row on its own, so the loop of
    [copy_columns] acts on one row as [copy_row] does: [n] chunk assignments
    starting at column [i], then the assignment after the loop. *)

Fixpoint copy_chunks_row (step : nat) (ts : list nat) (n i : nat) (src d : list Z)
  : list Z :=
  match n with
  | O => d
  | S n' =>
      copy_chunks_row step ts n' (i + step) src
        (assign_row (slice ts i (i + step)) (slice src i (i + step)) d)
  end.

Definition copy_row (step : nat) (ts : list nat) (src d : list Z) : list Z :=
  if bool_decide (step < length ts) then
    let n := (length ts - 0 + step - 1) / step in
    assign_row (slice_from ts (0 + (n - 1) * step + step))
               (slice_from src (0 + (n - 1) * step + step))
               (copy_chunks_row step ts n 0 src d)
  else assign_row ts src d.

(** The observations a call works on: [idx], or all of them for [None]. *)
Definition selected (d : AnnData) (idx : option (list nat)) : list nat :=
  default (seq 0 (n_obs d)) idx.

(** The positions of the input identifiers found in the reference
    ([idx_feature_kept]). *)
Definition kept_features (self : EstimatorKeras) : list nat :=
  where_ (fun g => bool_decide (g ∈ ensembl (topology_container self)))
         (var_ensembl (data self)).

(** An in-memory input of a recognised matrix type whose matrix is as wide
    as its identifier list, with the observation indices in range. *)
Record in_memory_input (self : EstimatorKeras) (idx : option (list nat)) : Prop := {
  input_not_backed : filename (data self) = None;
  input_recognised : X_kind (data self) <> OtherX;
  input_well_shaped : well_shaped (X (data self));
  input_width : ncols (X (data self)) = length (var_ensembl (data self));
  input_idx_valid : Forall (fun i => i < n_obs (data self)) (selected (data self) idx)
}.

(** The [mapped_features] short-circuit is not taken. *)
Definition not_mapped (self : EstimatorKeras) : Prop :=
  uns (data self) !! "mapped_features" <> Some (genome (topology_container self)).

(** ** Concrete inputs *)

Module Examples.

Definition estimator (d : AnnData) (reference : list string) : EstimatorKeras :=
  {| data := d;
     topology_container := {| genome := "Homo_sapiens_GRCh38_97"; ensembl := reference |};
     model_dir := "models/"; model_id := "embedding_0"; model_type := "vae";
     md5 := None; cache_path := "cache/" |}.

Definition adata (ids : list string) (m : list (list Z)) (labels : list string)
    (file : option string) : AnnData :=
  {| X := Matrix (length ids) m; X_kind := SpMatrix; var_ensembl := ids;
     obs := {[ "cell_ontology_class" := labels ]}; uns := ∅; filename := file |}.

(** Three observations over the features [a b c]; the reference is
    [c z a]. *)
Definition three_cells : AnnData :=
  adata ["a"; "b"; "c"] [[1; 2; 3]; [4; 0; 6]; [7; 8; 9]]%Z
        ["T cell"; "B cell"; "lymphocyte"] None.

Definition remap_estimator : EstimatorKeras := estimator three_cells ["c"; "z"; "a"].

(** No identifier of the input occurs in the reference. *)
Definition disjoint_estimator : EstimatorKeras := estimator three_cells ["x"; "y"].

(** A backed source whose features already are the reference [c z a]: the
    three observations of [three_cells] after remapping. *)
Definition backed_cells : AnnData :=
  adata ["c"; "z"; "a"] [[3; 0; 1]; [6; 0; 4]; [9; 0; 7]]%Z
        ["T cell"; "B cell"; "lymphocyte"] (Some "cells.h5ad").

Definition backed_estimator : EstimatorKeras := estimator backed_cells ["c"; "z"; "a"].

Definition classifier (e : EstimatorKeras) : EstimatorKerasCelltype :=
  {| base := e;
     ids := ["B cell"; "T cell"; "NK cell"];
     ontology := {[ "names" := {[ "lymphocyte" := ["T cell"; "B cell"] ]} ]};
     max_class_weight := Qc_of_Z 1000 |}.

End Examples.

(** A test specification the split can be computed for: a fraction between
    0 and 1, or a dictionary over existing [obs] columns that have one entry
    per observation. *)
Definition test_split_valid (self : EstimatorKeras) (test_split : test_split_t) : Prop :=
  match test_split with
  | SplitFraction f => (0 <= f <= 1)%Qc
  | SplitDict items =>
      Forall (fun kv : string * split_value =>
                exists col, obs (data self) !! kv.1 = Some col
                            /\ length col = n_obs (data self))
             items
  | SplitOther => False
  end.

(** A generator that draws the positions in decreasing order. *)
Definition reverse_random_state : RandomState :=
  {| permutation := fun _ n => reverse (seq 0 n) |}.

(** Whether class identifier [c] is a leaf of [label] in one of the
    ontology groupings looked up, and whether [label] is an alias in one of
    them. *)
Definition matching_leaf (self : EstimatorKerasCelltype) (lookup_ontology : list string)
    (label c : string) : bool :=
  existsb
    (fun ont =>
       match ontology self !! ont with
       | Some o =>
           match o !! label with
           | Some leave_nodes => bool_decide (c ∈@{list string} leave_nodes)
           | None => false
           end
       | None => false
       end)
    lookup_ontology.

Definition is_alias (self : EstimatorKerasCelltype) (lookup_ontology : list string)
    (label : string) : bool :=
  existsb
    (fun ont =>
       match ontology self !! ont with
       | Some o => bool_decide (is_Some (o !! label))
       | None => false
       end)
    lookup_ontology.

(** The number of entries of a label row that are 1. *)
Definition count_ones (row : list Qc) : nat :=
  length (filter (fun v => v = 1%Qc) row).

(** A one-hot row of the given width with its 1 at column [c]. *)
Definition one_hot (width c : nat) : list Qc := <[c := 1%Qc]> (replicate width 0%Qc).

(** ** The class weight in the words of the specification

    The weight of an observation with label row [y_i] is
    [min (1 / (y_i . f)) cap], where [f] is the column-wise mean over the
    observations of each row divided by its own sum. *)

Definition Qc_sum (l : list Qc) : Qc := foldr Qcplus 0%Qc l.





(** An entry of a label row is 0 or 1. *)
Definition binary (v : Qc) : Prop := v = 0%Qc \/ v = 1%Qc.

(** ** One row of the remapped matrix

    [_prepare_data_matrix] treats every selected observation on its own: the
    kept entries of its row are copied to the positions of the feature map in
    a zero row of reference width. *)

Definition feature_map (self : EstimatorKeras) : list nat :=
  default []
    (mapM (index (ensembl (topology_container self)))
          (filter (fun g => g ∈ ensembl (topology_container self))
                  (var_ensembl (data self)))).

Definition remap_row (step : nat) (self : EstimatorKeras) (row : list Z) : list Z :=
  copy_row step (feature_map self)
           (default [] (take_idx row (kept_features self)))
           (replicate (ngenes (topology_container self)) 0%Z).

(** The same estimator over the same data held in a file. *)
Definition as_backed (self : EstimatorKeras) (file : string) : EstimatorKeras :=
  {| data := {| X := X (data self); X_kind := X_kind (data self);
                var_ensembl := var_ensembl (data self); obs := obs (data self);
                uns := uns (data self); filename := Some file |};
     topology_container := topology_container self;
     model_dir := model_dir self; model_id := model_id self;
     model_type := model_type self; md5 := md5 self; cache_path := cache_path self |}.

(** What the generators of the embedding estimator yield for one row. *)
Definition embedding_row_elem (with_sf : bool) (row : list Z) : embedding_elem :=
  ((row, LogSf (row_total row)),
   embedding_target_of with_sf row (LogSf (row_total row))).

(** A value of an [obs] column satisfies one item of a test dictionary:
    membership for a list, equality otherwise. *)
Definition split_value_accepts (v : split_value) (x : string) : Prop :=
  match v with
  | AnyOf accepted => x ∈ accepted
  | Equals s => x = s
  end.

(** Observation [i] satisfies the item [kv] in the data [d]. *)
Definition item_holds (d : AnnData) (i : nat) (kv : string * split_value) : Prop :=
  exists col x, obs d !! kv.1 = Some col /\ col !! i = Some x
                /\ split_value_accepts kv.2 x.

(** ** Class dictionary (lines 160-172)

    An entry of an [obs] column is a string or a list of strings; lists are
    joined with [" / "] before the labels are collected. *)

Inductive obs_value : Type :=
| ObsStr (s : string)
| ObsList (l : list string).

(** [sep.join(l)] *)
Fixpoint join (sep : string) (l : list string) : string :=
  match l with
  | [] => EmptyString
  | s :: l' =>
      match l' with
      | [] => s
      | _ :: _ => s +:+ sep +:+ join sep l'
      end
  end.

Definition joined (y : list obs_value) : list string :=
  (fun val => match val with
              | ObsStr s => s
              | ObsList l => join " / " l
              end) <$> y.

(** [np.unique]: the distinct values in ascending order. *)
Definition np_unique (l : list string) : list string :=
  merge_sort String.le (remove_dups l).

(** The loop [label_dict.update({label: float(i)})] over
    [enumerate(labels)]. *)
Definition class_dict_of (y : list obs_value) : gmap string Float.t :=
  let labels := np_unique (joined y) in
  foldl (fun (d : gmap string Float.t) (il : nat * string) =>
           <[il.2 := Float.of_Z (Z.of_nat il.1)]> d)
        ∅ (zip (seq 0 (length labels)) labels).

(** [_get_class_dict] on the data of the estimator, whose [obs] columns
    hold strings. *)
Definition _get_class_dict (self : EstimatorKeras) (obs_key : string)
  : result (gmap string Float.t) :=
  col ← of_option (KeyError obs_key) (obs (data self) !! obs_key);
  Ok (class_dict_of (ObsStr <$> col)).

(** * Properties *)

(** ** The result monad *)

Lemma bind_Ok {A B : Type} (m : result A) (k : A -> result B) (b : B) :
  m ≫= k = Ok b <-> exists a, m = Ok a /\ k a = Ok b.
Proof.
  destruct m as [a|e]; simpl.
  - split; [eauto | intros (a' & [= ->] & H); exact H].
  - split; [discriminate | intros (a' & Ha & _); discriminate].
Qed.

Lemma of_option_Ok {A : Type} (e : exn) (o : option A) (a : A) :
  of_option e o = Ok a <-> o = Some a.
Proof. destruct o; simpl; split; congruence. Qed.

(** ** One row of a sparse column assignment *)

Section assign_row.

Implicit Types (ts : list nat) (src d : list Z) (j k : nat).

Lemma zero_many_cons t ts d : zero_many (t :: ts) d = zero_many ts (<[t:=0%Z]> d).
Proof. done. Qed.

Lemma set_many_cons t s (es : list (nat * Z)) d :
  set_many ((t, s) :: es) d = set_many es (if (s =? 0)%Z then d else <[t:=s]> d).
Proof. done. Qed.

Lemma length_zero_many ts d : length (zero_many ts d) = length d.
Proof.
  revert d. induction ts as [|t ts IH]; intros d; [done|].
  by rewrite zero_many_cons, IH, length_insert.
Qed.

Lemma length_set_many (es : list (nat * Z)) d : length (set_many es d) = length d.
Proof.
  revert d. induction es as [|[t s] es IH]; intros d; [done|].
  rewrite set_many_cons, IH. destruct (s =? 0)%Z; [done|]. by rewrite length_insert.
Qed.

Lemma length_assign_row ts src d : length (assign_row ts src d) = length d.
Proof. unfold assign_row. by rewrite length_set_many, length_zero_many. Qed.

Lemma zero_many_notin ts d j : j ∉ ts -> zero_many ts d !! j = d !! j.
Proof.
  revert d. induction ts as [|t ts IH]; intros d Hj; [done|].
  apply not_elem_of_cons in Hj as [Hne Hj].
  rewrite zero_many_cons, IH by done. by rewrite list_lookup_insert_ne.
Qed.

Lemma zero_many_in ts d j : j ∈ ts -> j < length d -> zero_many ts d !! j = Some 0%Z.
Proof.
  revert d. induction ts as [|t ts IH]; intros d Hj Hlt.
  - by apply elem_of_nil in Hj.
  - rewrite zero_many_cons.
    destruct (decide (j ∈ ts)) as [Hin|Hnin].
    + apply IH; [done|]. by rewrite length_insert.
    + apply elem_of_cons in Hj as [->|?]; [|done].
      rewrite zero_many_notin by done. by apply list_lookup_insert_eq.
Qed.

Lemma set_many_notin ts src d j : j ∉ ts -> set_many (zip ts src) d !! j = d !! j.
Proof.
  revert src d. induction ts as [|t ts IH]; intros src d Hj; [done|].
  destruct src as [|s src]; [done|].
  apply not_elem_of_cons in Hj as [Hne Hj].
  change (zip (t :: ts) (s :: src)) with ((t, s) :: zip ts src).
  rewrite set_many_cons, IH by done.
  destruct (s =? 0)%Z; [done|]. by rewrite list_lookup_insert_ne.
Qed.

(** The only entry addressed to [j] decides what [j] holds afterwards. *)
Lemma set_many_unique ts src d j k v :
  ts !! k = Some j ->
  (forall k', ts !! k' = Some j -> k' = k) ->
  src !! k = Some v ->
  d !! j = Some 0%Z ->
  set_many (zip ts src) d !! j = Some v.
Proof.
  revert src d k.
  induction ts as [|t ts IH]; intros src d k Hk Huniq Hv Hd; [done|].
  destruct src as [|s src]; [by destruct k|].
  change (zip (t :: ts) (s :: src)) with ((t, s) :: zip ts src).
  rewrite set_many_cons.
  destruct k as [|k]; simpl in *.
  - injection Hk as ->. injection Hv as ->.
    rewrite set_many_notin.
    + destruct (v =? 0)%Z eqn:Hz.
      * apply Z.eqb_eq in Hz. by subst.
      * apply list_lookup_insert_eq. by eapply lookup_lt_Some.
    + intros (k' & Hk')%list_elem_of_lookup.
      by specialize (Huniq (S k') Hk').
  - assert (t <> j) as Hne by (intros ->; by specialize (Huniq 0 eq_refl)).
    apply (IH src _ k); [done| |done|].
    + intros k' Hk'. specialize (Huniq (S k') Hk'). lia.
    + destruct (s =? 0)%Z; [done|]. by rewrite list_lookup_insert_ne.
Qed.

Lemma assign_row_notin ts src d j : j ∉ ts -> assign_row ts src d !! j = d !! j.
Proof.
  intros Hj. unfold assign_row.
  by rewrite set_many_notin, zero_many_notin.
Qed.

Lemma assign_row_unique ts src d j k v :
  ts !! k = Some j ->
  (forall k', ts !! k' = Some j -> k' = k) ->
  src !! k = Some v ->
  j < length d ->
  assign_row ts src d !! j = Some v.
Proof.
  intros Hk Huniq Hv Hlt. unfold assign_row.
  eapply set_many_unique; [done..|].
  apply zero_many_in; [|done]. by eapply list_elem_of_lookup_2.
Qed.

Lemma assign_row_nil src d : assign_row [] src d = d.
Proof. done. Qed.

End assign_row.

(** ** The chunked copy, row by row *)

Section copy_row.

Implicit Types (ts : list nat) (src d : list Z) (i j k n step : nat).

Lemma lookup_slice {A : Type} (l : list A) i step m :
  slice l i (i + step) !! m = if decide (m < step) then l !! (i + m) else None.
Proof.
  unfold slice. replace (i + step - i) with step by lia.
  rewrite lookup_take. case_decide; [|done]. by rewrite lookup_drop.
Qed.

Lemma slice_notin ts i step j :
  (forall k, i <= k -> ts !! k <> Some j) -> j ∉ slice ts i (i + step).
Proof.
  intros Hno (m & Hm)%list_elem_of_lookup.
  rewrite lookup_slice in Hm. case_decide; [|done].
  by apply (Hno (i + m)); [lia|].
Qed.

Lemma length_copy_chunks_row step ts n i src d :
  length (copy_chunks_row step ts n i src d) = length d.
Proof.
  revert i d. induction n as [|n IH]; intros i d; simpl; [done|].
  by rewrite IH, length_assign_row.
Qed.

(** Chunks that start at or after [i] leave alone every column no entry
    from [i] on is addressed to. *)
Lemma copy_chunks_row_skip step ts n i src d j :
  (forall k, i <= k -> ts !! k <> Some j) ->
  copy_chunks_row step ts n i src d !! j = d !! j.
Proof.
  revert i d. induction n as [|n IH]; intros i d Hno; simpl; [done|].
  rewrite IH by (intros k Hk; apply Hno; lia).
  apply assign_row_notin. by apply slice_notin.
Qed.

Lemma copy_chunks_row_unique step ts n i src d j k v :
  ts !! k = Some j ->
  (forall k', ts !! k' = Some j -> k' = k) ->
  src !! k = Some v ->
  i <= k < i + n * step ->
  j < length d ->
  copy_chunks_row step ts n i src d !! j = Some v.
Proof.
  intros Hk Huniq Hv. revert i d.
  induction n as [|n IH]; intros i d Hik Hlt; simpl; [lia|].
  destruct (decide (k < i + step)) as [Hin|Hout].
  - rewrite copy_chunks_row_skip.
    + apply (assign_row_unique _ _ _ _ (k - i)); [| | |done].
      * rewrite lookup_slice. case_decide; [|lia].
        by replace (i + (k - i)) with k by lia.
      * intros m Hm. rewrite lookup_slice in Hm. case_decide; [|done].
        apply Huniq in Hm. lia.
      * rewrite lookup_slice. case_decide; [|lia].
        by replace (i + (k - i)) with k by lia.
    + intros k' Hk' Hj. apply Huniq in Hj. lia.
  - apply IH; [simpl in Hik; lia|]. by rewrite length_assign_row.
Qed.

(** The loop of a chunked copy runs [n] chunks that reach the end of the
    target list, so that nothing is left for the assignment after it. *)
Lemma copy_row_chunks step ts src d :
  0 < step -> step < length ts ->
  exists n, length ts <= n * step /\
            copy_row step ts src d = copy_chunks_row step ts n 0 src d.
Proof.
  intros Hstep Hlen. unfold copy_row. rewrite bool_decide_true by done.
  set (n := (length ts - 0 + step - 1) / step).
  assert (length ts <= n * step /\ 0 < n) as [Hn Hpos].
  { subst n. replace (length ts - 0 + step - 1) with (length ts + step - 1) by lia.
    pose proof (Nat.div_mod (length ts + step - 1) step ltac:(lia)) as Hdm.
    pose proof (Nat.mod_upper_bound (length ts + step - 1) step ltac:(lia)) as Hub.
    split; [nia|]. apply Nat.div_str_pos. lia. }
  exists n. split; [done|]. cbv zeta. fold n. clearbody n.
  replace (0 + (n - 1) * step + step) with (n * step)
    by (destruct n; [lia|]; simpl; lia).
  unfold slice_from. rewrite (drop_ge ts) by done. apply assign_row_nil.
Qed.

Lemma length_copy_row step ts src d : length (copy_row step ts src d) = length d.
Proof.
  unfold copy_row. case_bool_decide.
  - by rewrite length_assign_row, length_copy_chunks_row.
  - apply length_assign_row.
Qed.

Lemma copy_row_notin step ts src d j :
  0 < step -> j ∉ ts -> copy_row step ts src d !! j = d !! j.
Proof.
  intros Hstep Hj. destruct (decide (step < length ts)) as [Hlen|Hlen].
  - destruct (copy_row_chunks step ts src d Hstep Hlen) as (n & _ & ->).
    apply copy_chunks_row_skip. intros k _ Hk. apply Hj.
    by eapply list_elem_of_lookup_2.
  - unfold copy_row. rewrite bool_decide_false by done.
    by apply assign_row_notin.
Qed.

Lemma copy_row_unique step ts src d j k v :
  0 < step ->
  ts !! k = Some j ->
  (forall k', ts !! k' = Some j -> k' = k) ->
  src !! k = Some v ->
  j < length d ->
  copy_row step ts src d !! j = Some v.
Proof.
  intros Hstep Hk Huniq Hv Hlt. destruct (decide (step < length ts)) as [Hlen|Hlen].
  - destruct (copy_row_chunks step ts src d Hstep Hlen) as (n & Hn & ->).
    eapply copy_chunks_row_unique; [done..| |done].
    apply lookup_lt_Some in Hk. lia.
  - unfold copy_row. rewrite bool_decide_false by done.
    by eapply assign_row_unique.
Qed.

(** With pairwise distinct targets the chunk width does not matter: every
    width gives the row of the single assignment. *)
Lemma copy_row_assign_row step ts src d :
  0 < step -> NoDup ts -> length src = length ts ->
  Forall (fun t => t < length d) ts ->
  copy_row step ts src d = assign_row ts src d.
Proof.
  intros Hstep Hnd Hlen Hts. apply list_eq. intros j.
  destruct (decide (j ∈ ts)) as [Hin|Hnin].
  - apply list_elem_of_lookup in Hin as [k Hk].
    assert (forall k', ts !! k' = Some j -> k' = k) as Huniq.
    { intros k' Hk'. by eapply NoDup_alt. }
    destruct (lookup_lt_is_Some_2 src k) as [v Hv].
    { rewrite Hlen. by eapply lookup_lt_Some. }
    assert (j < length d) as Hlt.
    { eapply Forall_lookup_1 in Hts; [|done]. done. }
    rewrite (copy_row_unique step ts src d j k v) by done.
    by rewrite (assign_row_unique ts src d j k v).
  - by rewrite copy_row_notin, assign_row_notin.
Qed.

End copy_row.

(** ** The chunked copy on matrices *)

Section copy_columns.

Implicit Types (ts : list nat) (x M : matrix).

Lemma zip_with_keep_right {A B : Type} (xs : list A) (ds : list B) :
  length xs = length ds -> zip_with (fun _ d => d) xs ds = ds.
Proof.
  revert ds. induction xs as [|a xs IH]; intros [|b ds] Hlen; simpl in *; try done.
  f_equal. apply IH. lia.
Qed.

Lemma zip_with_fuse {A B C : Type} (f : C -> B -> B) (g : A -> C) (h : A -> B -> B)
    (xs : list A) (ds : list B) :
  zip_with f (g <$> xs) (zip_with h xs ds)
  = zip_with (fun a d => f (g a) (h a d)) xs ds.
Proof.
  revert ds. induction xs as [|a xs IH]; intros [|b ds]; simpl; try done.
  f_equal. apply IH.
Qed.

Lemma zip_with_fuse_inner {A B C : Type} (f : A -> B -> B) (g : A -> C)
    (h : C -> B -> B) (xs : list A) (ds : list B) :
  zip_with f xs (zip_with h (g <$> xs) ds)
  = zip_with (fun a d => f a (h (g a) d)) xs ds.
Proof.
  revert ds. induction xs as [|a xs IH]; intros [|b ds]; simpl; try done.
  f_equal. apply IH.
Qed.

Lemma setitem_cols_Ok M ts x :
  nrows x = nrows M -> ncols x = length ts ->
  Forall (fun t => t < ncols M) ts ->
  setitem_cols M ts x
  = Ok (Matrix (ncols M) (zip_with (assign_row ts) (rows x) (rows M))).
Proof.
  intros Hr Hc Hb. unfold setitem_cols.
  rewrite (bool_decide_true (_ /\ _)) by done.
  by rewrite (bool_decide_true (Forall _ _)).
Qed.

Lemma length_slice_width {A : Type} (l : list A) w i j :
  length l = w -> Nat.min (j - i) (w - i) = length (slice l i j).
Proof.
  intros <-. unfold slice. by rewrite length_take, length_drop.
Qed.

(** The loop of [copy_columns], started at column [i] for [n] chunks. *)
Lemma for_each_chunks step ts x n :
  ncols x = length ts ->
  forall i M prev,
    nrows x = nrows M ->
    Forall (fun t => t < ncols M) ts ->
    for_each
      (fun (st : matrix * option nat) i =>
         x_new' ← setitem_cols st.1 (slice ts i (i + step))
                               (getitem_colslice x i (i + step));
         Ok (x_new', Some i))
      ((fun k => i + k * step) <$> seq 0 n) (M, prev)
    = Ok (Matrix (ncols M) (zip_with (copy_chunks_row step ts n i) (rows x) (rows M)),
          match n with O => prev | S n' => Some (i + n' * step) end).
Proof.
  intros Hc. induction n as [|n IH]; intros i M prev Hr Hb.
  - simpl. f_equal. f_equal. destruct M as [w rs]; simpl in *. f_equal.
    symmetry. by apply (zip_with_keep_right (rows x) rs).
  - assert ((fun k => i + k * step) <$> seq 0 (S n)
            = i :: ((fun k => (i + step) + k * step) <$> seq 0 n)) as ->.
    { rewrite <- cons_seq, <- fmap_S_seq, fmap_cons, <- list_fmap_compose.
      f_equal; [lia|]. apply list_fmap_ext. intros _ k _. simpl. lia. }
    cbn [for_each].
    cbn [fst]. rewrite setitem_cols_Ok; [| | |].
    + cbn [Py.bind mbind result_bind].
      rewrite IH; cbn [ncols rows nrows].
      * f_equal. f_equal.
        -- f_equal. unfold getitem_colslice; cbn [rows].
           by rewrite zip_with_fuse_inner.
        -- destruct n; f_equal; lia.
      * unfold nrows; cbn [rows]. unfold getitem_colslice; cbn [rows].
        rewrite length_zip_with, length_fmap. unfold nrows in Hr. lia.
      * done.
    + unfold nrows, getitem_colslice; cbn [rows]. by rewrite length_fmap.
    + unfold getitem_colslice; cbn [ncols]. by apply length_slice_width.
    + unfold slice. by apply Forall_take, Forall_drop.
Qed.

(** What [copy_columns] returns, row by row.  It succeeds whenever the
    shapes agree and the targets are columns of the target matrix. *)
Lemma copy_columns_rows step ts x M :
  0 < step ->
  ncols x = length ts ->
  nrows x = nrows M ->
  Forall (fun t => t < ncols M) ts ->
  copy_columns step ts x M
  = Ok (Matrix (ncols M) (zip_with (copy_row step ts) (rows x) (rows M))).
Proof.
  intros Hstep Hc Hr Hb. unfold copy_columns.
  case_bool_decide as Hlen.
  - unfold range. destruct step as [|s]; [lia|]. set (step := S s) in *.
    cbn [mbind result_bind Py.bind].
    rewrite (for_each_chunks step ts x _ Hc 0 M None Hr Hb).
    cbn [Py.bind snd fst].
    set (n := (length ts - 0 + step - 1) / step).
    assert (0 < n) as Hn.
    { subst n. apply Nat.div_str_pos. lia. }
    destruct n as [|n'] eqn:En; [lia|].
    cbn [mbind result_bind Py.bind snd fst].
    rewrite setitem_cols_Ok; cbn [ncols rows].
    + f_equal. f_equal. unfold getitem_colslice_from; cbn [rows].
      rewrite zip_with_fuse. apply zip_with_ext; [|done..].
      intros src d. unfold copy_row. rewrite bool_decide_true by done.
      cbv zeta. fold n. rewrite En.
      by replace (S n' - 1) with n' by lia.
    + unfold nrows, getitem_colslice_from; cbn [rows].
      rewrite length_zip_with, length_fmap. unfold nrows in Hr. lia.
    + unfold getitem_colslice_from, slice_from; cbn [ncols].
      rewrite length_drop. lia.
    + unfold slice_from. by apply Forall_drop.
  - rewrite setitem_cols_Ok by done. f_equal. f_equal.
    apply zip_with_ext; [|done..].
    intros src d. unfold copy_row. by rewrite bool_decide_false.
Qed.

End copy_columns.

(** ** Python built-ins *)

Section builtins.

Context {A : Type}.
Implicit Types (l : list A) (i j off : nat).

Lemma elem_of_where_from (p : A -> bool) l off i :
  i ∈ where_from p l off
  <-> exists a, off <= i /\ l !! (i - off) = Some a /\ p a = true.
Proof.
  revert off. induction l as [|a l IH]; intros off; simpl.
  - split; [by intros ?%elem_of_nil | by intros (? & ? & ? & ?)].
  - assert (i ∈ where_from p l (S off)
            <-> exists b, off < i /\ l !! (i - S off) = Some b /\ p b = true) as IH'.
    { rewrite IH. split; intros (b & ? & ? & ?); exists b; (split; [lia|done]). }
    assert ((exists b, off <= i /\ (a :: l) !! (i - off) = Some b /\ p b = true)
            <-> (i = off /\ p a = true)
                \/ exists b, off < i /\ l !! (i - S off) = Some b /\ p b = true) as ->.
    { split.
      - intros (b & Hle & Hb & Hp).
        destruct (decide (i = off)) as [->|Hne].
        + rewrite Nat.sub_diag in Hb. injection Hb as ->. by left.
        + right. exists b. split; [lia|]. split; [|done].
          replace (i - off) with (S (i - S off)) in Hb by lia. done.
      - intros [[-> Hp]|(b & Hlt & Hb & Hp)].
        + exists a. rewrite Nat.sub_diag. done.
        + exists b. split; [lia|]. split; [|done].
          replace (i - off) with (S (i - S off)) by lia. done. }
    destruct (p a) eqn:Hp.
    + rewrite elem_of_cons, IH'. intuition.
    + rewrite IH'. split; [by right|]. by intros [[_ ?]|?].
Qed.

Lemma NoDup_where_from (p : A -> bool) l off : NoDup (where_from p l off).
Proof.
  revert off. induction l as [|a l IH]; intros off; simpl; [constructor|].
  destruct (p a); [|done]. constructor; [|done].
  rewrite elem_of_where_from. intros (b & ? & _). lia.
Qed.

Lemma elem_of_where_ (p : A -> bool) l i :
  i ∈ where_ p l <-> exists a, l !! i = Some a /\ p a = true.
Proof.
  unfold where_. rewrite elem_of_where_from.
  replace (i - 0) with i by lia.
  split; [intros (a & _ & ?); eauto | intros (a & ?); exists a; split; [lia|done]].
Qed.

Lemma where_from_filter (P : A -> Prop) `{!forall a, Decision (P a)} (pre l : list A) :
  mapM (fun i => (pre ++ l) !! i)
       (where_from (fun a => bool_decide (P a)) l (length pre))
  = Some (filter P l).
Proof.
  revert pre. induction l as [|a l IH]; intros pre; simpl; [done|].
  specialize (IH (pre ++ [a])).
  rewrite <- app_assoc, length_app in IH. simpl in IH.
  replace (length pre + 1) with (S (length pre)) in IH by lia.
  rewrite filter_cons. case_bool_decide as HP.
  - rewrite decide_True by done. cbn [mapM].
    rewrite list_lookup_middle by done. simpl. by rewrite IH.
  - by rewrite decide_False.
Qed.

(** Reading a list at the positions [np.where] reports gives the
    elements that satisfy the predicate, in order. *)
Lemma take_idx_where (P : A -> Prop) `{!forall a, Decision (P a)} l :
  take_idx l (where_ (fun a => bool_decide (P a)) l) = Some (filter P l).
Proof. apply (where_from_filter P [] l). Qed.

Lemma take_idx_Some l (idx : list nat) :
  Forall (fun i => i < length l) idx ->
  exists k, take_idx l idx = Some k
            /\ Forall2 (fun i a => l !! i = Some a) idx k.
Proof.
  intros Hidx.
  destruct (mapM (fun i => l !! i) idx) as [k|] eqn:Hk.
  - exists k. split; [done|]. by apply mapM_Some_1.
  - exfalso. assert (is_Some (mapM (fun i => l !! i) idx)) as [? ?]; [|congruence].
    apply mapM_is_Some. eapply Forall_impl; [done|].
    intros i Hi. by apply lookup_lt_is_Some_2.
Qed.

Context `{!EqDecision A}.

Lemma index_Some l (a : A) i :
  index l a = Some i <-> l !! i = Some a /\ forall j, j < i -> l !! j <> Some a.
Proof.
  unfold index. split.
  - intros Hf. destruct (list_find _ l) as [[i' b]|] eqn:Hfind; [|done].
    injection Hf as ->. apply list_find_Some in Hfind as (Hb & -> & Hmin).
    split; [done|]. intros j Hj Hl. by apply (Hmin j a).
  - intros [Hi Hmin].
    assert (list_find (fun y => y = a) l = Some (i, a)) as ->; [|done].
    apply list_find_Some. split; [done|]. split; [done|].
    intros j y Hy Hj ->. by apply (Hmin j).
Qed.

Lemma index_elem_of l (a : A) : a ∈ l -> exists i, index l a = Some i.
Proof.
  intros Hin. unfold index.
  destruct (list_find_elem_of (fun y => y = a) l a Hin eq_refl) as [[i b] ->].
  by exists i.
Qed.

Lemma index_lt l (a : A) i : index l a = Some i -> i < length l.
Proof. intros [Hi _]%index_Some. by eapply lookup_lt_Some. Qed.

(** In a list without repetition every position is the index of its
    element. *)
Lemma index_NoDup l (a : A) i : NoDup l -> l !! i = Some a -> index l a = Some i.
Proof.
  intros Hnd Hi. apply index_Some. split; [done|].
  intros j Hj Hl. pose proof (NoDup_lookup _ _ _ _ Hnd Hi Hl). lia.
Qed.

End builtins.

(** ** [_prepare_data_matrix] up to the column copy *)

Section prepare.

Variable self : EstimatorKeras.
Variable idx : option (list nat).

Let d := data self.
Let reference := ensembl (topology_container self).
Let data_ids := var_ensembl (data self).

Lemma kept_features_lt i : i ∈ kept_features self -> i < length data_ids.
Proof.
  intros (g & Hg & _)%elem_of_where_. by eapply lookup_lt_Some.
Qed.

Lemma getitem_rows_Ok (x : matrix) (rs : list nat) :
  Forall (fun i => i < nrows x) rs ->
  exists xr, getitem_rows x rs = Ok (Matrix (ncols x) xr)
             /\ Forall2 (fun i row => rows x !! i = Some row) rs xr.
Proof.
  intros Hrs. destruct (take_idx_Some (rows x) rs Hrs) as (xr & Hxr & HF).
  exists xr. split; [|done]. unfold getitem_rows. by rewrite Hxr.
Qed.

Lemma getitem_cols_Ok (x : matrix) (cs : list nat) :
  well_shaped x -> Forall (fun i => i < ncols x) cs ->
  exists xk, getitem_cols x cs = Ok (Matrix (length cs) xk)
             /\ Forall2 (fun row krow => Forall2 (fun i v => row !! i = Some v) cs krow)
                        (rows x) xk.
Proof.
  intros Hx Hcs. unfold getitem_cols.
  destruct (mapM (fun row => take_idx row cs) (rows x)) as [xk|] eqn:Hxk.
  - exists xk. split; [done|].
    apply mapM_Some_1 in Hxk. eapply Forall2_impl; [done|].
    intros row krow Hrow. by apply mapM_Some_1.
  - exfalso.
    assert (is_Some (mapM (fun row => take_idx row cs) (rows x))) as [? ?];
      [|congruence].
    apply mapM_is_Some. eapply Forall_impl; [exact Hx|].
    intros row Hrow. simpl.
    destruct (take_idx_Some row cs) as (k & -> & _); [|done].
    by rewrite Hrow.
Qed.

Lemma feature_map_Some :
  exists fmap, mapM (index reference) (filter (fun g => g ∈ reference) data_ids)
               = Some fmap
               /\ Forall2 (fun g t => index reference g = Some t)
                          (filter (fun g => g ∈ reference) data_ids) fmap.
Proof.
  destruct (mapM (index reference) (filter (fun g => g ∈ reference) data_ids))
    as [fmap|] eqn:Hf.
  - exists fmap. split; [done|]. by apply mapM_Some_1.
  - exfalso.
    assert (is_Some (mapM (index reference)
                       (filter (fun g => g ∈ reference) data_ids))) as [? ?];
      [|congruence].
    apply mapM_is_Some, Forall_forall. intros g [Hg _]%list_elem_of_filter.
    simpl. destruct (index_elem_of reference g Hg) as [i ->]. done.
Qed.

(** Up to the copy every step succeeds on an in-memory input: the call is
    the column copy of the kept columns of the selected rows into the zero
    matrix of reference width. *)
Lemma prepare_data_matrix_step_unfold :
  in_memory_input self idx -> not_mapped self ->
  exists xr fmap xk,
    Forall2 (fun i row => rows (X d) !! i = Some row) (selected d idx) xr
    /\ Forall2 (fun g t => index reference g = Some t)
               (filter (fun g => g ∈ reference) data_ids) fmap
    /\ Forall2 (fun row krow =>
                  Forall2 (fun i v => row !! i = Some v) (kept_features self) krow)
               xr xk
    /\ forall step,
         _prepare_data_matrix_step step self idx
         = copy_columns step fmap (Matrix (length (kept_features self)) xk)
                        (zeros (length xr) (ngenes (topology_container self))).
Proof.
  intros [Hnb Hrec Hws Hw Hidx] Hnm.
  destruct (getitem_rows_Ok (X d) (selected d idx) Hidx) as (xr & Hxr & HFr).
  destruct feature_map_Some as (fmap & Hfmap & HFm).
  destruct (getitem_cols_Ok (Matrix (ncols (X d)) xr) (kept_features self))
    as (xk & Hxk & HFk).
  { unfold well_shaped; cbn [rows ncols]. apply Forall_forall.
    intros row (i & Hi)%list_elem_of_lookup.
    destruct (Forall2_lookup_r _ _ _ _ _ HFr Hi) as (r & _ & Hr).
    eapply Forall_lookup_1 in Hws; [|exact Hr]. done. }
  { cbn [ncols]. apply Forall_forall. intros i Hi. subst d. rewrite Hw.
    by apply kept_features_lt. }
  exists xr, fmap, xk. do 3 (split; [done|]). intros step.
  subst d reference data_ids.
  unfold _prepare_data_matrix_step. rewrite Hnb.
  assert (match X_kind (data self) with
          | NdArray | SpMatrix => Ok (X (data self))
          | OtherX => Raise (ValueError "data type not recognized")
          end = Ok (X (data self))) as ->.
  { by destruct (X_kind (data self)). }
  cbn [mbind result_bind Py.bind].
  fold (selected (data self) idx). rewrite Hxr.
  cbn [mbind result_bind Py.bind].
  rewrite bool_decide_false by done.
  rewrite take_idx_where. cbn [of_option mbind result_bind Py.bind].
  rewrite Hfmap. cbn [of_option mbind result_bind Py.bind].
  fold (kept_features self). rewrite Hxk. cbn [mbind result_bind Py.bind].
  pose proof (Forall2_length _ _ _ HFk) as Hl. cbn [rows] in Hl.
  unfold nrows; cbn [rows]. by rewrite Hl.
Qed.

End prepare.

(** ** The remapped matrix *)

Section remap.

Variable self : EstimatorKeras.
Variable idx : option (list nat).

Let reference := ensembl (topology_container self).
Let data_ids := var_ensembl (data self).
Let N := ngenes (topology_container self).

Lemma kept_ids_lookup :
  Forall2 (fun i g => data_ids !! i = Some g)
          (kept_features self) (filter (fun g => g ∈ reference) data_ids).
Proof.
  apply (mapM_Some_1 (fun i => data_ids !! i)).
  apply (take_idx_where (fun g => g ∈ reference) data_ids).
Qed.

(** The rows of the result: the chunked copy of the kept entries of each
    selected row into a zero row of reference width. *)
Lemma prepare_data_matrix_step_rows :
  in_memory_input self idx -> not_mapped self ->
  exists xr fmap xk,
    Forall2 (fun i row => rows (X (data self)) !! i = Some row)
            (selected (data self) idx) xr
    /\ Forall2 (fun g t => index reference g = Some t)
               (filter (fun g => g ∈ reference) data_ids) fmap
    /\ Forall2 (fun row krow =>
                  Forall2 (fun i v => row !! i = Some v) (kept_features self) krow)
               xr xk
    /\ forall step,
         0 < step ->
         _prepare_data_matrix_step step self idx
         = Ok (Matrix N (zip_with (copy_row step fmap) xk
                                  (replicate (length xr) (replicate N 0%Z)))).
Proof.
  intros Hin Hnm.
  destruct (prepare_data_matrix_step_unfold self idx Hin Hnm)
    as (xr & fmap & xk & HFr & HFm & HFk & Heq).
  exists xr, fmap, xk. do 3 (split; [done|]). intros step Hstep.
  rewrite Heq. rewrite copy_columns_rows; [done|done| | |].
  - cbn [ncols]. rewrite <- (Forall2_length _ _ _ HFm).
    apply (Forall2_length _ _ _ kept_ids_lookup).
  - unfold nrows, zeros; cbn [rows]. rewrite length_replicate.
    symmetry. apply (Forall2_length _ _ _ HFk).
  - unfold zeros; cbn [ncols]. apply Forall_forall.
    intros t (k & Hk)%list_elem_of_lookup.
    destruct (Forall2_lookup_r _ _ _ _ _ HFm Hk) as (g & _ & Hg).
    by apply index_lt in Hg.
Qed.


(** An identifier that labels exactly one input column, column [i], is
    copied by exactly one entry of the feature map. *)
Lemma feature_map_unique fmap g i j :
  Forall2 (fun g t => index reference g = Some t)
          (filter (fun g => g ∈ reference) data_ids) fmap ->
  index reference g = Some j ->
  data_ids !! i = Some g ->
  (forall i', data_ids !! i' = Some g -> i' = i) ->
  exists k, kept_features self !! k = Some i
            /\ fmap !! k = Some j
            /\ forall k', fmap !! k' = Some j -> k' = k.
Proof.
  intros HFm Hj Hi Huniq.
  assert (g ∈ reference) as Hg.
  { apply index_Some in Hj as [Hj _]. by eapply list_elem_of_lookup_2. }
  assert (i ∈ kept_features self) as (k & Hk)%list_elem_of_lookup.
  { apply elem_of_where_. exists g. split; [done|]. by apply bool_decide_eq_true. }
  exists k. split; [done|].
  destruct (Forall2_lookup_l _ _ _ _ _ kept_ids_lookup Hk) as (g' & Hg' & Hig').
  assert (g' = g) as -> by congruence.
  destruct (Forall2_lookup_l _ _ _ _ _ HFm Hg') as (t & Ht & Hit).
  assert (t = j) as -> by congruence.
  split; [done|]. intros k' Hk'.
  destruct (Forall2_lookup_r _ _ _ _ _ HFm Hk') as (g2 & Hg2 & Hi2).
  assert (g2 = g) as ->.
  { apply index_Some in Hi2 as [Hi2 _]. apply index_Some in Hj as [Hj _]. congruence. }
  destruct (Forall2_lookup_r _ _ _ _ _ kept_ids_lookup Hg2) as (i2 & Hi2' & Hi2g).
  apply Huniq in Hi2g as ->.
  assert (NoDup (kept_features self)) as Hnd by apply NoDup_where_from.
  by eapply NoDup_lookup.
Qed.

End remap.

(** ** Feature remapping (C1, C9) *)

Section remap_theorems.

Variable self : EstimatorKeras.
Variable idx : option (list nat).

Let reference := ensembl (topology_container self).
Let data_ids := var_ensembl (data self).
Let N := ngenes (topology_container self).

Lemma getitem_rows_selected xr :
  Forall2 (fun i row => rows (X (data self)) !! i = Some row)
          (selected (data self) idx) xr ->
  getitem_rows (X (data self)) (selected (data self) idx)
  = Ok (Matrix (ncols (X (data self))) xr).
Proof.
  intros HFr. unfold getitem_rows, take_idx.
  by rewrite (mapM_Some_2 _ _ _ HFr).
Qed.


End remap_theorems.

Lemma example_in_memory_input (reference : list string) :
  in_memory_input (Examples.estimator Examples.three_cells reference) None.
Proof.
  split.
  - reflexivity.
  - discriminate.
  - repeat constructor.
  - reflexivity.
  - repeat constructor.
Defined.

Lemma example_not_mapped (reference : list string) :
  not_mapped (Examples.estimator Examples.three_cells reference).
Proof. unfold not_mapped. simpl. rewrite lookup_empty. discriminate. Defined.


(** ** Chunked copy (C2) *)



(** The same at the level of [_prepare_data_matrix]: when the input
    identifiers found in the reference are pairwise distinct the chunk width
    does not show in the result. *)
Lemma prepare_data_matrix_any_step (self : EstimatorKeras) (idx : option (list nat))
    (step : nat) :
  0 < step ->
  in_memory_input self idx -> not_mapped self ->
  NoDup (filter (fun g => g ∈ ensembl (topology_container self))
                (var_ensembl (data self))) ->
  _prepare_data_matrix_step step self idx = _prepare_data_matrix self idx.
Proof.
  intros Hstep Hin Hnm Hnd.
  destruct (prepare_data_matrix_step_rows self idx Hin Hnm)
    as (xr & fmap & xk & HFr & HFm & HFk & Heq).
  unfold _prepare_data_matrix. rewrite !Heq by lia.
  f_equal. f_equal. apply list_eq. intros r. rewrite !lookup_zip_with.
  destruct (xk !! r) as [krow|] eqn:Hk; [|done]. simpl.
  destruct (replicate _ _ !! r) as [d|] eqn:Hd; [|done]. simpl. f_equal.
  apply lookup_replicate in Hd as [-> _].
  assert (NoDup fmap) as Hndf.
  { apply NoDup_alt. intros k1 k2 t H1 H2.
    destruct (Forall2_lookup_r _ _ _ _ _ HFm H1) as (g1 & Hg1 & Hi1).
    destruct (Forall2_lookup_r _ _ _ _ _ HFm H2) as (g2 & Hg2 & Hi2).
    assert (g1 = g2) as ->.
    { apply index_Some in Hi1 as [? _]. apply index_Some in Hi2 as [? _]. congruence. }
    by eapply NoDup_lookup. }
  assert (length krow = length fmap) as Hlen.
  { destruct (lookup_lt_is_Some_2 xr r) as [xrow Hxrow].
    { rewrite (Forall2_length _ _ _ HFk). by eapply lookup_lt_Some. }
    pose proof (Forall2_lookup_lr _ _ _ _ _ _ HFk Hxrow Hk) as Hcols.
    rewrite <- (Forall2_length _ _ _ Hcols), <- (Forall2_length _ _ _ HFm).
    apply (Forall2_length _ _ _ (kept_ids_lookup self)). }
  assert (Forall (fun t => t < length (replicate (ngenes (topology_container self)) 0%Z))
                 fmap) as Hb.
  { rewrite length_replicate. apply Forall_forall.
    intros t (k & Hk')%list_elem_of_lookup.
    destruct (Forall2_lookup_r _ _ _ _ _ HFm Hk') as (g & _ & Hg).
    by apply index_lt in Hg. }
  rewrite !copy_row_assign_row by (done || lia). done.
Qed.


(** ** No shared identifier (C9) *)

(** Counterexample to C9 as stated: the three input identifiers [a b c] and
    the reference [x y] share nothing, and the call returns the all-zero
    matrix instead of raising. *)
Lemma zero_overlap_does_not_raise :
  (forall g, g ∈ var_ensembl (data Examples.disjoint_estimator) ->
             g ∉ ensembl (topology_container Examples.disjoint_estimator))
  /\ _prepare_data_matrix Examples.disjoint_estimator None = Ok (zeros 3 2)
  /\ ~ raises (_prepare_data_matrix Examples.disjoint_estimator None).
Proof.
  split; [|split].
  - intros g Hg Hr. simpl in Hg, Hr.
    repeat (apply elem_of_cons in Hg as [->|Hg];
            [repeat (apply elem_of_cons in Hr as [Hr|Hr]; [discriminate|]);
             by apply elem_of_nil in Hr|]).
    by apply elem_of_nil in Hg.
  - vm_compute. reflexivity.
  - vm_compute. tauto.
Qed.

(** C9 (amended). When no input identifier occurs in the reference, the
    remapping of an in-memory input raises nothing: it returns the all-zero
    matrix with one row per selected observation and N_ref columns. *)
Theorem zero_overlap_returns_zeros (self : EstimatorKeras) (idx : option (list nat)) :
  in_memory_input self idx -> not_mapped self ->
  (forall g, g ∈ var_ensembl (data self) -> g ∉ ensembl (topology_container self)) ->
  _prepare_data_matrix self idx
  = Ok (zeros (length (selected (data self) idx)) (ngenes (topology_container self))).
Proof.
  intros Hin Hnm Hdisj.
  destruct (prepare_data_matrix_step_rows self idx Hin Hnm)
    as (xr & fmap & xk & HFr & HFm & HFk & Heq).
  unfold _prepare_data_matrix. rewrite Heq by lia.
  assert (kept_features self = []) as Hkept.
  { apply elem_of_nil_inv. intros i (g & Hg & Hp)%elem_of_where_.
    apply bool_decide_eq_true in Hp. apply (Hdisj g); [|done].
    by eapply list_elem_of_lookup_2. }
  assert (fmap = []) as ->.
  { pose proof (Forall2_length _ _ _ (kept_ids_lookup self)) as Hl1.
    pose proof (Forall2_length _ _ _ HFm) as Hl2.
    rewrite Hkept in Hl1. simpl in Hl1. rewrite <- Hl1 in Hl2.
    by destruct fmap. }
  unfold zeros. f_equal. f_equal.
  rewrite (Forall2_length _ _ _ HFr).
  transitivity (zip_with (fun (_ : list Z) (d : list Z) => d) xk
                  (replicate (length xr)
                     (replicate (ngenes (topology_container self)) 0%Z))).
  { apply zip_with_ext; [|done..]. intros src d'. unfold copy_row.
    by rewrite bool_decide_false by (simpl; lia). }
  apply zip_with_keep_right. rewrite length_replicate.
  symmetry. apply (Forall2_length _ _ _ HFk).
Qed.

Lemma zero_overlap_returns_zeros_witness :
  _prepare_data_matrix Examples.disjoint_estimator None = Ok (zeros 3 2).
Proof.
  refine (zero_overlap_returns_zeros Examples.disjoint_estimator None
            (example_in_memory_input _) (example_not_mapped _) _).
  intros g Hg Hr. simpl in Hg, Hr.
  repeat (apply elem_of_cons in Hg as [->|Hg];
          [repeat (apply elem_of_cons in Hr as [Hr|Hr]; [discriminate|]);
           by apply elem_of_nil in Hr|]).
  by apply elem_of_nil in Hg.
Defined.

(** ** Backed sources (C8, C3) *)

(** C8. Order restoration for backed sources fails.  For the index array
    [2; 0; 1], the evaluation and prediction branches return as row 0 the
    source row 1, whereas the source row at [idx[0]] is row 2: indexing the
    sorted read with [argsort(idx)] does not undo the sort. *)
Theorem backed_eval_order_not_restored :
  let idx := [2; 0; 1] in
  let source := rows (X Examples.backed_cells) in
  (exists x sf vae,
      embedding_get_dataset Examples.backed_estimator (Some idx) None "eval" 100 10 false
      = Ok (EmbArrays x sf vae)
      /\ rows x !! 0 = source !! 1
      /\ rows x !! 0 <> source !! 2)
  /\ (exists x,
        celltype_get_dataset (Examples.classifier Examples.backed_estimator)
          (Some idx) None "predict" true 100 10
        = Ok (CtArrays x None None)
        /\ rows x !! 0 = source !! 1
        /\ rows x !! 0 <> source !! 2)
  /\ idx !! 0 = Some 2.
Proof.
  cbv zeta. split; [|split].
  - eexists _, _, _. split; [vm_compute; reflexivity|].
    split; [reflexivity|discriminate].
  - eexists. split; [vm_compute; reflexivity|].
    split; [reflexivity|discriminate].
  - reflexivity.
Qed.

(** In the classifier the stream over a backed source is never built: both
    streaming modes read the local [x], which only the in-memory branch
    assigns. *)
Lemma celltype_stream_backed_raises (self : EstimatorKerasCelltype)
    (idx : option (list nat)) (batch : option nat) (weighted : bool)
    (shuffle_buffer_size prefetch : nat) (repeat : bool) :
  filename (data (base self)) <> None ->
  raises (celltype_stream self idx batch weighted shuffle_buffer_size prefetch repeat).
Proof.
  intros Hb. unfold celltype_stream.
  destruct (_get_celltype_out self idx ["names"]) as [wy|e]; [|exact I].
  cbn [mbind result_bind Py.bind].
  destruct (filename (data (base self))); [|done].
  exact I.
Qed.

(** C3. The backed and the in-memory path of the classifier are not
    equivalent.  On the same three observations, already in reference feature
    order for the backed source, the in-memory path builds a training stream
    whose generator yields three elements, and the backed path raises
    [UnboundLocalError] for the local [x] before any dataset exists. *)
Theorem backed_classifier_train_raises :
  (exists d elems,
      celltype_get_dataset (Examples.classifier Examples.remap_estimator)
        (Some [0; 1; 2]) (Some 2) "train" true 100 10
      = Ok (CtDataset d)
      /\ generator d = Ok elems
      /\ fst <$> (fst <$> elems) = [[3; 0; 1]; [6; 0; 4]; [9; 0; 7]]%Z)
  /\ celltype_get_dataset (Examples.classifier Examples.backed_estimator)
       (Some [0; 1; 2]) (Some 2) "train" true 100 10
     = Raise (UnboundLocalError "x")
  /\ celltype_get_dataset (Examples.classifier Examples.backed_estimator)
       (Some [0; 1; 2]) (Some 2) "train_val" true 100 10
     = Raise (UnboundLocalError "x").
Proof.
  split; [|split].
  - eexists _, _. split; [vm_compute; reflexivity|].
    split; [reflexivity|]. vm_compute. reflexivity.
  - vm_compute. reflexivity.
  - vm_compute. reflexivity.
Qed.

(** ** Weight files without a checksum (C10) *)

Lemma assert_md5_sum_None (e : env) (w : world) (fn : string) :
  raises (_assert_md5_sum e w fn None).
Proof.
  unfold _assert_md5_sum. destruct (fs w !! fn) as [[content|]|]; simpl; exact I.
Qed.

Lemma assert_md5_sum_None_file (e : env) (w : world) (fn content : string) :
  fs w !! fn = Some (File content) ->
  _assert_md5_sum e w fn None
  = Raise (ValueError ("md5 of " +:+ fn +:+ " did not match expectation")).
Proof. intros Hf. unfold _assert_md5_sum. by rewrite Hf. Qed.

(** C10. Without a checksum no pretrained weights are ever loaded: when the
    estimator was built with [weights_md5 = None], every call of
    [load_pretrained_weights] raises and leaves the model weights as they
    were; in particular, when the [.h5] file exists at the local path the
    call raises the checksum error, because the digest of a file is never
    equal to [None]. *)
Theorem load_pretrained_weights_without_md5 (e : env) (self : EstimatorKeras) (w : world) :
  md5 self = None ->
  raises (load_pretrained_weights e self w).2
  /\ loaded_weights (load_pretrained_weights e self w).1 = loaded_weights w
  /\ (forall fn content,
        fs w !! fn = Some (File content) -> raises (_assert_md5_sum e w fn (md5 self)))
  /\ (forall content,
        startswith (model_dir self) "http" = false ->
        endswith (model_dir self) "/" = false ->
        model_dir self <> "" ->
        fs w !! (weights_fn self +:+ ".h5") = Some (File content) ->
        (load_pretrained_weights e self w).2
        = Raise (ValueError ("md5 of " +:+ (weights_fn self +:+ ".h5")
                             +:+ " did not match expectation"))).
Proof.
  intros Hmd5. split; [|split; [|split]].
  - unfold load_pretrained_weights. rewrite Hmd5.
    repeat match goal with
           | |- context [_assert_md5_sum ?e ?w ?fn None] =>
               let H := fresh in
               pose proof (assert_md5_sum_None e w fn) as H;
               destruct (_assert_md5_sum e w fn None); [destruct H|]
           | |- context [if ?b then _ else _] => destruct b
           | |- context [match ?o with Some _ => _ | None => _ end] => destruct o
           end; exact I.
  - unfold load_pretrained_weights. rewrite Hmd5.
    repeat match goal with
           | |- context [_assert_md5_sum ?e ?w ?fn None] =>
               let H := fresh in
               pose proof (assert_md5_sum_None e w fn) as H;
               destruct (_assert_md5_sum e w fn None); [destruct H|]
           | |- context [if ?b then _ else _] => destruct b
           | |- context [match ?o with Some _ => _ | None => _ end] => destruct o
           end; reflexivity.
  - intros fn content Hf. rewrite Hmd5. apply assert_md5_sum_None.
  - intros content Hhttp Hslash Hne Hf.
    unfold weights_fn in Hf |- *. unfold load_pretrained_weights.
    rewrite Hslash in Hf |- *. cbv beta iota zeta in Hf |- *.
    rewrite Hhttp in Hf. rewrite Hhttp.
    destruct (String.eqb (model_dir self) "") eqn:Heq.
    { apply String.eqb_eq in Heq. done. }
    unfold exists_. rewrite bool_decide_true by (rewrite Hf; eauto).
    rewrite Hmd5. by rewrite (assert_md5_sum_None_file e w _ content Hf).
Qed.

Lemma load_pretrained_weights_without_md5_witness :
  raises (load_pretrained_weights
            {| hexdigest := fun _ => "d41d8cd98f00b204e9800998ecf8427e";
               urlretrieve := fun _ => None |}
            Examples.remap_estimator
            {| fs := {[ "models//embedding_0_weights.h5" := File "weights" ]};
               loaded_weights := None |}).2.
Proof.
  refine (proj1 (load_pretrained_weights_without_md5 _ Examples.remap_estimator _ _)).
  reflexivity.
Defined.

(** ** Partitioning (C6, C7) *)

Lemma choice_elem_of (rs : RandomState) (seed : nat) (a : list nat) (size : Z)
    (l : list nat) :
  choice rs seed a size = Ok l -> forall x, x ∈ l -> x ∈ a.
Proof.
  unfold choice. intros Hc x (k & Hk)%list_elem_of_lookup.
  repeat case_decide; try discriminate.
  apply of_option_Ok, mapM_Some_1 in Hc.
  destruct (Forall2_lookup_r _ _ _ _ _ Hc Hk) as (i & _ & Hi).
  by eapply list_elem_of_lookup_2.
Qed.


Lemma for_each_in_test_length (d : AnnData) (items : list (string * split_value))
    (init v : list bool) :
  for_each (in_test_step d) items init = Ok v -> length v = length init.
Proof.
  revert init. induction items as [|kv items IH]; intros init; simpl.
  - by intros [= ->].
  - intros (v' & Hstep & Hrest)%bind_Ok. rewrite (IH _ Hrest).
    unfold in_test_step in Hstep.
    apply bind_Ok in Hstep as (col & _ & Hand).
    assert (forall b, logical_and init b = Ok v' -> length v' = length init) as Hl.
    { intros b. unfold logical_and. case_decide as Hlen; [|done].
      intros [= <-]. rewrite length_zip_with. lia. }
    destruct (kv.2); eapply Hl; exact Hand.
Qed.

(** Whatever the generator draws, the three index lists returned by the
    split are pairwise disjoint and together hold exactly the indices of
    the observations. *)
Lemma split_indices_partition (rs : RandomState) (self : EstimatorKeras)
    (test_split : test_split_t) (validation_split : Qc) (p : Partition) :
  split_indices rs self test_split validation_split = Ok p ->
  (forall i, ~ (i ∈ idx_train p /\ i ∈ idx_eval p))
  /\ (forall i, ~ (i ∈ idx_train p /\ i ∈ idx_test p))
  /\ (forall i, ~ (i ∈ idx_eval p /\ i ∈ idx_test p))
  /\ (forall i, i < n_obs (data self)
                <-> i ∈ idx_train p \/ i ∈ idx_eval p \/ i ∈ idx_test p).
Proof.
  unfold split_indices.
  intros (test & Htest & (eval & Heval & [= <-])%bind_Ok)%bind_Ok.
  cbn [idx_train idx_eval idx_test].
  set (n := n_obs (data self)) in *.
  assert (forall x, x ∈ eval -> x ∈ seq 0 n /\ x ∉ test) as Hev.
  { intros x Hx. apply (choice_elem_of _ _ _ _ _ Heval) in Hx.
    by apply list_elem_of_filter in Hx as [? ?]. }
  assert (forall x, x ∈ test -> x < n) as Hte.
  { intros x Hx. destruct test_split as [f|items|]; [| |done].
    - apply (choice_elem_of _ _ _ _ _ Htest) in Hx.
      apply elem_of_seq in Hx. lia.
    - apply bind_Ok in Htest as (in_test & Hfor & [= <-]).
      apply for_each_in_test_length in Hfor. rewrite length_replicate in Hfor.
      apply elem_of_where_ in Hx as (b & Hb & _).
      apply lookup_lt_Some in Hb. lia. }
  repeat split.
  - intros i [[Hn _]%list_elem_of_filter He]. done.
  - intros i [[_ [Hn _]%list_elem_of_filter]%list_elem_of_filter Ht]. done.
  - intros i [He Ht]. by destruct (Hev i He).
  - intros Hi.
    destruct (decide (i ∈ test)) as [|Hnt]; [by right; right|].
    destruct (decide (i ∈ eval)) as [|Hne]; [by right; left|].
    left. apply list_elem_of_filter. split; [done|].
    apply list_elem_of_filter. split; [done|]. apply elem_of_seq. lia.
  - intros [Ht|[He|Ht]].
    + apply list_elem_of_filter in Ht as [_ [_ Hs]%list_elem_of_filter].
      apply elem_of_seq in Hs. lia.
    + destruct (Hev i He) as [Hs _]. apply elem_of_seq in Hs. lia.
    + by apply Hte.
Qed.

Lemma py_round_bounds (n : nat) (f : Qc) :
  (0 <= f <= 1)%Qc -> (0 <= py_round (of_nat n * f)%Qc <= Z.of_nat n)%Z.
Proof.
  intros [Hf0 Hf1]. unfold py_round. cbv zeta.
  set (q := this (of_nat n * f)%Qc).
  assert (0 <= q /\ q <= inject_Z (Z.of_nat n))%Q as [Hq0 Hqn].
  { assert (q == inject_Z (Z.of_nat n) * this f)%Q as ->.
    { subst q. unfold of_nat, Qc_of_Z. simpl. by rewrite !Qred_correct. }
    assert (0 <= this f /\ this f <= 1)%Q as [H0 H1] by (split; [exact Hf0|exact Hf1]).
    assert (0 <= inject_Z (Z.of_nat n))%Q as Hn.
    { rewrite <- (Zle_Qle 0). lia. }
    split; nra. }
  pose proof (Qfloor_le q) as Hfl. pose proof (Qlt_floor q) as Hlt.
  rewrite inject_Z_plus in Hlt.
  assert (0 <= Qfloor q <= Z.of_nat n)%Z as [Hlo Hhi].
  { split.
    - assert (-1 < Qfloor q)%Z; [|lia]. rewrite Zlt_Qlt.
      change (inject_Z (-1)) with (- (1))%Q. change (inject_Z 1) with 1%Q in Hlt. lra.
    - rewrite Zle_Qle. lra. }
  destruct (Qlt_le_dec (q - inject_Z (Qfloor q)) (1 # 2)) as [Hr|Hr]; [lia|].
  assert (Qfloor q < Z.of_nat n)%Z.
  { rewrite Zlt_Qlt. lra. }
  destruct (Qlt_le_dec (1 # 2) (q - inject_Z (Qfloor q))); [lia|].
  destruct (Z.even (Qfloor q)); lia.
Qed.

Lemma choice_Ok (rs : RandomState) (seed : nat) (a : list nat) (size : Z) :
  valid_random_state rs ->
  (0 <= size <= Z.of_nat (length a))%Z ->
  exists l, choice rs seed a size = Ok l.
Proof.
  intros Hrs [Hlo Hhi]. unfold choice.
  rewrite decide_False by lia. rewrite decide_False by lia.
  destruct (take_idx_Some a (take (Z.to_nat size) (permutation rs seed (length a))))
    as (l & -> & _); [|by exists l].
  apply Forall_take, Forall_forall. intros i Hi.
  rewrite (Hrs seed (length a)) in Hi. apply elem_of_seq in Hi. lia.
Qed.

Lemma for_each_in_test_Ok (d : AnnData) (items : list (string * split_value))
    (init : list bool) :
  Forall (fun kv : string * split_value =>
            exists col, obs d !! kv.1 = Some col /\ length col = length init) items ->
  exists v, for_each (in_test_step d) items init = Ok v.
Proof.
  revert init. induction items as [|kv items IH]; intros init Hitems; simpl.
  - by exists init.
  - apply Forall_cons in Hitems as [(col & Hcol & Hlen) Hitems].
    assert (exists v', in_test_step d init kv = Ok v' /\ length v' = length init)
      as (v' & -> & Hv').
    { unfold in_test_step. rewrite Hcol. cbn [of_option mbind result_bind Py.bind].
      unfold logical_and.
      destruct (kv.2) as [accepted|v]; rewrite decide_True by (by rewrite length_fmap);
        eexists; (split; [reflexivity|]);
        rewrite length_zip_with, length_fmap; lia. }
    cbn [Py.bind]. apply IH. by rewrite Hv'.
Qed.

(** The split succeeds on a valid test specification and a validation
    fraction between 0 and 1. *)
Lemma split_indices_Ok (rs : RandomState) (self : EstimatorKeras)
    (test_split : test_split_t) (validation_split : Qc) :
  valid_random_state rs ->
  test_split_valid self test_split ->
  (0 <= validation_split <= 1)%Qc ->
  exists p, split_indices rs self test_split validation_split = Ok p.
Proof.
  intros Hrs Hts Hvs. unfold split_indices.
  assert (exists test,
            match test_split with
            | SplitFraction f =>
                choice rs 1 (seq 0 (n_obs (data self)))
                       (py_round (of_nat (n_obs (data self)) * f)%Qc)
            | SplitDict items =>
                in_test ← for_each (in_test_step (data self)) items
                            (replicate (n_obs (data self)) true);
                Ok (where_ id in_test)
            | SplitOther => Raise (ValueError "type of test_split not recognized")
            end = Ok test) as (test & ->).
  { destruct test_split as [f|items|]; [| |done].
    - apply choice_Ok; [done|]. rewrite length_seq. by apply py_round_bounds.
    - destruct (for_each_in_test_Ok (data self) items
                  (replicate (n_obs (data self)) true)) as (v & ->).
      { rewrite length_replicate. exact Hts. }
      by eexists. }
  cbn [mbind result_bind Py.bind].
  destruct (choice_Ok rs 1
              (filter (fun x => x ∉ test) (seq 0 (n_obs (data self))))
              (py_round (of_nat (length (filter (fun x => x ∉ test)
                                           (seq 0 (n_obs (data self)))))
                         * validation_split)%Qc) Hrs) as (eval & ->).
  { by apply py_round_bounds. }
  by eexists.
Qed.

(** C6. Partition disjointness and coverage.  For every observation count,
    every fractional or predicate-based test specification and every
    validation fraction, the train, eval and test index lists produced by the
    split of [train] (seed 1 for both draws) are pairwise disjoint and their
    union is exactly the index set 0 .. N-1; and the split does produce them
    whenever the test specification is valid and the validation fraction is
    between 0 and 1. *)
Theorem partition_disjoint_and_covering (rs : RandomState) (self : EstimatorKeras)
    (test_split : test_split_t) (validation_split : Qc) :
  (forall p,
     split_indices rs self test_split validation_split = Ok p ->
     (forall i, ~ (i ∈ idx_train p /\ i ∈ idx_eval p))
     /\ (forall i, ~ (i ∈ idx_train p /\ i ∈ idx_test p))
     /\ (forall i, ~ (i ∈ idx_eval p /\ i ∈ idx_test p))
     /\ (forall i, i < n_obs (data self)
                   <-> i ∈ idx_train p \/ i ∈ idx_eval p \/ i ∈ idx_test p))
  /\ (valid_random_state rs ->
      test_split_valid self test_split ->
      (0 <= validation_split <= 1)%Qc ->
      exists p, split_indices rs self test_split validation_split = Ok p).
Proof.
  split.
  - intros p. apply split_indices_partition.
  - apply split_indices_Ok.
Qed.

Lemma reverse_random_state_valid : valid_random_state reverse_random_state.
Proof. intros seed n. simpl. apply reverse_Permutation. Defined.

Lemma partition_disjoint_and_covering_witness :
  exists p,
    split_indices reverse_random_state Examples.remap_estimator
                  (SplitFraction (Q2Qc (1 # 3))) (Q2Qc (1 # 2)) = Ok p.
Proof.
  refine (proj2 (partition_disjoint_and_covering reverse_random_state
                   Examples.remap_estimator (SplitFraction (Q2Qc (1 # 3)))
                   (Q2Qc (1 # 2))) reverse_random_state_valid _ _).
  - split; vm_compute; discriminate.
  - split; vm_compute; discriminate.
Defined.

Lemma choice_zero (rs : RandomState) (seed : nat) (a : list nat) :
  choice rs seed a 0 = Ok [].
Proof.
  unfold choice. rewrite decide_False by lia. rewrite decide_False by (simpl; lia).
  reflexivity.
Qed.

(** A validation fraction of 0 leaves the evaluation partition empty. *)
Lemma split_indices_no_validation (rs : RandomState) (self : EstimatorKeras)
    (test_split : test_split_t) (p : Partition) :
  split_indices rs self test_split 0%Qc = Ok p -> idx_eval p = [].
Proof.
  unfold split_indices.
  intros (test & Htest & (eval & Heval & [= <-])%bind_Ok)%bind_Ok.
  cbn [idx_eval]. rewrite Qcmult_0_r in Heval.
  change (py_round 0%Qc) with 0%Z in Heval.
  rewrite choice_zero in Heval. congruence.
Qed.

(** C7. Empty-partition policy.  After the split, an empty test partition
    only adds the warning and the call goes on with the partition; an empty
    eval partition raises, and so does an empty train partition.  A
    validation fraction of 0 yields no eval member, so [train] raises the
    evaluation error whenever the split itself succeeds, and returns no
    partition in any case. *)
Theorem empty_partition_policy (rs : RandomState) (self : EstimatorKeras)
    (test_split : test_split_t) (p : Partition) :
  (idx_test p = [] -> idx_eval p <> [] -> idx_train p <> [] ->
   check_partitions p = (["Test partition is empty!"], Ok p))
  /\ (idx_test p <> [] -> idx_eval p <> [] -> idx_train p <> [] ->
      check_partitions p = ([], Ok p))
  /\ (idx_eval p = [] ->
      (check_partitions p).2 = Raise (ValueError "The evaluation dataset is empty."))
  /\ (idx_eval p <> [] -> idx_train p = [] ->
      (check_partitions p).2 = Raise (ValueError "The train dataset is empty."))
  /\ raises (train_split rs self test_split 0%Qc).2
  /\ (split_indices rs self test_split 0%Qc = Ok p ->
      (train_split rs self test_split 0%Qc).2
      = Raise (ValueError "The evaluation dataset is empty.")).
Proof.
  assert (forall l : list nat, l <> [] -> length l <> 0) as Hne.
  { intros [|? ?] ?; simpl; [done|lia]. }
  unfold check_partitions. repeat split.
  - intros -> He Ht. simpl.
    rewrite !decide_False by auto. reflexivity.
  - intros Hte He Ht.
    rewrite !decide_False by auto. reflexivity.
  - intros ->. simpl. by destruct (decide (length (idx_test p) = 0)).
  - intros He ->. rewrite (decide_False (P := length (idx_eval p) = 0)) by auto.
    simpl. by destruct (decide (length (idx_test p) = 0)).
  - unfold train_split.
    destruct (split_indices rs self test_split 0%Qc) as [q|e] eqn:Hs; [|exact I].
    apply split_indices_no_validation in Hs. unfold check_partitions.
    rewrite Hs. simpl. by destruct (decide (length (idx_test q) = 0)).
  - intros Hs. unfold train_split. rewrite Hs.
    apply split_indices_no_validation in Hs. unfold check_partitions.
    rewrite Hs. simpl. by destruct (decide (length (idx_test p) = 0)).
Qed.

Lemma empty_partition_policy_witness :
  check_partitions {| idx_train := [0]; idx_eval := [1]; idx_test := [] |}
  = (["Test partition is empty!"],
     Ok {| idx_train := [0]; idx_eval := [1]; idx_test := [] |})
  /\ (train_split reverse_random_state Examples.remap_estimator
        (SplitFraction (Q2Qc (1 # 3))) 0%Qc).2
     = Raise (ValueError "The evaluation dataset is empty.").
Proof.
  split.
  - refine (proj1 (empty_partition_policy reverse_random_state Examples.remap_estimator
                     SplitOther {| idx_train := [0]; idx_eval := [1]; idx_test := [] |})
              _ _ _); [reflexivity|discriminate|discriminate].
  - refine (proj2 (proj2 (proj2 (proj2 (proj2
              (empty_partition_policy reverse_random_state Examples.remap_estimator
                 (SplitFraction (Q2Qc (1 # 3)))
                 {| idx_train := [0; 1]; idx_eval := []; idx_test := [2] |}))))) _).
    vm_compute. reflexivity.
Defined.

(** ** Label rows (C4) *)

Lemma map_result_Ok {A B : Type} (f : A -> result B) (l : list A) (ys : list B) :
  map_result f l = Ok ys <-> Forall2 (fun a b => f a = Ok b) l ys.
Proof.
  revert ys. induction l as [|a l IH]; intros ys; simpl.
  - split; [intros [= <-]; constructor | by intros ->%Forall2_nil_inv_l].
  - split.
    + intros (b & Hb & (bs & Hbs & [= <-])%bind_Ok)%bind_Ok.
      constructor; [done|]. by apply IH.
    + intros (b & bs & Hb & Hbs & ->)%Forall2_cons_inv_l.
      rewrite Hb. cbn [mbind result_bind Py.bind].
      apply IH in Hbs. by rewrite Hbs.
Qed.

Lemma map_result_Raise {A B : Type} (f : A -> result B) (l : list A) (e : exn) :
  map_result f l = Raise e -> exists a, a ∈ l /\ f a = Raise e.
Proof.
  induction l as [|a l IH]; simpl; [done|].
  destruct (f a) as [b|e'] eqn:Hfa; cbn [mbind result_bind Py.bind].
  - destruct (map_result f l) as [bs|e'']; cbn [Py.bind]; [done|].
    intros [= ->]. destruct IH as (a' & ? & ?); [done|].
    exists a'. split; [by right|done].
  - intros [= ->]. exists a. split; [by left|done].
Qed.

Lemma setitem_many_Ok {A : Type} (row : list A) (ps : list nat) (v : A) :
  Forall (fun p => p < length row) ps ->
  exists row',
    setitem_many row ps v = Ok row'
    /\ length row' = length row
    /\ forall j, row' !! j = if decide (j ∈ ps) then Some v else row !! j.
Proof.
  revert row. induction ps as [|p ps IH]; intros row Hps.
  - exists row. split; [done|]. split; [done|]. intros j.
    rewrite decide_False; [done|]. apply not_elem_of_nil.
  - apply Forall_cons in Hps as [Hp Hps].
    unfold setitem_many. cbn [for_each]. unfold setitem at 1.
    rewrite decide_True by done. cbn [Py.bind].
    destruct (IH (<[p:=v]> row)) as (row' & Hrow' & Hlen & Hlook).
    { by rewrite length_insert. }
    exists row'. split; [exact Hrow'|]. split; [by rewrite Hlen, length_insert|].
    intros j. rewrite Hlook.
    destruct (decide (j ∈ ps)) as [Hin|Hnin].
    + rewrite decide_True; [done|by right].
    + destruct (decide (j = p)) as [->|Hne].
      * rewrite decide_True by by left. by apply list_lookup_insert_eq.
      * rewrite decide_False by (by intros [?|?]%elem_of_cons).
        by apply list_lookup_insert_ne.
Qed.

Lemma ontology_of_Ok (self : EstimatorKerasCelltype) (ont : string)
    (o : gmap string (list string)) :
  ontology self !! ont = Some o -> ontology_of self ont = Ok o.
Proof. intros Ho. unfold ontology_of. by rewrite Ho. Qed.

Lemma matching_leaf_cons (self : EstimatorKerasCelltype) (ont : string)
    (onts : list string) (label c : string) :
  matching_leaf self (ont :: onts) label c
  = match ontology self !! ont with
    | Some o =>
        match o !! label with
        | Some leave_nodes => bool_decide (c ∈@{list string} leave_nodes)
        | None => false
        end
    | None => false
    end || matching_leaf self onts label c.
Proof. reflexivity. Qed.

Lemma type_classes_ge (self : EstimatorKerasCelltype) :
  length (ids self) <= type_classes self.
Proof. unfold type_classes, ntypes. destruct (existsb _ _); lia. Qed.

Section label_row.

Variable self : EstimatorKerasCelltype.
Variable lookup_ontology : list string.
Variable label : string.
Variable width : nat.
Hypothesis Hwidth : length (ids self) <= width.

(** A label that is a class identifier gives the one-hot row of its first
    position in the identifier list. *)
Lemma label_row_known :
  label ∈ ids self ->
  exists c, index (ids self) label = Some c
            /\ c < length (ids self)
            /\ label_row self width lookup_ontology label = Ok (one_hot width c).
Proof.
  intros Hin. destruct (index_elem_of (ids self) label Hin) as [c Hc].
  pose proof (index_lt _ _ _ Hc) as Hlt.
  exists c. split; [done|]. split; [done|].
  unfold label_row. rewrite bool_decide_false by (by intros ?).
  rewrite Hc. cbn [of_option mbind result_bind Py.bind].
  unfold setitem. rewrite decide_True; [done|].
  rewrite length_replicate. lia.
Qed.

Lemma found_Ok :
  Forall (fun ont => is_Some (ontology self !! ont)) lookup_ontology ->
  exists found,
    map_result
      (fun ont => o ← ontology_of self ont; Ok (bool_decide (is_Some (o !! label))))
      lookup_ontology = Ok found
    /\ existsb id found = is_alias self lookup_ontology label.
Proof.
  unfold is_alias. induction lookup_ontology as [|ont onts IH]; intros Hont.
  - by exists [].
  - apply Forall_cons in Hont as [[o Ho] Hont].
    destruct (IH Hont) as (found & Hfound & Hex).
    exists (bool_decide (is_Some (o !! label)) :: found). split.
    + cbn [map_result]. rewrite (ontology_of_Ok _ _ _ Ho).
      cbn [mbind result_bind Py.bind]. by rewrite Hfound.
    + simpl. by rewrite Ho, Hex.
Qed.

(** The loop over the ontology groupings sets the columns of the matching
    leaves and leaves the others as they are. *)
Lemma label_row_fold (onts : list string) (row : list Qc) :
  Forall (fun ont => is_Some (ontology self !! ont)) onts ->
  length row = width ->
  exists row',
    for_each
      (fun (row : list Qc) (ont : string) =>
         o ← ontology_of self ont;
         match o !! label with
         | Some leave_nodes =>
             setitem_many row
               (where_ (fun jj : string => bool_decide (jj ∈@{list string} leave_nodes))
                       (ids self)) 1%Qc
         | None => Ok row
         end)
      onts row = Ok row'
    /\ length row' = width
    /\ (forall j c, ids self !! j = Some c ->
                    row' !! j = if matching_leaf self onts label c then Some 1%Qc
                                else row !! j)
    /\ (forall j, length (ids self) <= j -> row' !! j = row !! j).
Proof.
  revert row. induction onts as [|ont onts IH]; intros row Hont Hlen.
  - exists row. by repeat split.
  - apply Forall_cons in Hont as [[o Ho] Hont].
    cbn [for_each]. rewrite (ontology_of_Ok _ _ _ Ho).
    cbn [mbind result_bind Py.bind].
    destruct (o !! label) as [leave_nodes|] eqn:Hl.
    + destruct (setitem_many_Ok row
                  (where_ (fun jj : string => bool_decide (jj ∈@{list string} leave_nodes))
                          (ids self)) 1%Qc) as (row1 & -> & Hlen1 & Hlook1).
      { apply Forall_forall. intros j (c & Hc & _)%elem_of_where_.
        apply lookup_lt_Some in Hc. lia. }
      cbn [Py.bind].
      destruct (IH row1 Hont ltac:(lia)) as (row' & -> & Hlen' & Hin & Hout).
      exists row'. split; [done|]. split; [done|]. split.
      * intros j c Hc. rewrite (Hin j c Hc), Hlook1.
        rewrite matching_leaf_cons, Ho, Hl.
        destruct (matching_leaf self onts label c); [by rewrite orb_true_r|].
        rewrite orb_false_r. case_bool_decide as Hm.
        -- rewrite decide_True; [done|]. apply elem_of_where_.
           exists c. split; [done|]. by apply bool_decide_eq_true.
        -- rewrite decide_False; [done|].
           intros (c' & Hc' & Hp)%elem_of_where_.
           apply bool_decide_eq_true in Hp. congruence.
      * intros j Hj. rewrite (Hout j Hj), Hlook1.
        rewrite decide_False; [done|].
        intros (c' & Hc' & _)%elem_of_where_. apply lookup_lt_Some in Hc'. lia.
    + cbn [Py.bind].
      destruct (IH row Hont Hlen) as (row' & -> & Hlen' & Hin & Hout).
      exists row'. split; [done|]. split; [done|]. split; [|done].
      intros j c Hc. by rewrite matching_leaf_cons, Ho, Hl, (Hin j c Hc).
Qed.

(** A label that is no class identifier but an alias in a grouping gives
    the multi-hot row of its matching leaves. *)
Lemma label_row_alias :
  label ∉ ids self ->
  Forall (fun ont => is_Some (ontology self !! ont)) lookup_ontology ->
  is_alias self lookup_ontology label = true ->
  exists row,
    label_row self width lookup_ontology label = Ok row
    /\ length row = width
    /\ (forall j c, ids self !! j = Some c ->
                    row !! j = Some (if matching_leaf self lookup_ontology label c
                                     then 1%Qc else 0%Qc))
    /\ (forall j, length (ids self) <= j < width -> row !! j = Some 0%Qc).
Proof.
  intros Hnin Hont Halias. unfold label_row.
  rewrite bool_decide_true by done.
  destruct (found_Ok Hont) as (found & -> & Hex).
  cbn [mbind result_bind Py.bind]. rewrite Hex, Halias. cbn [negb].
  destruct (label_row_fold lookup_ontology (replicate width 0%Qc) Hont)
    as (row & -> & Hlen & Hin & Hout).
  { apply length_replicate. }
  exists row. split; [done|]. split; [done|]. split.
  - intros j c Hc. rewrite (Hin j c Hc).
    destruct (matching_leaf self lookup_ontology label c); [done|].
    apply lookup_replicate_2. apply lookup_lt_Some in Hc. lia.
  - intros j [Hlo Hhi]. rewrite (Hout j Hlo). by apply lookup_replicate_2.
Qed.

(** A label found neither among the class identifiers nor as an alias is
    rejected. *)
Lemma label_row_unknown :
  label ∉ ids self ->
  Forall (fun ont => is_Some (ontology self !! ont)) lookup_ontology ->
  is_alias self lookup_ontology label = false ->
  label_row self width lookup_ontology label
  = Raise (ValueError (label +:+ " not found in cell type universe and ontology sets")).
Proof.
  intros Hnin Hont Halias. unfold label_row.
  rewrite bool_decide_true by done.
  destruct (found_Ok Hont) as (found & -> & Hex).
  cbn [mbind result_bind Py.bind]. by rewrite Hex, Halias.
Qed.

End label_row.

Lemma map_result_total {A B : Type} (f : A -> result B) (l : list A) :
  Forall (fun a => exists b, f a = Ok b) l -> exists ys, map_result f l = Ok ys.
Proof.
  induction l as [|a l IH]; intros Hl; [by exists []|].
  apply Forall_cons in Hl as [[b Hb] Hl]. destruct (IH Hl) as [ys Hys].
  exists (b :: ys). simpl. rewrite Hb. cbn [mbind result_bind Py.bind].
  by rewrite Hys.
Qed.

Lemma count_ones_one_hot (width c : nat) :
  c < width ->
  count_ones (one_hot width c) = 1
  /\ one_hot width c !! c = Some 1%Qc
  /\ forall j, j <> c -> j < width -> one_hot width c !! j = Some 0%Qc.
Proof.
  intros Hc. unfold one_hot. split; [|split].
  - unfold count_ones. revert c Hc.
    induction width as [|w IH]; intros c Hc; [lia|].
    destruct c as [|c].
    + change (<[0:=1%Qc]> (replicate (S w) 0%Qc)) with (1%Qc :: replicate w 0%Qc).
      rewrite filter_cons, decide_True by done. simpl. f_equal.
      clear. induction w as [|w IH]; [done|].
      change (replicate (S w) 0%Qc) with (0%Qc :: replicate w 0%Qc).
      by rewrite filter_cons, decide_False.
    + change (<[S c:=1%Qc]> (replicate (S w) 0%Qc))
        with (0%Qc :: <[c:=1%Qc]> (replicate w 0%Qc)).
      rewrite filter_cons, decide_False by done. apply IH. lia.
  - apply list_lookup_insert_eq. by rewrite length_replicate.
  - intros j Hj Hlt. rewrite list_lookup_insert_ne by done.
    by apply lookup_replicate_2.
Qed.

Lemma count_ones_multi_hot (row : list Qc) (m : string -> bool) (cs : list string)
    (width : nat) :
  length row = width ->
  (forall j c, cs !! j = Some c -> row !! j = Some (if m c then 1%Qc else 0%Qc)) ->
  (forall j, length cs <= j < width -> row !! j = Some 0%Qc) ->
  count_ones row = length (filter (fun c => m c = true) cs).
Proof.
  intros Hlen Hin Hout.
  assert (row = ((fun c => if m c then 1%Qc else 0%Qc) <$> cs)
                ++ replicate (width - length cs) 0%Qc) as ->.
  { apply list_eq. intros j.
    destruct (decide (j < length cs)) as [Hj|Hj].
    - destruct (lookup_lt_is_Some_2 cs j Hj) as [c Hc].
      rewrite (Hin j c Hc), lookup_app_l by (by rewrite length_fmap).
      by rewrite list_lookup_fmap, Hc.
    - rewrite lookup_app_r by (rewrite length_fmap; lia). rewrite length_fmap.
      destruct (decide (j < width)) as [Hw|Hw].
      + rewrite Hout by lia. symmetry. apply lookup_replicate_2. lia.
      + rewrite lookup_ge_None_2 by lia. symmetry.
        apply lookup_ge_None_2. rewrite length_replicate. lia. }
  unfold count_ones. rewrite filter_app, length_app.
  assert (filter (fun v : Qc => v = 1%Qc) (replicate (width - length cs) 0%Qc) = [])
    as ->.
  { generalize (width - length cs). intros k.
    induction k as [|k IH]; [done|].
    change (replicate (S k) 0%Qc) with (0%Qc :: replicate k 0%Qc).
    rewrite filter_cons, decide_False by done. exact IH. }
  simpl. rewrite Nat.add_0_r. clear.
  induction cs as [|c cs IH]; [done|]. rewrite fmap_cons, !filter_cons.
  destruct (m c).
  - rewrite decide_True by done. rewrite decide_True by done. simpl. by rewrite IH.
  - rewrite decide_False by done. rewrite decide_False by done. done.
Qed.

Section label_matrix.

Variable self : EstimatorKerasCelltype.
Variable idx : option (list nat).
Variable lookup_ontology : list string.
Variable labels : list string.

Hypothesis Hlabels : obs (data (base self)) !! "cell_ontology_class" = Some labels.
Hypothesis Hont : Forall (fun ont => is_Some (ontology self !! ont)) lookup_ontology.

Let encode (x : nat) : result (list Qc) :=
  col ← of_option (KeyError "cell_ontology_class")
          (obs (data (base self)) !! "cell_ontology_class");
  label ← of_option (IndexError "index out of bounds") (col !! x);
  label_row self (type_classes self) lookup_ontology label.

Lemma encode_label (x : nat) (label : string) :
  labels !! x = Some label ->
  encode x = label_row self (type_classes self) lookup_ontology label.
Proof.
  intros Hx. unfold encode. rewrite Hlabels.
  cbn [of_option mbind result_bind Py.bind]. by rewrite Hx.
Qed.

Lemma get_celltype_out_rows :
  _get_celltype_out self idx lookup_ontology
  = y ← map_result encode (selected (data (base self)) idx);
    Ok (class_weights (type_classes self) (max_class_weight self) y, y).
Proof. reflexivity. Qed.

(** The three cases of one label. *)
Lemma label_row_cases (label : string) :
  (label ∈ ids self
   /\ exists c, index (ids self) label = Some c /\ c < type_classes self
                /\ label_row self (type_classes self) lookup_ontology label
                   = Ok (one_hot (type_classes self) c))
  \/ ((label ∉ ids self) /\ is_alias self lookup_ontology label = true
      /\ exists row,
           label_row self (type_classes self) lookup_ontology label = Ok row
           /\ length row = type_classes self
           /\ (forall j c, ids self !! j = Some c ->
                 row !! j = Some (if matching_leaf self lookup_ontology label c
                                  then 1%Qc else 0%Qc))
           /\ (forall j, length (ids self) <= j < type_classes self ->
                 row !! j = Some 0%Qc))
  \/ ((label ∉ ids self) /\ is_alias self lookup_ontology label = false
      /\ label_row self (type_classes self) lookup_ontology label
         = Raise (ValueError
                    (label +:+ " not found in cell type universe and ontology sets"))).
Proof.
  pose proof (type_classes_ge self) as Hw.
  destruct (decide (label ∈ ids self)) as [Hin|Hnin].
  - left. split; [done|].
    destruct (label_row_known self lookup_ontology label _ Hw Hin) as (c & ? & ? & ?).
    exists c. split; [done|]. split; [lia|done].
  - right. destruct (is_alias self lookup_ontology label) eqn:Ha.
    + left. split; [done|]. split; [done|].
      by apply label_row_alias.
    + right. split; [done|]. split; [done|].
      by apply label_row_unknown.
Qed.

End label_matrix.

(** C4. Label-row construction.  With the label column present, the
    ontology groupings looked up present and the visible indices in range:
    when the encoder returns, the row of every visible observation is, for a
    label that is a class identifier, the one-hot row with its single 1 at
    that class's column, and otherwise, for a label that is an alias, the
    multi-hot row with a 1 at every matching leaf class, k entries equal to 1
    for k matching leaves (not 1/k); when some visible label is neither, the
    encoder fails with the unknown-label error; and when every visible label
    is one or the other, the encoder returns. *)
Theorem label_row_construction (self : EstimatorKerasCelltype) (idx : option (list nat))
    (lookup_ontology : list string) (labels : list string) :
  obs (data (base self)) !! "cell_ontology_class" = Some labels ->
  Forall (fun ont => is_Some (ontology self !! ont)) lookup_ontology ->
  Forall (fun x => x < length labels) (selected (data (base self)) idx) ->
  (forall weights y i x label,
     _get_celltype_out self idx lookup_ontology = Ok (weights, y) ->
     selected (data (base self)) idx !! i = Some x ->
     labels !! x = Some label ->
     exists row,
       y !! i = Some row
       /\ length row = type_classes self
       /\ (label ∈ ids self ->
           exists c, index (ids self) label = Some c
                     /\ row = one_hot (type_classes self) c
                     /\ row !! c = Some 1%Qc
                     /\ count_ones row = 1)
       /\ (label ∉ ids self ->
           is_alias self lookup_ontology label = true
           /\ count_ones row
              = length (filter (fun c => matching_leaf self lookup_ontology label c = true)
                               (ids self))
           /\ forall j c, ids self !! j = Some c ->
                row !! j = Some (if matching_leaf self lookup_ontology label c
                                 then 1%Qc else 0%Qc)))
  /\ (forall i x label,
        selected (data (base self)) idx !! i = Some x ->
        labels !! x = Some label ->
        label ∉ ids self ->
        is_alias self lookup_ontology label = false ->
        exists unknown,
          (unknown ∉ ids self)
          /\ is_alias self lookup_ontology unknown = false
          /\ _get_celltype_out self idx lookup_ontology
             = Raise (ValueError (unknown +:+
                        " not found in cell type universe and ontology sets")))
  /\ ((forall x label,
         x ∈ selected (data (base self)) idx ->
         labels !! x = Some label ->
         label ∈ ids self \/ is_alias self lookup_ontology label = true) ->
      exists weights y, _get_celltype_out self idx lookup_ontology = Ok (weights, y)).
Proof.
  intros Hlabels Hont Hidx.
  rewrite (get_celltype_out_rows self idx lookup_ontology).
  split; [|split].
  - intros weights y i x label (y' & Hy & [= _ ->])%bind_Ok Hi Hx.
    apply map_result_Ok in Hy.
    destruct (Forall2_lookup_l _ _ _ _ _ Hy Hi) as (row & Hrow & Henc).
    rewrite (encode_label self lookup_ontology labels Hlabels x label Hx) in Henc.
    exists row. split; [done|].
    destruct (label_row_cases self lookup_ontology Hont label)
      as [(Hin & c & Hc & Hlt & Hr)|[(Hnin & Ha & row' & Hr & Hlen & Hleaf & Hrest)
                                    |(Hnin & Ha & Hr)]];
      rewrite Hr in Henc; [| |done].
    + injection Henc as <-.
      destruct (count_ones_one_hot (type_classes self) c Hlt) as (Hcount & H1 & _).
      split; [unfold one_hot; by rewrite length_insert, length_replicate|].
      split; [|done]. intros _. exists c. done.
    + injection Henc as <-. split; [done|]. split; [done|].
      intros _. split; [done|]. split; [|done].
      by eapply count_ones_multi_hot.
  - intros i x label Hi Hx Hnin Ha.
    destruct (map_result _ (selected (data (base self)) idx)) as [y|e] eqn:Hy.
    + exfalso. apply map_result_Ok in Hy.
      destruct (Forall2_lookup_l _ _ _ _ _ Hy Hi) as (row & _ & Henc).
      rewrite (encode_label self lookup_ontology labels Hlabels x label Hx) in Henc.
      by rewrite (label_row_unknown self lookup_ontology label _ Hnin Hont Ha) in Henc.
    + apply map_result_Raise in Hy as (x' & Hx' & Henc).
      destruct (lookup_lt_is_Some_2 labels x') as [l Hl].
      { by eapply Forall_forall in Hidx. }
      rewrite (encode_label self lookup_ontology labels Hlabels x' l Hl) in Henc.
      destruct (label_row_cases self lookup_ontology Hont l)
        as [(Hin & c & Hc & Hlt & Hr)|[(Hnin' & Ha' & row' & Hr & _)
                                      |(Hnin' & Ha' & Hr)]];
        rewrite Hr in Henc; [done|done|].
      injection Henc as <-. exists l. done.
  - intros Hall.
    destruct (map_result_total
                (fun x =>
                   col ← of_option (KeyError "cell_ontology_class")
                           (obs (data (base self)) !! "cell_ontology_class");
                   label ← of_option (IndexError "index out of bounds") (col !! x);
                   label_row self (type_classes self) lookup_ontology label)
                (selected (data (base self)) idx)) as [y Hy].
    { apply Forall_forall. intros x Hx.
      destruct (lookup_lt_is_Some_2 labels x) as [l Hl].
      { by eapply Forall_forall in Hidx. }
      rewrite (encode_label self lookup_ontology labels Hlabels x l Hl).
      destruct (label_row_cases self lookup_ontology Hont l)
        as [(Hin & c & Hc & Hlt & Hr)|[(Hnin' & Ha' & row' & Hr & _)
                                      |(Hnin' & Ha' & Hr)]]; [by eexists..|].
      destruct (Hall x l Hx Hl) as [?|?]; [done|congruence]. }
    rewrite Hy. cbn [mbind result_bind Py.bind]. by eexists _, _.
Qed.

Lemma label_row_construction_witness :
  exists weights y,
    _get_celltype_out (Examples.classifier Examples.remap_estimator) None ["names"]
    = Ok (weights, y).
Proof.
  refine (proj2 (proj2 (label_row_construction
                          (Examples.classifier Examples.remap_estimator) None ["names"]
                          ["T cell"; "B cell"; "lymphocyte"] _ _ _)) _).
  - vm_compute. reflexivity.
  - repeat constructor. vm_compute. eauto.
  - repeat constructor.
  - intros x label Hx Hl. simpl in Hx.
    apply elem_of_cons in Hx as [->|Hx]; [injection Hl as <-; left; set_solver|].
    apply elem_of_cons in Hx as [->|Hx]; [injection Hl as <-; left; set_solver|].
    apply elem_of_cons in Hx as [->|Hx]; [injection Hl as <-; right; vm_compute; reflexivity|].
    by apply elem_of_nil in Hx.
Defined.

(** ** Class weights (C5) *)

Section float_arithmetic.

Implicit Types (l : list Qc) (a b : Qc).

Lemma float_sum_Fin l : Float.sum (Float.Fin <$> l) = Float.Fin (Qc_sum l).
Proof.
  induction l as [|a l IH]; [done|].
  rewrite fmap_cons. unfold Float.sum in *. simpl. by rewrite IH.
Qed.




Lemma Qc_sum_nonneg l : Forall (fun v => (0 <= v)%Qc) l -> (0 <= Qc_sum l)%Qc.
Proof.
  induction 1 as [|a l Ha Hl IH]; [done|].
  simpl. by apply Qcplus_nonneg_nonneg.
Qed.





Lemma binary_nonneg a : binary a -> (0 <= a)%Qc.
Proof. intros [->| ->]; done. Qed.


End float_arithmetic.

Section class_weights.

Variable width : nat.
Variable cap : Qc.
Variable y : list (list Qc).

Hypothesis Hlen : Forall (fun row => length row = width) y.
Hypothesis Hbin : Forall (Forall binary) y.
Hypothesis Hsum : Forall (fun row => Qc_sum row <> 0%Qc) y.








End class_weights.

Lemma for_each_invariant {A S : Type} (P : S -> Prop) (body : S -> A -> result S)
    (l : list A) (s s' : S) :
  (forall s a s', body s a = Ok s' -> P s -> P s') ->
  for_each body l s = Ok s' -> P s -> P s'.
Proof.
  intros Hbody. revert s. induction l as [|a l IH]; intros s; simpl.
  - by intros [= ->].
  - destruct (body s a) as [s1|e] eqn:Hs1; simpl; [|done].
    intros Hrest Hs. eapply IH; [done|]. by eapply Hbody.
Qed.

Lemma setitem_one_shape (width : nat) (row row' : list Qc) (i : nat) :
  setitem row i 1%Qc = Ok row' ->
  length row = width /\ Forall binary row ->
  length row' = width /\ Forall binary row'.
Proof.
  unfold setitem. case_decide; [|done]. intros [= <-] [Hlen Hbin].
  split; [by rewrite length_insert|].
  apply Forall_insert; [done|by right].
Qed.

(** Whatever the label, a row the encoder returns has the width of the
    label matrix and holds zeros and ones only. *)
Lemma label_row_shape (self : EstimatorKerasCelltype) (width : nat)
    (lookup_ontology : list string) (label : string) (row : list Qc) :
  label_row self width lookup_ontology label = Ok row ->
  length row = width /\ Forall binary row.
Proof.
  assert (length (replicate width 0%Qc) = width
          /\ Forall binary (replicate width 0%Qc)) as Hzero.
  { split; [apply length_replicate|]. apply Forall_replicate. by left. }
  unfold label_row. case_bool_decide.
  - intros (found & _ & Hloop)%bind_Ok.
    destruct (negb (existsb id found)); [done|].
    eapply (for_each_invariant
              (fun r : list Qc => length r = width /\ Forall binary r));
      [|exact Hloop|exact Hzero].
    intros r ont r' (o & _ & Hset)%bind_Ok Hr.
    destruct (o !! label) as [leave_nodes|]; [|by injection Hset as <-].
    eapply (for_each_invariant
              (fun r : list Qc => length r = width /\ Forall binary r));
      [|exact Hset|exact Hr].
    intros r1 i r2. apply setitem_one_shape.
  - intros (i & _ & Hset)%bind_Ok. by eapply setitem_one_shape.
Qed.



(** * Further properties of the estimator code *)

(** ** Feature remapping, row by row *)

Lemma Forall2_functional {A B : Type} (R : A -> B -> Prop) (l : list A) (k1 k2 : list B) :
  (forall a b1 b2, R a b1 -> R a b2 -> b1 = b2) ->
  Forall2 R l k1 -> Forall2 R l k2 -> k1 = k2.
Proof.
  intros HR H1. revert k2. induction H1 as [|a b l k1 Hab H1 IH]; intros k2 H2.
  - by apply Forall2_nil_inv_l in H2.
  - apply Forall2_cons_inv_l in H2 as (b' & k2' & Hab' & H2 & ->).
    f_equal; [by eapply HR|by apply IH].
Qed.

Lemma take_idx_seq {A : Type} (l : list A) : take_idx l (seq 0 (length l)) = Some l.
Proof.
  apply mapM_Some_2. apply Forall2_same_length_lookup_2.
  - by rewrite length_seq.
  - intros i j a Hj Ha. apply lookup_seq in Hj as [-> _]. done.
Qed.

(** The result of [_prepare_data_matrix] on an input that is not declared
    as mapped: every selected row remapped on its own. *)
Lemma prepare_data_matrix_step_remap_rows (self : EstimatorKeras)
    (idx : option (list nat)) :
  in_memory_input self idx -> not_mapped self ->
  exists xr,
    Forall2 (fun i row => rows (X (data self)) !! i = Some row)
            (selected (data self) idx) xr
    /\ forall step,
         0 < step ->
         _prepare_data_matrix_step step self idx
         = Ok (Matrix (ngenes (topology_container self)) (remap_row step self <$> xr)).
Proof.
  intros Hin Hnm.
  destruct (prepare_data_matrix_step_rows self idx Hin Hnm)
    as (xr & fmap & xk & HFr & HFm & HFk & Heq).
  exists xr. split; [done|]. intros step Hstep. rewrite (Heq step Hstep).
  f_equal. f_equal.
  assert (feature_map self = fmap) as Hfm.
  { unfold feature_map. by rewrite (mapM_Some_2 _ _ _ HFm). }
  apply list_eq. intros r. rewrite lookup_zip_with, list_lookup_fmap.
  destruct (xr !! r) as [row|] eqn:Hrow.
  - destruct (Forall2_lookup_l _ _ _ _ _ HFk Hrow) as (krow & Hkrow & Hcols).
    rewrite Hkrow. simpl. rewrite lookup_replicate_2 by (by eapply lookup_lt_Some).
    simpl. f_equal. unfold remap_row. rewrite Hfm.
    unfold take_idx. by rewrite (mapM_Some_2 _ _ _ Hcols).
  - assert (xk !! r = None) as ->; [|done].
    apply lookup_ge_None. rewrite <- (Forall2_length _ _ _ HFk).
    by apply lookup_ge_None.
Qed.

Lemma feature_map_Forall2 (self : EstimatorKeras) :
  Forall2 (fun g t => index (ensembl (topology_container self)) g = Some t)
          (filter (fun g => g ∈ ensembl (topology_container self))
                  (var_ensembl (data self)))
          (feature_map self).
Proof.
  destruct (feature_map_Some self) as (fmap & Hfmap & HFm).
  unfold feature_map. by rewrite Hfmap.
Qed.

Lemma kept_entries_Forall2 (self : EstimatorKeras) (row : list Z) :
  length row = length (var_ensembl (data self)) ->
  Forall2 (fun i v => row !! i = Some v) (kept_features self)
          (default [] (take_idx row (kept_features self))).
Proof.
  intros Hlen. destruct (take_idx_Some row (kept_features self)) as (k & -> & HF);
    [|done].
  apply Forall_forall. intros i Hi. rewrite Hlen. by apply kept_features_lt.
Qed.

Lemma length_remap_row (step : nat) (self : EstimatorKeras) (row : list Z) :
  length (remap_row step self row) = ngenes (topology_container self).
Proof. unfold remap_row. by rewrite length_copy_row, length_replicate. Qed.

(** The entry of a remapped row at the reference position of an identifier
    that labels exactly one input column is the entry of that column. *)
Lemma remap_row_lookup (step : nat) (self : EstimatorKeras) (row : list Z) g i j :
  0 < step ->
  length row = length (var_ensembl (data self)) ->
  index (ensembl (topology_container self)) g = Some j ->
  var_ensembl (data self) !! i = Some g ->
  (forall i', var_ensembl (data self) !! i' = Some g -> i' = i) ->
  remap_row step self row !! j = row !! i.
Proof.
  intros Hstep Hlen Hj Hi Huniq.
  destruct (feature_map_unique self (feature_map self) g i j
              (feature_map_Forall2 self) Hj Hi Huniq) as (k & Hk & Hfk & Hku).
  destruct (Forall2_lookup_l _ _ _ _ _ (kept_entries_Forall2 self row Hlen) Hk)
    as (v & Hv & Hrow).
  rewrite Hrow. unfold remap_row.
  eapply copy_row_unique; [done|exact Hfk|exact Hku|exact Hv|].
  rewrite length_replicate. by eapply index_lt.
Qed.

(** X1. Remapping onto the input's own feature list changes nothing: when
    the identifier list of an in-memory input is the reference list itself,
    without repetition, [_prepare_data_matrix] returns the selected rows of
    the input matrix as they are, also without the [mapped_features]
    mark. *)
Theorem remap_onto_own_features (self : EstimatorKeras) (idx : option (list nat)) :
  in_memory_input self idx -> not_mapped self ->
  NoDup (ensembl (topology_container self)) ->
  var_ensembl (data self) = ensembl (topology_container self) ->
  _prepare_data_matrix self idx
  = getitem_rows (X (data self)) (selected (data self) idx).
Proof.
  intros Hin Hnm Hnd Hids.
  destruct (prepare_data_matrix_step_remap_rows self idx Hin Hnm) as (xr & HFr & Heq).
  unfold _prepare_data_matrix. rewrite Heq by lia.
  rewrite (getitem_rows_selected self idx xr HFr).
  destruct Hin as [_ _ Hws Hw _].
  assert (ngenes (topology_container self) = ncols (X (data self))) as HN.
  { unfold ngenes. by rewrite Hw, Hids. }
  rewrite HN. f_equal. f_equal.
  apply list_eq. intros r. rewrite list_lookup_fmap.
  destruct (xr !! r) as [row|] eqn:Hrow; [|done]. simpl. f_equal.
  assert (length row = length (var_ensembl (data self))) as Hlen.
  { destruct (Forall2_lookup_r _ _ _ _ _ HFr Hrow) as (i & _ & Hi).
    eapply Forall_lookup_1 in Hws; [|exact Hi]. by rewrite Hws. }
  apply list_eq. intros j.
  destruct (var_ensembl (data self) !! j) as [g|] eqn:Hg.
  - apply (remap_row_lookup 2000 self row g j j); [lia|done| |done|].
    + apply index_NoDup; [done|]. by rewrite <- Hids.
    + intros i' Hi'. rewrite <- Hids in Hnd. by eapply NoDup_lookup.
  - apply lookup_ge_None in Hg.
    rewrite (proj2 (lookup_ge_None _ j)) by (rewrite length_remap_row, HN, Hw; lia).
    symmetry. apply lookup_ge_None. lia.
Qed.

Lemma remap_onto_own_features_witness :
  _prepare_data_matrix
    (Examples.estimator Examples.three_cells (var_ensembl Examples.three_cells))
    (Some [2; 0])
  = getitem_rows (X Examples.three_cells) [2; 0].
Proof.
  apply (remap_onto_own_features
           (Examples.estimator Examples.three_cells (var_ensembl Examples.three_cells))
           (Some [2; 0])).
  - split; [reflexivity|discriminate|repeat constructor|reflexivity|].
    repeat constructor; simpl; lia.
  - apply example_not_mapped.
  - apply (bool_decide_unpack _). vm_compute. exact I.
  - reflexivity.
Defined.

(** An input marked as mapped to the genome of the estimator is row-sliced
    and returned: identifiers and reference are not consulted. *)
Lemma prepare_data_matrix_step_mapped (step : nat) (self : EstimatorKeras)
    (idx : option (list nat)) :
  filename (data self) = None ->
  X_kind (data self) <> OtherX ->
  uns (data self) !! "mapped_features" = Some (genome (topology_container self)) ->
  _prepare_data_matrix_step step self idx
  = getitem_rows (X (data self)) (selected (data self) idx).
Proof.
  intros Hnb Hrec Hmapped. unfold _prepare_data_matrix_step. rewrite Hnb.
  assert (match X_kind (data self) with
          | NdArray | SpMatrix => Ok (X (data self))
          | OtherX => Raise (ValueError "data type not recognized")
          end = Ok (X (data self))) as ->.
  { by destruct (X_kind (data self)). }
  cbn [mbind result_bind Py.bind]. fold (selected (data self) idx).
  destruct (getitem_rows (X (data self)) (selected (data self) idx)) as [x|e]; [|done].
  cbn [mbind result_bind Py.bind]. by rewrite bool_decide_true.
Qed.

Lemma getitem_rows_all (x : matrix) : getitem_rows x (seq 0 (nrows x)) = Ok x.
Proof.
  unfold getitem_rows, nrows. rewrite take_idx_seq. by destruct x.
Qed.

Lemma in_memory_input_all (self : EstimatorKeras) (idx : option (list nat)) :
  in_memory_input self idx -> in_memory_input self None.
Proof.
  intros [Hnb Hrec Hws Hw _]. split; [done..|].
  apply Forall_forall. intros i Hi. simpl in Hi.
  apply elem_of_seq in Hi. lia.
Qed.

(** X2. Preparing a selection of observations is selecting from the
    prepared matrix of all observations: for an in-memory input and index
    array [idx], [_prepare_data_matrix(idx)] is [Y[idx, :]] for the matrix
    [Y] that [_prepare_data_matrix(None)] returns.  Rows are remapped one by
    one, in the order of [idx], repeated indices included. *)
Theorem prepare_commutes_with_selection (self : EstimatorKeras) (idx : list nat) :
  in_memory_input self (Some idx) ->
  exists Y, _prepare_data_matrix self None = Ok Y
            /\ _prepare_data_matrix self (Some idx) = getitem_rows Y idx.
Proof.
  intros Hin. pose proof (in_memory_input_all self _ Hin) as Hall.
  destruct (decide (uns (data self) !! "mapped_features"
                    = Some (genome (topology_container self)))) as [Hm|Hnm].
  - destruct Hin as [Hnb Hrec _ _ _]. unfold _prepare_data_matrix.
    rewrite !prepare_data_matrix_step_mapped by done.
    exists (X (data self)). split; [|done].
    apply getitem_rows_all.
  - destruct (prepare_data_matrix_step_remap_rows self None Hall Hnm)
      as (xr0 & HFr0 & Heq0).
    destruct (prepare_data_matrix_step_remap_rows self (Some idx) Hin Hnm)
      as (xr & HFr & Heq).
    unfold _prepare_data_matrix. rewrite Heq0, Heq by lia.
    eexists. split; [done|].
    assert (xr0 = rows (X (data self))) as ->.
    { eapply Forall2_functional; [|exact HFr0|].
      - intros; congruence.
      - apply (mapM_Some_1 (fun i => rows (X (data self)) !! i)).
        apply (take_idx_seq (rows (X (data self)))). }
    unfold getitem_rows, take_idx; cbn [rows ncols].
    rewrite (mapM_Some_2 _ _ (remap_row 2000 self <$> xr)); [done|].
    apply Forall2_fmap_r. eapply Forall2_impl; [exact HFr|].
    intros i row Hi. simpl. by rewrite list_lookup_fmap, Hi.
Qed.

Lemma prepare_commutes_with_selection_witness :
  exists Y, _prepare_data_matrix Examples.remap_estimator None = Ok Y
            /\ _prepare_data_matrix Examples.remap_estimator (Some [2; 2; 0])
               = getitem_rows Y [2; 2; 0].
Proof.
  apply (prepare_commutes_with_selection Examples.remap_estimator [2; 2; 0]).
  split; [reflexivity|discriminate|repeat constructor|reflexivity|].
  repeat constructor; simpl; lia.
Defined.

Lemma take_idx_None {A : Type} (l : list A) (idx : list nat) :
  ~ Forall (fun i => i < length l) idx -> take_idx l idx = None.
Proof.
  intros Hidx. apply eq_None_not_Some. intros Hsome. apply Hidx.
  apply mapM_is_Some in Hsome. eapply Forall_impl; [exact Hsome|].
  intros i Hi. simpl in Hi. by apply lookup_lt_is_Some_1.
Qed.

(** On an in-memory input the call returns. *)
Lemma prepare_data_matrix_Ok (self : EstimatorKeras) (idx : option (list nat)) :
  in_memory_input self idx -> exists Y, _prepare_data_matrix self idx = Ok Y.
Proof.
  intros Hin.
  destruct (decide (uns (data self) !! "mapped_features"
                    = Some (genome (topology_container self)))) as [Hm|Hnm].
  - destruct Hin as [Hnb Hrec _ _ Hidx]. unfold _prepare_data_matrix.
    rewrite prepare_data_matrix_step_mapped by done.
    destruct (getitem_rows_Ok (X (data self)) (selected (data self) idx) Hidx)
      as (xr & -> & _). by eexists.
  - destruct (prepare_data_matrix_step_remap_rows self idx Hin Hnm)
      as (xr & _ & Heq).
    unfold _prepare_data_matrix. rewrite Heq by lia. by eexists.
Qed.



(** ** Reading a backed source at sorted indices *)

Lemma insert_by_last {A : Type} (key : A -> nat) (a : A) (l : list A) :
  Forall (fun b => key b <= key a) l -> Np.insert_by key a l = l ++ [a].
Proof.
  induction 1 as [|b l Hb _ IH]; [done|].
  simpl. rewrite decide_True by done. by rewrite IH.
Qed.

Lemma sort_by_sorted_from {A : Type} (key : A -> nat) (l acc : list A) :
  StronglySorted (fun x y => key x <= key y) (acc ++ l) ->
  foldl (fun acc a => Np.insert_by key a acc) acc l = acc ++ l.
Proof.
  revert acc. induction l as [|a l IH]; intros acc Hs.
  - by rewrite app_nil_r.
  - simpl. rewrite insert_by_last.
    + rewrite IH; rewrite <- app_assoc; done.
    + apply Forall_forall. intros b Hb.
      apply (StronglySorted_app_1_elem_of (fun x y => key x <= key y) acc (a :: l));
        [exact Hs|done|left].
Qed.

(** A stable sort leaves a sorted array as it is. *)
Lemma sort_by_sorted {A : Type} (key : A -> nat) (l : list A) :
  StronglySorted (fun x y => key x <= key y) l -> Np.sort_by key l = l.
Proof. intros Hs. unfold Np.sort_by. by rewrite sort_by_sorted_from. Qed.

Lemma sort_sorted (idx : list nat) : StronglySorted le idx -> Np.sort idx = idx.
Proof. apply (sort_by_sorted id). Qed.

Lemma zip_sorted (idx k : list nat) :
  StronglySorted le idx ->
  StronglySorted (fun x y : nat * nat => x.1 <= y.1) (zip idx k).
Proof.
  intros Hs. revert k. induction Hs as [|a idx Hs IH Ha]; intros k; [constructor|].
  destruct k as [|b k]; [constructor|]. simpl. constructor; [apply IH|].
  apply Forall_forall. intros [a' b'] Hin. apply elem_of_zip_l in Hin. simpl in *.
  by eapply Forall_forall in Ha.
Qed.

Lemma argsort_sorted (idx : list nat) :
  StronglySorted le idx -> Np.argsort idx = seq 0 (length idx).
Proof.
  intros Hs. unfold Np.argsort. rewrite sort_by_sorted by by apply zip_sorted.
  apply snd_zip. by rewrite length_seq.
Qed.

Lemma read_backed_rows_sorted (d : AnnData) (idx : list nat) :
  StronglySorted le idx -> read_backed_rows d idx = getitem_rows (X d) idx.
Proof.
  intros Hs. unfold read_backed_rows. rewrite sort_sorted, argsort_sorted by done.
  destruct (getitem_rows (X d) idx) as [x|e] eqn:Hx; [|done].
  cbn [mbind result_bind Py.bind].
  unfold getitem_rows in Hx.
  destruct (take_idx (rows (X d)) idx) as [r|] eqn:Hr; [|done].
  injection Hx as <-.
  assert (length idx = length r) as ->.
  { apply (Forall2_length (fun i a => rows (X d) !! i = Some a)).
    by apply mapM_Some_1. }
  apply (getitem_rows_all (Matrix (ncols (X d)) r)).
Qed.



(** ** The two training paths of the embedding estimator *)

Lemma embedding_generator_memory_rows (with_sf : bool) (c : nat) (xr : list (list Z)) :
  embedding_generator_memory with_sf (Matrix c xr) (_prepare_sf (Matrix c xr))
  = Ok (embedding_row_elem with_sf <$> xr).
Proof.
  unfold embedding_generator_memory. apply map_result_Ok.
  unfold nrows, _prepare_sf; cbn [rows].
  apply Forall2_same_length_lookup_2.
  - by rewrite length_seq, length_fmap.
  - intros i i' el Hi Hel. apply lookup_seq in Hi as [-> _]. simpl.
    rewrite list_lookup_fmap in Hel.
    destruct (xr !! i) as [row|] eqn:Hrow; [|done]. injection Hel as <-.
    unfold row_at. rewrite Hrow, list_lookup_fmap, Hrow. done.
Qed.




(** ** The label matrix and the weights of the classifier *)

Lemma setitem_one_beyond (n : nat) (row row' : list Qc) (i : nat) :
  i < n ->
  setitem row i 1%Qc = Ok row' ->
  (forall j, n <= j -> row !! j <> Some 1%Qc) ->
  forall j, n <= j -> row' !! j <> Some 1%Qc.
Proof.
  unfold setitem. intros Hi Hset Hrow j Hj. case_decide; [|done].
  injection Hset as <-. rewrite list_lookup_insert_ne by lia. by apply Hrow.
Qed.

(** The encoder writes at positions of class identifiers only. *)
Lemma label_row_beyond (self : EstimatorKerasCelltype) (width : nat)
    (lookup_ontology : list string) (label : string) (row : list Qc) :
  label_row self width lookup_ontology label = Ok row ->
  forall j, length (ids self) <= j -> row !! j <> Some 1%Qc.
Proof.
  assert (forall j, length (ids self) <= j
                    -> replicate width 0%Qc !! j <> Some 1%Qc) as Hzero.
  { intros j _ [H _]%lookup_replicate. discriminate H. }
  unfold label_row. case_bool_decide.
  - intros (found & _ & Hloop)%bind_Ok.
    destruct (negb (existsb id found)); [done|].
    eapply (for_each_invariant
              (fun r : list Qc => forall j, length (ids self) <= j
                                            -> r !! j <> Some 1%Qc));
      [|exact Hloop|exact Hzero].
    intros r ont r' (o & _ & Hset)%bind_Ok Hr.
    destruct (o !! label) as [leave_nodes|]; [|by injection Hset as <-].
    revert Hset. unfold setitem_many.
    set (ps := where_ _ (ids self)).
    assert (Forall (fun p => p < length (ids self)) ps) as Hps.
    { apply Forall_forall. intros p (g & Hg & _)%elem_of_where_.
      by eapply lookup_lt_Some. }
    clearbody ps. revert r Hr. induction ps as [|p ps IH]; intros r Hr; simpl.
    + by intros [= <-].
    + apply Forall_cons in Hps as [Hp Hps].
      intros (r1 & Hr1 & Hrest)%bind_Ok.
      eapply (IH Hps r1); [|exact Hrest].
      by eapply setitem_one_beyond.
  - intros (i & Hi & Hset)%bind_Ok.
    eapply setitem_one_beyond; [|exact Hset|exact Hzero].
    destruct (index (ids self) label) as [i'|] eqn:Hidx; [|done].
    injection Hi as ->. by eapply index_lt.
Qed.

(** The rows of a returned label matrix have the width [type_classes] and
    hold zeros and ones only. *)
Lemma label_matrix_shape_rows (self : EstimatorKerasCelltype) (idx : option (list nat))
    (lookup_ontology : list string) (weights : list Float.t) (y : list (list Qc)) :
  _get_celltype_out self idx lookup_ontology = Ok (weights, y) ->
  Forall (fun row => length row = type_classes self) y
  /\ Forall (Forall binary) y.
Proof.
  unfold _get_celltype_out.
  intros (y' & Hy & [= <- ->])%bind_Ok.
  apply map_result_Ok in Hy.
  assert (Forall (fun row => length row = type_classes self /\ Forall binary row) y)
    as Hshape.
  { apply Forall_forall. intros row (i & Hi)%list_elem_of_lookup.
    destruct (Forall2_lookup_r _ _ _ _ _ Hy Hi) as (x & _ & Henc).
    apply bind_Ok in Henc as (col & _ & Henc).
    apply bind_Ok in Henc as (label & _ & Henc).
    by eapply label_row_shape. }
  split; (eapply Forall_impl; [exact Hshape|]); by intros row [? ?].
Qed.

Lemma label_matrix_lengths (self : EstimatorKerasCelltype) (idx : option (list nat))
    (lookup_ontology : list string) (weights : list Float.t) (y : list (list Qc)) :
  _get_celltype_out self idx lookup_ontology = Ok (weights, y) ->
  length y = length (selected (data (base self)) idx)
  /\ length weights = length y.
Proof.
  unfold _get_celltype_out.
  intros (y' & Hy & [= <- ->])%bind_Ok.
  apply map_result_Ok in Hy. split.
  - symmetry. apply (Forall2_length _ _ _ Hy).
  - unfold class_weights, Np.matmul_T. cbv zeta. by rewrite !length_fmap.
Qed.

(** X6. Shape of the label matrix.  Whenever [_get_celltype_out] returns,
    the label matrix has one row per selected observation, every row has
    the width [type_classes] and holds zeros and ones only, and every entry
    at a position that is not the position of a class identifier is zero:
    the column added when no identifier is [unknown] is never set. *)
Theorem label_matrix_shape (self : EstimatorKerasCelltype) (idx : option (list nat))
    (lookup_ontology : list string) (weights : list Float.t) (y : list (list Qc)) :
  _get_celltype_out self idx lookup_ontology = Ok (weights, y) ->
  length y = length (selected (data (base self)) idx)
  /\ length weights = length y
  /\ Forall (fun row =>
               length row = type_classes self
               /\ Forall binary row
               /\ forall j, length (ids self) <= j -> j < type_classes self ->
                            row !! j = Some 0%Qc) y.
Proof.
  unfold _get_celltype_out.
  intros (y' & Hy & [= <- ->])%bind_Ok.
  apply map_result_Ok in Hy. split; [|split].
  - symmetry. apply (Forall2_length _ _ _ Hy).
  - unfold class_weights, Np.matmul_T. cbv zeta. by rewrite !length_fmap.
  - apply Forall_forall. intros row (i & Hi)%list_elem_of_lookup.
    destruct (Forall2_lookup_r _ _ _ _ _ Hy Hi) as (x & _ & Henc).
    apply bind_Ok in Henc as (col & _ & Henc).
    apply bind_Ok in Henc as (label & _ & Henc).
    destruct (label_row_shape _ _ _ _ _ Henc) as [Hlen Hbin].
    split; [done|]. split; [done|]. intros j Hj Hlt.
    destruct (row !! j) as [v|] eqn:Hv.
    + pose proof (Forall_lookup_1 _ _ _ _ Hbin Hv) as [->| ->]; [done|].
      by apply (label_row_beyond _ _ _ _ _ Henc) in Hv.
    + apply lookup_ge_None in Hv. lia.
Qed.

Lemma label_matrix_shape_witness :
  exists weights y,
    _get_celltype_out (Examples.classifier Examples.remap_estimator) None ["names"]
    = Ok (weights, y)
    /\ Forall (fun row => row !! 3 = Some 0%Qc) y.
Proof.
  eexists _, _. split; [vm_compute; reflexivity|].
  eapply Forall_impl.
  - refine (proj2 (proj2 (label_matrix_shape
                            (Examples.classifier Examples.remap_estimator)
                            None ["names"] _ _ _))).
    vm_compute. reflexivity.
  - intros row (_ & _ & Hrow). apply Hrow; vm_compute; lia.
Defined.

Lemma float_sum_NaN (l : list Float.t) : Float.NaN ∈ l -> Float.sum l = Float.NaN.
Proof.
  unfold Float.sum. induction l as [|a l IH]; [by intros ?%elem_of_nil|].
  intros [<-|Hin]%elem_of_cons; simpl; [done|].
  rewrite IH by done. by destruct a.
Qed.

Lemma binary_row_zero (row : list Qc) :
  Forall binary row -> Qc_sum row = 0%Qc -> Forall (fun v => v = 0%Qc) row.
Proof.
  induction 1 as [|a l Ha Hl IH]; intros Hs; [constructor|].
  assert (0 <= Qc_sum l)%Qc as Hnn.
  { apply Qc_sum_nonneg. eapply Forall_impl; [exact Hl|]. apply binary_nonneg. }
  simpl in Hs. destruct Ha as [->| ->].
  - rewrite Qcplus_0_l in Hs. constructor; [done|by apply IH].
  - exfalso. assert (0 < 1 + Qc_sum l)%Qc as Hpos.
    { by apply Qcplus_pos_nonneg. }
    rewrite Hs in Hpos. by apply Qclt_not_eq in Hpos.
Qed.

(** One all-zero label row makes the whole frequency vector NaN, and with
    it every weight. *)
Lemma class_weights_zero_row (width : nat) (cap : Qc) (y : list (list Qc))
    (zero : list Qc) :
  0 < width ->
  Forall (fun row => length row = width) y ->
  Forall (Forall binary) y ->
  zero ∈ y -> Qc_sum zero = 0%Qc ->
  class_weights width cap y = replicate (length y) Float.NaN.
Proof.
  intros Hw Hlen Hbin Hin Hzero. unfold class_weights. cbv zeta.
  set (yf := (fun row : list Qc => Float.Fin <$> row) <$> y).
  assert (Np.mean_axis0 width (Np.div_rows yf (Np.sum_axis1 yf))
          = replicate width Float.NaN) as ->.
  { unfold Np.mean_axis0.
    apply list_eq_same_length with width;
      [by rewrite length_replicate|by rewrite length_fmap, length_seq|].
    intros k a b Hk Ha Hb. apply lookup_replicate in Hb as [-> _].
    rewrite list_lookup_fmap in Ha.
    rewrite (proj2 (lookup_seq 0 width k k)) in Ha by done.
    injection Ha as <-. rewrite float_sum_NaN; [done|].
    apply list_elem_of_fmap.
    exists ((fun v => Float.div v (Float.Fin 0)) <$> (Float.Fin <$> zero)).
    split.
    - symmetry. apply list_lookup_total_correct.
      rewrite !list_lookup_fmap.
      assert (zero !! k = Some 0%Qc) as ->.
      { eapply Forall_forall in Hlen; [|exact Hin].
        destruct (lookup_lt_is_Some_2 zero k) as [v Hv]; [lia|].
        rewrite Hv. f_equal.
        eapply Forall_forall in Hbin; [|exact Hin].
        eapply Forall_lookup_1 in Hv; [|exact (binary_row_zero zero Hbin Hzero)].
        done. }
      done.
    - unfold Np.div_rows, Np.sum_axis1, yf.
      rewrite zip_with_fmap_l, !zip_with_fmap_r, zip_with_diag.
      apply list_elem_of_fmap. exists zero. split; [|done].
      simpl. by rewrite float_sum_Fin, Hzero. }
  unfold Np.matmul_T, yf. rewrite <- !list_fmap_compose.
  apply list_eq_same_length with (length y);
    [by rewrite length_replicate|by rewrite length_fmap|].
  intros i a b Hi Ha Hb. apply lookup_replicate in Hb as [-> _].
  rewrite list_lookup_fmap in Ha.
  destruct (y !! i) as [row|] eqn:Hrow; [|done]. injection Ha as <-. simpl.
  assert (length row = width) as Hl.
  { eapply Forall_lookup_1 in Hlen; [|exact Hrow]. done. }
  assert (Float.dot (Float.Fin <$> row) (replicate width Float.NaN) = Float.NaN) as ->;
    [|done].
  unfold Float.dot. apply float_sum_NaN.
  destruct row as [|v row]; [simpl in Hl; lia|].
  destruct width as [|w]; [lia|]. simpl. left.
Qed.

(** X7. One label without a matching class spoils every weight.  When the
    label matrix returned by [_get_celltype_out] has an all-zero row (an
    alias none of whose classes is a class identifier), the weight of every
    observation is NaN, not only the weight of that observation. *)
Theorem zero_label_row_gives_nan_weights (self : EstimatorKerasCelltype)
    (idx : option (list nat)) (lookup_ontology : list string)
    (weights : list Float.t) (y : list (list Qc)) (zero : list Qc) :
  _get_celltype_out self idx lookup_ontology = Ok (weights, y) ->
  zero ∈ y -> Qc_sum zero = 0%Qc ->
  weights = replicate (length y) Float.NaN.
Proof.
  intros Hout Hin Hzero.
  destruct (label_matrix_shape_rows self idx lookup_ontology weights y Hout)
    as [Hlen Hbin].
  unfold _get_celltype_out in Hout.
  apply bind_Ok in Hout as (y' & Hy & [= <- ->]).
  eapply class_weights_zero_row; [|done|done|exact Hin|exact Hzero].
  assert (length zero = type_classes self) as Hl.
  { by eapply Forall_forall in Hlen. }
  pose proof (type_classes_ge self).
  unfold type_classes, ntypes in *. destruct (existsb _ _) eqn:Hex; [|lia].
  apply existsb_exists in Hex as (x & Hx & _).
  destruct (ids self); [by apply in_nil in Hx|simpl; lia].
Qed.

Lemma zero_label_row_gives_nan_weights_witness :
  let self :=
    {| base := Examples.estimator
                 (Examples.adata ["a"] [[1]; [2]]%Z ["T cell"; "stromal cell"] None) ["a"];
       ids := ["B cell"; "T cell"];
       ontology := {[ "names" := {[ "stromal cell" := ["fibroblast"] ]} ]};
       max_class_weight := Qc_of_Z 1000 |} in
  exists weights y,
    _get_celltype_out self None ["names"] = Ok (weights, y)
    /\ length y = 2 /\ weights = replicate (length y) Float.NaN.
Proof.
  intros self. eexists _, _. split; [vm_compute; reflexivity|].
  split; [reflexivity|].
  apply (zero_label_row_gives_nan_weights self None ["names"] _ _ [0; 0; 0]%Qc).
  - vm_compute. reflexivity.
  - apply list_elem_of_lookup. exists 1. reflexivity.
  - apply Qc_is_canon. reflexivity.
Defined.

(** ** Bounds of the class weights *)








Section weight_bounds.

Variable width : nat.
Variable cap : Qc.
Variable y : list (list Qc).

Hypothesis Hlen : Forall (fun row => length row = width) y.
Hypothesis Hbin : Forall (Forall binary) y.
Hypothesis Hsum : Forall (fun row => Qc_sum row <> 0%Qc) y.




End weight_bounds.



(** ** The arrays of the [eval] branch of the classifier *)

Lemma getitem_rows_nrows (m x : matrix) (l : list nat) :
  getitem_rows m l = Ok x -> nrows x = length l /\ ncols x = ncols m.
Proof.
  unfold getitem_rows. intros (r & Hr & [= <-])%bind_Ok.
  destruct (take_idx (rows m) l) as [r'|] eqn:Ht; [|done]. injection Hr as ->.
  split; [|done]. unfold nrows; cbn [rows]. symmetry.
  apply (Forall2_length (fun i a => rows m !! i = Some a)). by apply mapM_Some_1.
Qed.

Lemma length_insert_by {A : Type} (key : A -> nat) (a : A) (l : list A) :
  length (Np.insert_by key a l) = S (length l).
Proof.
  induction l as [|b l IH]; [done|]. simpl. case_decide; simpl; by rewrite ?IH.
Qed.

Lemma length_sort_by {A : Type} (key : A -> nat) (l : list A) :
  length (Np.sort_by key l) = length l.
Proof.
  unfold Np.sort_by.
  assert (forall acc, length (foldl (fun acc a => Np.insert_by key a acc) acc l)
                      = length acc + length l) as H.
  { induction l as [|a l IH]; intros acc; simpl; [lia|].
    rewrite IH, length_insert_by. lia. }
  by rewrite H.
Qed.

Lemma read_backed_rows_nrows (d : AnnData) (idx : list nat) (x : matrix) :
  read_backed_rows d idx = Ok x -> nrows x = length idx.
Proof.
  unfold read_backed_rows. intros (x0 & _ & Hx)%bind_Ok.
  apply getitem_rows_nrows in Hx as [-> _].
  unfold Np.argsort. rewrite length_fmap, length_sort_by, length_zip, length_seq. lia.
Qed.

(** The prepared matrix has one row per selected observation. *)
Lemma prepare_data_matrix_nrows (self : EstimatorKeras) (idx : option (list nat))
    (Y : matrix) :
  well_shaped (X (data self)) ->
  ncols (X (data self)) = length (var_ensembl (data self)) ->
  _prepare_data_matrix self idx = Ok Y ->
  nrows Y = length (selected (data self) idx).
Proof.
  intros Hws Hw HY.
  destruct (filename (data self)) as [f|] eqn:Hf.
  { unfold _prepare_data_matrix, _prepare_data_matrix_step in HY. by rewrite Hf in HY. }
  assert (X_kind (data self) <> OtherX) as Hk.
  { intros Hk. unfold _prepare_data_matrix, _prepare_data_matrix_step in HY.
    by rewrite Hf, Hk in HY. }
  destruct (decide (Forall (fun i => i < n_obs (data self)) (selected (data self) idx)))
    as [Hidx|Hidx].
  - assert (in_memory_input self idx) as Hin by (by split).
    destruct (decide (uns (data self) !! "mapped_features"
                      = Some (genome (topology_container self)))) as [Hm|Hnm].
    + unfold _prepare_data_matrix in HY.
      rewrite prepare_data_matrix_step_mapped in HY by done.
      by apply getitem_rows_nrows in HY as [? _].
    + destruct (prepare_data_matrix_step_remap_rows self idx Hin Hnm)
        as (xr & HFr & Heq).
      unfold _prepare_data_matrix in HY. rewrite Heq in HY by lia.
      injection HY as <-. unfold nrows; cbn [rows]. rewrite length_fmap.
      symmetry. apply (Forall2_length _ _ _ HFr).
  - exfalso. unfold _prepare_data_matrix, _prepare_data_matrix_step in HY.
    rewrite Hf in HY.
    assert (match X_kind (data self) with
            | NdArray | SpMatrix => Ok (X (data self))
            | OtherX => Raise (ValueError "data type not recognized")
            end = Ok (X (data self))) as Hx.
    { by destruct (X_kind (data self)). }
    rewrite Hx in HY. cbn [mbind result_bind Py.bind] in HY.
    fold (selected (data self) idx) in HY. unfold getitem_rows in HY.
    by rewrite (take_idx_None (rows (X (data self))) (selected (data self) idx) Hidx)
      in HY.
Qed.

(** X9. The arrays of [eval] are aligned.  When the [eval] branch of the
    classifier returns, for an in-memory or a backed source, it returns a
    matrix, a label matrix and a weight vector with one row, one label row
    and one weight per selected observation; without weighting every
    weight is 1. *)
Theorem celltype_eval_arrays_aligned (self : EstimatorKerasCelltype)
    (idx : option (list nat)) (batch : option nat) (weighted : bool)
    (shuffle_buffer_size prefetch : nat)
    (x : matrix) (y : option (list (list Qc))) (w : option (list Float.t)) :
  well_shaped (X (data (base self))) ->
  ncols (X (data (base self))) = length (var_ensembl (data (base self))) ->
  celltype_get_dataset self idx batch "eval" weighted shuffle_buffer_size prefetch
  = Ok (CtArrays x y w) ->
  exists y' w',
    y = Some y' /\ w = Some w'
    /\ nrows x = length (selected (data (base self)) idx)
    /\ length y' = length (selected (data (base self)) idx)
    /\ length w' = length (selected (data (base self)) idx)
    /\ (weighted = false -> w' = replicate (length w') (Float.Fin 1)).
Proof.
  intros Hws Hw. unfold celltype_get_dataset.
  change (parse_mode "eval") with (Some Eval). cbv beta iota.
  intros ([weights y'] & Hout & Hrest)%bind_Ok.
  apply bind_Ok in Hrest as (x' & Hx & [= <- <- <-]).
  destruct (label_matrix_lengths self idx ["names"] weights y' Hout) as [Hly Hlw].
  eexists _, _. split; [done|]. split; [done|]. cbn [fst snd].
  split; [|split; [done|split]].
  - unfold celltype_x in Hx.
    destruct (filename (data (base self))) as [f|] eqn:Hf.
    + destruct idx as [idx|]; [|done]. by apply read_backed_rows_nrows in Hx.
    + by apply prepare_data_matrix_nrows in Hx.
  - destruct weighted; simpl; rewrite ?length_fmap; congruence.
  - intros ->. simpl. rewrite length_fmap.
    clear. induction weights as [|a l IH]; [done|]. simpl. by rewrite <- IH.
Qed.

Lemma celltype_eval_arrays_aligned_witness :
  exists x y' w',
    celltype_get_dataset (Examples.classifier Examples.remap_estimator) (Some [2; 0])
                         None "eval" false 100 10
    = Ok (CtArrays x (Some y') (Some w'))
    /\ nrows x = 2 /\ length y' = 2 /\ w' = [Float.Fin 1; Float.Fin 1].
Proof.
  eexists _, _, _. split; [vm_compute; reflexivity|].
  destruct (celltype_eval_arrays_aligned
              (Examples.classifier Examples.remap_estimator) (Some [2; 0])
              None false 100 10 _ _ _
              ltac:(repeat constructor) eq_refl eq_refl)
    as (y' & w' & Hy & Hw & Hx & Hly & Hlw & Hones).
  injection Hy as <-. injection Hw as <-.
  split; [exact Hx|]. split; [exact Hly|]. exact (Hones eq_refl).
Defined.

(** ** Loading weights *)

Lemma assert_md5_sum_Ok (e : env) (w : world) (fn : string) (target : option string)
    (u : unit) :
  _assert_md5_sum e w fn target = Ok u ->
  exists content, fs w !! fn = Some (File content)
                  /\ target = Some (hexdigest e content).
Proof.
  unfold _assert_md5_sum. destruct (fs w !! fn) as [[content|]|]; [|done..].
  cbv zeta. case_bool_decide; [|done]. intros _. by exists content.
Qed.

(** The file check and the load that follow the download or the local
    path. *)
Lemma load_checked_file (e : env) (self : EstimatorKeras) (w0 w w' : world)
    (fn : string) (r : result unit) :
  loaded_weights w = loaded_weights w0 ->
  (if exists_ w (fn +:+ ".h5") then
     match _assert_md5_sum e w (fn +:+ ".h5") (md5 self) with
     | Ok _ => (load_weights w (fn +:+ ".h5"), Ok tt)
     | Raise err => (w, Raise err)
     end
   else if exists_ w (fn +:+ ".data-00000-of-00001") then
     match _assert_md5_sum e w (fn +:+ ".data-00000-of-00001") (md5 self) with
     | Ok _ => (load_weights w fn, Ok tt)
     | Raise err => (w, Raise err)
     end
   else if exists_ w fn then
     (w, Raise (ValueError
                  "weights files saved in h5 format need to have an h5 file extension"))
   else
     (w, Raise (ValueError ("the weightsfile " +:+ fn +:+ " could not be found"))))
  = (w', r) ->
  match r with
  | Ok _ =>
      exists path content,
        fs w' !! path = Some (File content)
        /\ md5 self = Some (hexdigest e content)
        /\ ((path = fn +:+ ".h5" /\ loaded_weights w' = Some path)
            \/ (path = fn +:+ ".data-00000-of-00001"
                /\ loaded_weights w' = Some fn))
  | Raise _ => loaded_weights w' = loaded_weights w0
  end.
Proof.
  intros Hw.
  destruct (exists_ w (fn +:+ ".h5")).
  { destruct (_assert_md5_sum e w (fn +:+ ".h5") (md5 self)) as [u|err] eqn:Hsum.
    - intros [= <- <-]. apply assert_md5_sum_Ok in Hsum as (content & Hfile & Hmd5).
      exists (fn +:+ ".h5"), content. split; [done|]. split; [done|]. by left.
    - by intros [= <- <-]. }
  destruct (exists_ w (fn +:+ ".data-00000-of-00001")).
  { destruct (_assert_md5_sum e w (fn +:+ ".data-00000-of-00001") (md5 self))
      as [u|err] eqn:Hsum.
    - intros [= <- <-]. apply assert_md5_sum_Ok in Hsum as (content & Hfile & Hmd5).
      exists (fn +:+ ".data-00000-of-00001"), content.
      split; [done|]. split; [done|]. by right.
    - by intros [= <- <-]. }
  destruct (exists_ w fn); by intros [= <- <-].
Qed.

(** X10. Weights are only loaded from a file whose digest was checked.
    Whenever [load_pretrained_weights] returns, the model holds weights read
    from the [.h5] file or from the sharded file at the resolved path, that
    file exists, and the MD5 digest of its content is the expected
    [weights_md5]; whenever it raises, the weights of the model are the ones
    it had before the call. *)
Theorem load_pretrained_weights_checks_digest (e : env) (self : EstimatorKeras)
    (w w' : world) (r : result unit) :
  load_pretrained_weights e self w = (w', r) ->
  match r with
  | Ok _ =>
      exists path content,
        fs w' !! path = Some (File content)
        /\ md5 self = Some (hexdigest e content)
        /\ ((path = weights_fn self +:+ ".h5" /\ loaded_weights w' = Some path)
            \/ (path = weights_fn self +:+ ".data-00000-of-00001"
                /\ loaded_weights w' = Some (weights_fn self)))
  | Raise _ => loaded_weights w' = loaded_weights w
  end.
Proof.
  unfold load_pretrained_weights, weights_fn. cbv zeta.
  set (dir := if endswith (model_dir self) "/" then model_dir self +:+ "/"
              else model_dir self).
  destruct (startswith dir "http").
  - set (w1 := if negb (exists_ w (cache_path self)) then makedirs w (cache_path self)
               else w).
    assert (loaded_weights w1 = loaded_weights w) as Hw1.
    { subst w1. by destruct (negb _). }
    destruct (urlretrieve e (dir +:+ model_id self +:+ "_weights.h5")) as [c|].
    { by apply load_checked_file. }
    destruct (urlretrieve e (dir +:+ model_id self +:+ "_weights.data-00000-of-00001"))
      as [c|].
    { by apply load_checked_file. }
    by intros [= <- <-].
  - destruct (String.eqb dir ""); [by intros [= <- <-]|].
    by apply load_checked_file.
Qed.

Lemma load_pretrained_weights_checks_digest_witness :
  let e := {| hexdigest := fun c => "md5-" +:+ c; urlretrieve := fun _ => None |} in
  let self :=
    {| data := Examples.three_cells;
       topology_container := {| genome := "Homo_sapiens_GRCh38_97"; ensembl := ["a"] |};
       model_dir := "models"; model_id := "embedding_0"; model_type := "vae";
       md5 := Some "md5-abc"; cache_path := "cache/" |} in
  let w := {| fs := {[ "modelsembedding_0_weights.h5" := File "abc" ]};
              loaded_weights := None |} in
  exists w',
    load_pretrained_weights e self w = (w', Ok tt)
    /\ exists path content,
         fs w' !! path = Some (File content)
         /\ md5 self = Some (hexdigest e content)
         /\ ((path = weights_fn self +:+ ".h5" /\ loaded_weights w' = Some path)
             \/ (path = weights_fn self +:+ ".data-00000-of-00001"
                 /\ loaded_weights w' = Some (weights_fn self))).
Proof.
  intros e self w. eexists. split; [vm_compute; reflexivity|].
  apply (load_pretrained_weights_checks_digest e self w _ (Ok tt)).
  vm_compute. reflexivity.
Defined.

(** ** Sizes of the partitions *)






(** ** Test observations selected by a dictionary *)

Lemma in_test_step_spec (d : AnnData) (init v : list bool) (kv : string * split_value) :
  in_test_step d init kv = Ok v ->
  forall i, v !! i = Some true <-> init !! i = Some true /\ item_holds d i kv.
Proof.
  unfold in_test_step. intros (col & Hcol & Hand)%bind_Ok i.
  apply of_option_Ok in Hcol.
  assert (forall (b : string -> bool),
            (forall x, b x = true <-> split_value_accepts kv.2 x) ->
            logical_and init (b <$> col) = Ok v ->
            v !! i = Some true <-> init !! i = Some true /\ item_holds d i kv) as Hgen.
  { intros b Hb. unfold logical_and. case_decide; [|done]. intros [= <-].
    rewrite lookup_zip_with_Some. split.
    - intros (a & c & Hac & Ha & Hc). symmetry in Hac.
      apply andb_true_iff in Hac as [-> ->]. split; [done|].
      rewrite list_lookup_fmap in Hc.
      destruct (col !! i) as [x|] eqn:Hx; [|done]. injection Hc as Hc.
      exists col, x. split; [done|]. split; [done|]. by apply Hb.
    - intros [Ha (col' & x & Hcol' & Hx & Hacc)].
      assert (col' = col) as -> by congruence.
      exists true, true. split; [done|]. split; [done|].
      rewrite list_lookup_fmap, Hx. simpl. f_equal. by apply Hb. }
  destruct (kv.2) as [accepted|s] eqn:Hkv.
  - apply (Hgen (fun x => bool_decide (x ∈ accepted))); [|done].
    intros x. simpl. apply bool_decide_eq_true.
  - apply (Hgen (fun x => bool_decide (x = s))); [|done].
    intros x. simpl. apply bool_decide_eq_true.
Qed.

Lemma for_each_in_test_spec (d : AnnData) (items : list (string * split_value))
    (init v : list bool) :
  for_each (in_test_step d) items init = Ok v ->
  forall i, v !! i = Some true
            <-> init !! i = Some true /\ Forall (item_holds d i) items.
Proof.
  revert init. induction items as [|kv items IH]; intros init; simpl.
  - intros [= ->] i. split; [by intros ?|by intros [? _]].
  - intros (v' & Hstep & Hrest)%bind_Ok i.
    rewrite (IH _ Hrest i), (in_test_step_spec _ _ _ _ Hstep i), Forall_cons.
    tauto.
Qed.

(** X12. Which observations a dictionary selects.  For a dictionary
    [test_split] the test indices are exactly the observations that satisfy
    every item: the value of the [obs] column named by the key is one of the
    listed values for a list, and equals the given value otherwise.  With
    no item every observation is a test observation. *)
Theorem dictionary_test_split (rs : RandomState) (self : EstimatorKeras)
    (items : list (string * split_value)) (validation_split : Qc) (p : Partition) :
  split_indices rs self (SplitDict items) validation_split = Ok p ->
  forall i, i ∈ idx_test p
            <-> i < n_obs (data self) /\ Forall (item_holds (data self) i) items.
Proof.
  unfold split_indices.
  intros (test & Htest & (eval & Heval & [= <-])%bind_Ok)%bind_Ok i.
  cbn [idx_test].
  apply bind_Ok in Htest as (in_test & Hfor & [= <-]).
  pose proof (for_each_in_test_spec _ _ _ _ Hfor i) as Hspec.
  rewrite elem_of_where_. split.
  - intros (b & Hb & Hid). simpl in Hid. subst b.
    apply Hspec in Hb as [Hinit Hall]. split; [|done].
    apply lookup_replicate in Hinit as [_ ?]. done.
  - intros [Hi Hall]. exists true. split; [|done].
    apply Hspec. split; [|done]. by apply lookup_replicate.
Qed.

Lemma dictionary_test_split_witness :
  exists p,
    split_indices reverse_random_state Examples.remap_estimator
      (SplitDict [("cell_ontology_class", AnyOf ["B cell"; "NK cell"])])
      (Q2Qc (1 # 2)) = Ok p
    /\ (1 ∈ idx_test p
        <-> 1 < n_obs (data Examples.remap_estimator)
            /\ Forall (item_holds (data Examples.remap_estimator) 1)
                      [("cell_ontology_class", AnyOf ["B cell"; "NK cell"])]).
Proof.
  eexists. split; [vm_compute; reflexivity|].
  apply (dictionary_test_split reverse_random_state Examples.remap_estimator
           [("cell_ontology_class", AnyOf ["B cell"; "NK cell"])] (Q2Qc (1 # 2))).
  vm_compute. reflexivity.
Defined.

(** ** The class dictionary *)

Lemma np_unique_spec (l : list string) :
  NoDup (np_unique l)
  /\ StronglySorted String.le (np_unique l)
  /\ forall x, x ∈ np_unique l <-> x ∈ l.
Proof.
  unfold np_unique. split; [|split].
  - rewrite merge_sort_Permutation. apply NoDup_remove_dups.
  - apply StronglySorted_merge_sort; apply _.
  - intros x. rewrite merge_sort_Permutation. apply elem_of_remove_dups.
Qed.

Lemma class_dict_lookup (labels : list string) (off : nat) (d0 : gmap string Float.t)
    (label : string) (v : Float.t) :
  NoDup labels ->
  foldl (fun (d : gmap string Float.t) (il : nat * string) =>
           <[il.2 := Float.of_Z (Z.of_nat il.1)]> d)
        d0 (zip (seq off (length labels)) labels) !! label = Some v
  <-> (exists i, labels !! i = Some label /\ v = Float.of_Z (Z.of_nat (off + i)))
      \/ ((label ∉ labels) /\ d0 !! label = Some v).
Proof.
  intros Hnd. revert off d0.
  induction Hnd as [|a labels Ha Hnd IH]; intros off d0; simpl.
  - split.
    + intros Hd. right. split; [apply not_elem_of_nil|done].
    + intros [(i & Hi & _)|[_ Hd]]; [by rewrite lookup_nil in Hi|done].
  - rewrite IH. split.
    + intros [(i & Hi & ->)|[Hnin Hd]].
      * left. exists (S i). split; [done|]. f_equal. f_equal. lia.
      * destruct (decide (label = a)) as [->|Hne].
        -- rewrite lookup_insert_eq in Hd. injection Hd as <-.
           left. exists 0. split; [done|]. f_equal. f_equal. lia.
        -- rewrite lookup_insert_ne in Hd by done.
           right. split; [|done]. by intros [?|?]%elem_of_cons.
    + intros [([|i] & Hi & ->)|[Hnin Hd]].
      * injection Hi as ->. right. split; [done|].
        rewrite lookup_insert_eq. f_equal. f_equal. f_equal. lia.
      * left. exists i. split; [done|]. f_equal. f_equal. lia.
      * apply not_elem_of_cons in Hnin as [Hne Hnin].
        right. split; [done|]. by rewrite lookup_insert_ne.
Qed.

(** The dictionary built from a column: its keys are the joined values,
    numbered by their rank in ascending order. *)
Lemma class_dict_of_ranks (y : list obs_value) :
  exists labels : list string,
    NoDup labels
    /\ StronglySorted String.le labels
    /\ (forall x, x ∈ labels <-> x ∈ joined y)
    /\ forall label v,
         class_dict_of y !! label = Some v
         <-> exists i, labels !! i = Some label /\ v = Float.of_Z (Z.of_nat i).
Proof.
  destruct (np_unique_spec (joined y)) as (Hnd & Hs & Hel).
  exists (np_unique (joined y)). do 3 (split; [done|]).
  intros label v. unfold class_dict_of. cbv zeta.
  rewrite (class_dict_lookup (np_unique (joined y)) 0 ∅ label v Hnd). split.
  - intros [(i & Hi & ->)|[_ Hd]]; [by exists i|by rewrite lookup_empty in Hd].
  - intros (i & Hi & ->). left. by exists i.
Qed.

(** X13. The class dictionary numbers the labels in ascending order.  For
    an existing [obs] column, [_get_class_dict] returns a dictionary whose
    keys are exactly the values of the column, and the value of a key is the
    float of its rank among the distinct values in ascending string order,
    starting at 0.  A missing column raises [KeyError]. *)
Theorem class_dict_ranks (self : EstimatorKeras) (obs_key : string) :
  match obs (data self) !! obs_key with
  | None => _get_class_dict self obs_key = Raise (KeyError obs_key)
  | Some col =>
      exists (d : gmap string Float.t) (labels : list string),
        _get_class_dict self obs_key = Ok d
        /\ NoDup labels
        /\ StronglySorted String.le labels
        /\ (forall x, x ∈ labels <-> x ∈ col)
        /\ forall label v,
             d !! label = Some v
             <-> exists i, labels !! i = Some label
                           /\ v = Float.of_Z (Z.of_nat i)
  end.
Proof.
  unfold _get_class_dict. destruct (obs (data self) !! obs_key) as [col|]; [|done].
  cbn [of_option mbind result_bind Py.bind].
  assert (joined (ObsStr <$> col) = col) as Hj.
  { unfold joined. rewrite <- list_fmap_compose. apply list_fmap_id. }
  destruct (class_dict_of_ranks (ObsStr <$> col)) as (labels & Hnd & Hs & Hel & Hd).
  rewrite Hj in Hel. by exists (class_dict_of (ObsStr <$> col)), labels.
Qed.

(** ** From the split to the training stream *)

Lemma embedding_generator_memory_Ok (with_sf : bool) (Y : matrix) :
  embedding_generator_memory with_sf Y (_prepare_sf Y)
  = Ok (embedding_row_elem with_sf <$> rows Y).
Proof. destruct Y as [c xr]. apply embedding_generator_memory_rows. Qed.



(** X15. The validation stream of the embedding estimator reads the label
    column.  On an in-memory input without an [obs] column
    [cell_ontology_class], mode [train_val] raises [KeyError] although no
    label enters the dataset, while mode [train] on the same input, and mode
    [train_val] on the same data held in a file, return a dataset. *)
Theorem embedding_train_val_needs_label_column (self : EstimatorKeras)
    (idx : option (list nat)) (file : string) (batch : option nat)
    (shuffle_buffer_size prefetch : nat) (flag : bool) :
  in_memory_input self idx ->
  obs (data self) !! "cell_ontology_class" = None ->
  embedding_get_dataset self idx batch "train_val" shuffle_buffer_size prefetch flag
  = Raise (KeyError "cell_ontology_class")
  /\ (exists ds, embedding_get_dataset self idx batch "train" shuffle_buffer_size
                                       prefetch flag
                 = Ok (EmbDataset ds))
  /\ (exists ds, embedding_get_dataset (as_backed self file) idx batch "train_val"
                                       shuffle_buffer_size prefetch flag
                 = Ok (EmbDataset ds)).
Proof.
  intros Hin Hcol.
  destruct (prepare_data_matrix_Ok self idx Hin) as [Y HY].
  destruct Hin as [Hnb _ _ _ _].
  unfold embedding_get_dataset.
  change (parse_mode "train_val") with (Some TrainVal).
  change (parse_mode "train") with (Some Train).
  cbv beta iota zeta. split; [|split].
  - by rewrite Hnb, HY, Hcol.
  - rewrite Hnb, HY. by eexists.
  - by eexists.
Qed.

Lemma embedding_train_val_needs_label_column_witness :
  let self :=
    Examples.estimator
      {| X := X Examples.three_cells; X_kind := SpMatrix;
         var_ensembl := var_ensembl Examples.three_cells;
         obs := ∅; uns := ∅; filename := None |}
      ["c"; "z"; "a"] in
  embedding_get_dataset self None (Some 2) "train_val" 100 10 false
  = Raise (KeyError "cell_ontology_class").
Proof.
  intros self.
  apply (embedding_train_val_needs_label_column self None "cells.h5ad" (Some 2)
           100 10 false).
  - split; [reflexivity|discriminate|repeat constructor|reflexivity|].
    repeat constructor; simpl; lia.
  - reflexivity.
Defined.

(** ** The training stream of the classifier *)

(** X16. The in-memory training stream of the classifier is aligned.
    Whenever mode [train] or [train_val] of the classifier returns a dataset
    for an index array, the source is in memory, and one pass over the
    generator raises nothing and yields one element per index: element [k]
    is row [k] of the prepared matrix, row [k] of the label matrix and weight
    [k] (1 without weighting) of [_get_celltype_out]. *)
Theorem celltype_train_stream_aligned (self : EstimatorKerasCelltype) (idx : list nat)
    (batch : option nat) (mode : string) (weighted : bool)
    (shuffle_buffer_size prefetch : nat) (ds : Dataset celltype_elem) :
  well_shaped (X (data (base self))) ->
  ncols (X (data (base self))) = length (var_ensembl (data (base self))) ->
  mode = "train" \/ mode = "train_val" ->
  celltype_get_dataset self (Some idx) batch mode weighted shuffle_buffer_size prefetch
  = Ok (CtDataset ds) ->
  exists x w y elems,
    filename (data (base self)) = None
    /\ _prepare_data_matrix (base self) (Some idx) = Ok x
    /\ _get_celltype_out self (Some idx) ["names"] = Ok (w, y)
    /\ generator ds = Ok elems
    /\ length elems = length idx
    /\ forall k xk yk wk,
         elems !! k = Some (xk, yk, wk) ->
         rows x !! k = Some xk /\ y !! k = Some yk
         /\ wk = (if weighted then w !!! k else Float.Fin 1).
Proof.
  intros Hws Hw Hmode Hds.
  assert (exists rep,
            celltype_stream self (Some idx) batch weighted shuffle_buffer_size
                            prefetch rep = Ok (CtDataset ds)) as [rep Hstream].
  { unfold celltype_get_dataset in Hds. destruct Hmode as [-> | ->].
    - change (parse_mode "train") with (Some Train) in Hds.
      eexists. exact Hds.
    - change (parse_mode "train_val") with (Some TrainVal) in Hds.
      eexists. exact Hds. }
  clear Hds. unfold celltype_stream in Hstream.
  apply bind_Ok in Hstream as ([w y] & Hout & Hstream).
  apply bind_Ok in Hstream as ([ox gen] & Hst & Hstream).
  apply bind_Ok in Hstream as (x & Hx & [= <-]).
  cbn [fst snd generator] in *.
  destruct (filename (data (base self))) as [f|] eqn:Hf.
  { injection Hst as <- _. done. }
  apply bind_Ok in Hst as (x' & Hprep & [= <- <-]).
  injection Hx as ->.
  destruct (label_matrix_lengths self (Some idx) ["names"] w y Hout) as [Hly Hlw].
  pose proof (prepare_data_matrix_nrows (base self) _ x Hws Hw Hprep) as Hnx.
  change (selected (data (base self)) (Some idx)) with idx in Hly, Hnx.
  set (weights := if negb weighted then (fun _ => Float.Fin 1) <$> w else w).
  assert (length weights = length idx) as Hlws.
  { subst weights. destruct weighted; simpl; rewrite ?length_fmap; congruence. }
  assert (exists elems,
            celltype_generator_memory x y weights (Some idx) = Ok elems) as [elems Hel].
  { unfold celltype_generator_memory, enumerate. cbn [mbind result_bind Py.bind].
    apply map_result_total, Forall_forall.
    intros [k i] Hin. apply elem_of_zip_l in Hin. apply elem_of_seq in Hin.
    cbn [fst snd] in *. unfold row_at.
    destruct (lookup_lt_is_Some_2 (rows x) k) as [xk ->]; [unfold nrows in Hnx; lia|].
    destruct (lookup_lt_is_Some_2 y k) as [yk ->]; [lia|].
    destruct (lookup_lt_is_Some_2 weights k) as [wk ->]; [lia|].
    by eexists. }
  exists x, w, y, elems. do 4 (split; [done|]).
  unfold celltype_generator_memory, enumerate in Hel.
  cbn [mbind result_bind Py.bind] in Hel. apply map_result_Ok in Hel.
  split.
  { rewrite <- (Forall2_length _ _ _ Hel), length_zip, length_seq. lia. }
  intros k xk yk wk Hk.
  destruct (Forall2_lookup_r _ _ _ _ _ Hel Hk) as ([k' i] & Hki & Hrow).
  apply lookup_zip_with_Some in Hki as (k1 & i1 & [= <- <-] & Hk1 & _).
  apply lookup_seq in Hk1 as [-> _]. cbn [fst snd] in Hrow.
  apply bind_Ok in Hrow as (xk' & Hxk & Hrow).
  apply bind_Ok in Hrow as (yk' & Hyk & Hrow).
  apply bind_Ok in Hrow as (wk' & Hwk & [= <- <- <-]).
  apply of_option_Ok in Hxk, Hyk, Hwk. simpl in *.
  split; [done|]. split; [done|].
  subst weights. destruct weighted; simpl in *.
  - symmetry. by apply list_lookup_total_correct.
  - rewrite list_lookup_fmap in Hwk. destruct (w !! k); by simplify_eq/=.
Qed.

Lemma celltype_train_stream_aligned_witness :
  exists ds elems,
    celltype_get_dataset (Examples.classifier Examples.remap_estimator) (Some [2; 0])
                         (Some 2) "train" false 100 10
    = Ok (CtDataset ds)
    /\ generator ds = Ok elems /\ length elems = 2.
Proof.
  edestruct (celltype_train_stream_aligned
               (Examples.classifier Examples.remap_estimator) [2; 0] (Some 2) "train"
               false 100 10)
    as (x & w & y & elems & _ & _ & _ & Hgen & Hlen & _).
  - repeat constructor.
  - reflexivity.
  - left. reflexivity.
  - vm_compute. reflexivity.
  - eexists _, elems. split; [vm_compute; reflexivity|].
    split; [exact Hgen|exact Hlen].
Defined.

(** ** Evaluation before training: no test indices *)

Lemma seq_sorted (a n : nat) : StronglySorted le (seq a n).
Proof.
  revert a. induction n as [|n IH]; intros a; simpl; constructor; [apply IH|].
  apply Forall_forall. intros i Hi%elem_of_seq. lia.
Qed.

(** X17. Evaluating a backed source without indices.  [evaluate],
    [predict] and [ytrue] pass [idx_test], which is [None] until [train] has
    run.  For a backed source the [eval] and [predict] branches of the
    embedding estimator then return all observations in their order, while
    the same branches of the classifier raise. *)
Theorem backed_source_without_indices (self : EstimatorKerasCelltype) (file : string)
    (batch : option nat) (mode : string) (weighted flag : bool)
    (shuffle_buffer_size prefetch : nat) :
  filename (data (base self)) = Some file ->
  mode = "eval" \/ mode = "predict" ->
  embedding_get_dataset (base self) None batch mode shuffle_buffer_size prefetch flag
  = Ok (EmbArrays (X (data (base self))) (_prepare_sf (X (data (base self))))
                  (is_vae (base self)))
  /\ raises (celltype_get_dataset self None batch mode weighted shuffle_buffer_size
                                  prefetch).
Proof.
  intros Hf Hmode. split.
  - assert (read_backed_rows (data (base self)) (seq 0 (n_obs (data (base self))))
            = Ok (X (data (base self)))) as Hread.
    { rewrite read_backed_rows_sorted by apply seq_sorted. apply getitem_rows_all. }
    unfold embedding_get_dataset.
    destruct Hmode as [-> | ->];
      [change (parse_mode "eval") with (Some Eval)
      |change (parse_mode "predict") with (Some Predict)];
      cbv beta iota zeta; rewrite Hf; cbn [default]; by rewrite Hread.
  - unfold celltype_get_dataset, celltype_x.
    destruct Hmode as [-> | ->];
      [change (parse_mode "eval") with (Some Eval)
      |change (parse_mode "predict") with (Some Predict)];
      cbv beta iota zeta; rewrite Hf; [|done].
    by destruct (_get_celltype_out self None ["names"]).
Qed.

Lemma backed_source_without_indices_witness :
  embedding_get_dataset Examples.backed_estimator None None "predict" 100 10 false
  = Ok (EmbArrays (X Examples.backed_cells) (_prepare_sf (X Examples.backed_cells)) true)
  /\ raises (celltype_get_dataset (Examples.classifier Examples.backed_estimator)
                                  None None "predict" true 100 10).
Proof.
  apply (backed_source_without_indices (Examples.classifier Examples.backed_estimator)
           "cells.h5ad" None "predict" true false 100 10).
  - reflexivity.
  - right. reflexivity.
Defined.

(** ** Streams built without an index array *)

(** X18. The streaming branches need an index array.
    [compute_gradients_input] with [test_data=False] calls [_get_dataset]
    with [idx=None] in mode [train_val].  Whenever the classifier returns a
    dataset for [idx=None] in mode [train] or [train_val], a pass over its
    generator raises [TypeError] and yields nothing; the same holds for the
    dataset the embedding estimator builds over a backed source, while over
    an in-memory input marked as mapped its generator yields every
    observation. *)
Theorem streams_without_indices (self : EstimatorKerasCelltype) (batch : option nat)
    (mode : string) (weighted flag : bool) (shuffle_buffer_size prefetch : nat) :
  mode = "train" \/ mode = "train_val" ->
  (forall out,
     celltype_get_dataset self None batch mode weighted shuffle_buffer_size prefetch
     = Ok out ->
     exists ds, out = CtDataset ds
                /\ generator ds = Raise (TypeError "'NoneType' object is not iterable"))
  /\ (forall file,
        filename (data (base self)) = Some file ->
        exists ds,
          embedding_get_dataset (base self) None batch mode shuffle_buffer_size
                                prefetch flag
          = Ok (EmbDataset ds)
          /\ generator ds = Raise (TypeError "'NoneType' object is not iterable"))
  /\ (filename (data (base self)) = None ->
      X_kind (data (base self)) <> OtherX ->
      uns (data (base self)) !! "mapped_features"
      = Some (genome (topology_container (base self))) ->
      mode = "train" ->
      exists ds,
        embedding_get_dataset (base self) None batch mode shuffle_buffer_size
                              prefetch flag
        = Ok (EmbDataset ds)
        /\ generator ds
           = Ok (embedding_row_elem (is_vae (base self)) <$> rows (X (data (base self))))).
Proof.
  intros Hmode. split; [|split].
  - intros out Hout.
    assert (exists rep,
              celltype_stream self None batch weighted shuffle_buffer_size
                              prefetch rep = Ok out) as [rep Hstream].
    { unfold celltype_get_dataset in Hout. destruct Hmode as [-> | ->].
      - change (parse_mode "train") with (Some Train) in Hout.
        eexists. exact Hout.
      - change (parse_mode "train_val") with (Some TrainVal) in Hout.
        eexists. exact Hout. }
    clear Hout. unfold celltype_stream in Hstream.
    apply bind_Ok in Hstream as ([w y] & _ & Hstream).
    apply bind_Ok in Hstream as ([ox gen] & Hst & Hstream).
    apply bind_Ok in Hstream as (x & _ & [= <-]).
    eexists. split; [done|]. cbn [generator snd].
    destruct (filename (data (base self))).
    + by injection Hst as _ <-.
    + apply bind_Ok in Hst as (x' & _ & [= _ <-]). done.
  - intros file Hf. unfold embedding_get_dataset.
    destruct Hmode as [-> | ->];
      [change (parse_mode "train") with (Some Train)
      |change (parse_mode "train_val") with (Some TrainVal)];
      cbv beta iota zeta; rewrite Hf; cbn [mbind result_bind Py.bind];
      by eexists.
  - intros Hnb Hrec Hm ->. unfold embedding_get_dataset.
    change (parse_mode "train") with (Some Train). cbv beta iota zeta.
    rewrite Hnb. unfold _prepare_data_matrix.
    rewrite prepare_data_matrix_step_mapped by done.
    change (selected (data (base self)) None)
      with (seq 0 (nrows (X (data (base self))))).
    rewrite getitem_rows_all. cbn [mbind result_bind Py.bind].
    rewrite embedding_generator_memory_Ok. by eexists.
Qed.

Lemma streams_without_indices_witness :
  exists out ds,
    celltype_get_dataset (Examples.classifier Examples.remap_estimator) None (Some 64)
                         "train_val" true 100 10
    = Ok out
    /\ out = CtDataset ds
    /\ generator ds = Raise (TypeError "'NoneType' object is not iterable").
Proof.
  pose proof (proj1 (streams_without_indices
                       (Examples.classifier Examples.remap_estimator)
                       (Some 64) "train_val" true false 100 10
                       (or_intror eq_refl))) as H.
  edestruct H as (ds & Hout & Hgen); [vm_compute; reflexivity|].
  eexists _, ds. split; [vm_compute; reflexivity|]. split; [exact Hout|exact Hgen].
Defined.
